(** * VulnDash extraction engine and processing pipeline

    A shallow embedding of
      - app/backend/services/llm_service.py
      - app/backend/services/ollama_client.py
      - app/backend/services/llm_multi_provider_service.py
      - app/backend/services/processing_service.py
      - app/backend/services/scheduler.py
      - app/backend/models/database.py (RawEntry, Vulnerability)
    and the properties of the extraction / reconciliation core.

    Conventions.
      - Text is modelled by ASCII [string]s.
      - A Python float is modelled by the rational it denotes ([Q]); the
        confidence arithmetic only ever produces multiples of 1/100, for
        which binary64 rounding followed by [round(_, 3)] returns the double
        nearest to the exact decimal, so comparisons agree with the exact
        ones.
      - A Python [dict] is a [gmap string pyval].
      - Exceptions are explicit: a fallible computation returns a
        [py_result]. *)

From Stdlib Require Import ZArith QArith Qround Qminmax Lia Lqa.
From Stdlib Require Import Ascii String.
From stdpp Require Import gmap strings list sorting.

Set Warnings "-register-all,-clear-no-such-hyp".
Local Open Scope Z_scope.

(* ===================================================================== *)
(** * Python values                                                       *)
(* ===================================================================== *)

Module Py.

(** Exception classes that occur in the modelled code.  The two
    hierarchies are
      OllamaClientError > OllamaConnectionError, OllamaModelError
      LLMProviderError  > LLMConnectionError, LLMGenerationError,
                          LLMConfigError. *)
Inductive exn_class :=
| TypeError | ValueError | OverflowError | AttributeError
| OllamaConnectionError | OllamaModelError
| LLMConnectionError | LLMGenerationError | LLMConfigError
| OtherException.

Record exn := Exn { exn_cls : exn_class; exn_msg : string }.

Inductive py_result (A : Type) :=
| Ok (a : A)
| Raise (e : exn).
Arguments Ok {A} a.
Arguments Raise {A} e.

Definition bind {A B} (m : py_result A) (k : A -> py_result B) : py_result B :=
  match m with
  | Ok a => k a
  | Raise e => Raise e
  end.

Definition returns {A} (m : py_result A) : Prop := exists a, m = Ok a.

(** A Python float: a finite double (by its exact value), an infinity or
    a NaN. *)
Inductive pyfloat :=
| FFinite (q : Q)
| FInf (negative : bool)
| FNan.

(** The values a decoded JSON document is made of. *)
Inductive pyval :=
| PNone
| PBool (b : bool)
| PInt (z : Z)
| PFloat (f : pyfloat)
| PStr (s : string)
| PList (l : list pyval)
| PDict (d : list (string * pyval)).

(** [bool(v)]. *)
Definition truthy (v : pyval) : bool :=
  match v with
  | PNone => false
  | PBool b => b
  | PInt z => negb (z =? 0)
  | PFloat (FFinite q) => negb (Qeq_bool q 0)
  | PFloat _ => true
  | PStr s => negb (String.eqb s "")
  | PList l => negb (Nat.eqb (List.length l) 0)
  | PDict d => negb (Nat.eqb (List.length d) 0)
  end.

(** [d.get(k)] and [d.get(k, default)]. *)
Definition get (d : gmap string pyval) (k : string) : pyval :=
  default PNone (d !! k).

Definition get_or (d : gmap string pyval) (k : string) (dflt : pyval) : pyval :=
  default dflt (d !! k).

(** [type(v).__name__] *)
Definition type_name (v : pyval) : string :=
  match v with
  | PNone => "NoneType"
  | PBool _ => "bool"
  | PInt _ => "int"
  | PFloat _ => "float"
  | PStr _ => "str"
  | PList _ => "list"
  | PDict _ => "dict"
  end.

(** The AttributeError of [v.name] for an attribute [v] does not have. *)
Definition no_attribute (v : pyval) (name : string) : exn :=
  Exn AttributeError
    ("'" +:+ type_name v +:+ "' object has no attribute '" +:+ name +:+ "'").

(** [len(v)]: defined on sized values only. *)
Definition len (v : pyval) : py_result nat :=
  match v with
  | PStr s => Ok (String.length s)
  | PList l => Ok (List.length l)
  | PDict d => Ok (List.length d)
  | _ =>
      Raise (Exn TypeError
               ("object of type '" +:+ type_name v +:+ "' has no len()"))
  end.

(** ** Strings *)

Definition is_lower (c : ascii) : bool :=
  (97 <=? nat_of_ascii c)%nat && (nat_of_ascii c <=? 122)%nat.

Definition upper_char (c : ascii) : ascii :=
  if is_lower c then ascii_of_nat (nat_of_ascii c - 32) else c.

(** [s.upper()]. *)
Fixpoint upper (s : string) : string :=
  match s with
  | EmptyString => EmptyString
  | String c s' => String (upper_char c) (upper s')
  end.

(** The ASCII characters [str.strip()] removes: TAB, LF, VT, FF, CR,
    FS, GS, RS, US and the space. *)
Definition is_space (c : ascii) : bool :=
  let n := nat_of_ascii c in
  ((9 <=? n)%nat && (n <=? 13)%nat) || ((28 <=? n)%nat && (n <=? 32)%nat).

Fixpoint lstrip (s : string) : string :=
  match s with
  | EmptyString => EmptyString
  | String c s' => if is_space c then lstrip s' else s
  end.

(** Strips the trailing white space: a character is dropped when it is a
    space and everything after it has been dropped. *)
Fixpoint rstrip (s : string) : string :=
  match s with
  | EmptyString => EmptyString
  | String c s' =>
      match rstrip s' with
      | EmptyString => if is_space c then EmptyString else String c EmptyString
      | r => String c r
      end
  end.

(** [s.strip()]. *)
Definition strip (s : string) : string := rstrip (lstrip s).

(** [s[:n]]. *)
Definition prefix (n : nat) (s : string) : string := String.substring 0 n s.

(** ** Builtins that are taken as given

    [str()] of a value that is not a string, [float()] of a string,
    [json.loads] and [datetime.isoformat] are library code; the
    development is parametric in them. *)
Class Builtins := {
  py_repr : pyval -> string;
  float_of_str : string -> option pyfloat;
  json_loads : string -> option pyval;
  isoformat : Z -> string
}.

(** [str(v)]. *)
Definition str `{Builtins} (v : pyval) : string :=
  match v with
  | PStr s => s
  | _ => py_repr v
  end.

(** The largest magnitude below which an [int] converts to a double:
    from 2^1024 - 2^970 on, [float()] raises OverflowError. *)
Definition float_int_limit : Z := 2 ^ 1024 - 2 ^ 970.

(** [float(v)].  For an [int] beyond 2^53 the double is the one nearest
    to the integer; it compares with 0 and 10 as the integer does, and
    nothing else is asked of it here. *)
Definition float `{Builtins} (v : pyval) : py_result pyfloat :=
  match v with
  | PFloat f => Ok f
  | PInt z =>
      if Z.abs z <? float_int_limit then Ok (FFinite (inject_Z z))
      else Raise (Exn OverflowError "int too large to convert to float")
  | PBool b => Ok (FFinite (if b then 1%Q else 0%Q))
  | PStr s =>
      match float_of_str s with
      | Some f => Ok f
      | None =>
          Raise (Exn ValueError
                   ("could not convert string to float: "
                    +:+ py_repr (PStr s)))
      end
  | _ =>
      Raise (Exn TypeError
               ("float() argument must be a string or a real number, not '"
                +:+ type_name v +:+ "'"))
  end.

(** [x < y] and [x > y] on floats. *)
Definition float_lt (x y : Q) : bool := negb (Qle_bool y x).
Definition float_gt (x y : Q) : bool := float_lt y x.

(** [round(x, 3)] on the exact value: to the nearest multiple of 1/1000,
    ties to the even one. *)
Definition round3 (x : Q) : Q :=
  let y := (x * 1000)%Q in
  let f := Qfloor y in
  let r := (y - inject_Z f)%Q in
  let n :=
    match (r ?= 1 # 2)%Q with
    | Lt => f
    | Gt => f + 1
    | Eq => if Z.even f then f else f + 1
    end in
  (inject_Z n / 1000)%Q.

End Py.

(** The error monad, with stdpp's [x ← m; k] notation. *)
#[global] Instance py_result_ret : MRet Py.py_result := fun A a => Py.Ok a.
#[global] Instance py_result_bind : MBind Py.py_result :=
  fun A B k m => Py.bind m k.

(* ===================================================================== *)
(** * The CVE pattern                                                     *)
(* ===================================================================== *)

(** [re.compile(r'CVE-\d{4}-\d{4,}', re.IGNORECASE)]: a fixed run of
    atoms followed by a greedy run of further digits. *)
Module Re.

Inductive atom :=
| Lit (c : ascii)   (* a literal, matched without regard to case *)
| Digit.            (* \d *)

Definition is_digit (c : ascii) : bool :=
  (48 <=? nat_of_ascii c)%nat && (nat_of_ascii c <=? 57)%nat.

Definition atom_ok (a : atom) (c : ascii) : bool :=
  match a with
  | Lit l => Ascii.eqb (Py.upper_char c) (Py.upper_char l)
  | Digit => is_digit c
  end.

(** Matches the atoms at the head of [s]; returns the matched text and
    the rest. *)
Fixpoint match_atoms (ats : list atom) (s : string) : option (string * string) :=
  match ats with
  | [] => Some (EmptyString, s)
  | a :: ats' =>
      match s with
      | EmptyString => None
      | String c s' =>
          if atom_ok a c then
            match match_atoms ats' s' with
            | Some (m, r) => Some (String c m, r)
            | None => None
            end
          else None
      end
  end.

(** The longest run of digits at the head of [s]. *)
Fixpoint take_digits (s : string) : string :=
  match s with
  | EmptyString => EmptyString
  | String c s' => if is_digit c then String c (take_digits s') else EmptyString
  end.

Definition CVE_PATTERN : list atom :=
  [Lit "C"; Lit "V"; Lit "E"; Lit "-"; Digit; Digit; Digit; Digit;
   Lit "-"; Digit; Digit; Digit; Digit]%char.

(** The match that starts at the head of [s], if there is one. *)
Definition match_at (s : string) : option string :=
  match match_atoms CVE_PATTERN s with
  | Some (m, r) => Some (m +:+ take_digits r)
  | None => None
  end.

(** [CVE_PATTERN.search(s)], as [match.group(0)]: the leftmost match. *)
Fixpoint search (s : string) : option string :=
  match match_at s with
  | Some m => Some m
  | None =>
      match s with
      | EmptyString => None
      | String _ s' => search s'
      end
  end.

(** [CVE_PATTERN.fullmatch(s) is not None]. *)
Definition fullmatch (s : string) : bool :=
  match match_at s with
  | Some m => String.eqb m s
  | None => false
  end.

End Re.

(* ===================================================================== *)
(** * ollama_client.py                                                    *)
(* ===================================================================== *)

Module OllamaClient.
Import Py.

Definition nl : string := String (ascii_of_nat 10) EmptyString.

(** What [httpx.AsyncClient.post] does: it raises (a time-out, or any
    other [httpx.HTTPError], a refused connection included), or it
    returns a response. *)
Inductive http_outcome :=
| TimeoutException (msg : string)
| HTTPError (msg : string)
| Response (status_code : Z) (text : string).

Record payload := {
  p_model : string;
  p_prompt : string;
  p_temperature : Q;
  p_num_predict : option Z;
  p_system : option string
}.

(** A time-out in seconds: an [int] (the default of the constructor is
    [30]) or a [float] ([process_batch] makes its client with
    [timeout=30.0]). *)
Inductive seconds :=
| IntSeconds (n : Z)
| FloatSeconds (q : Q).

(** [timeout * 2] *)
Definition twice (timeout : seconds) : pyval :=
  match timeout with
  | IntSeconds n => PInt (n * 2)
  | FloatSeconds q => PFloat (FFinite (q * 2))
  end.

Record t := {
  base_url : string;
  timeout : seconds;
  post : string -> payload -> http_outcome
}.

Record generated := { response : pyval; gen_metadata : gmap string pyval }.
Record generated_json := { data : pyval; metadata : gmap string pyval }.

(** The receiver of [.get]: a dict, or AttributeError. *)
Definition as_dict (v : pyval) : py_result (gmap string pyval) :=
  match v with
  | PDict d => Ok (list_to_map d)
  | _ => Raise (no_attribute v "get")
  end.

(** [v / n] for a positive int [n]. *)
Definition truediv (v : pyval) (n : Z) : py_result pyval :=
  let of_int z :=
    if Z.abs z <? float_int_limit * n
    then Ok (PFloat (FFinite (inject_Z z / inject_Z n)))
    else Raise (Exn OverflowError "integer division result too large for a float") in
  match v with
  | PInt z => of_int z
  | PBool b => of_int (if b then 1 else 0)
  | PFloat (FFinite q) => Ok (PFloat (FFinite (q / inject_Z n)))
  | PFloat f => Ok (PFloat f)
  | _ =>
      Raise (Exn TypeError
               ("unsupported operand type(s) for /: '" +:+ type_name v
                +:+ "' and 'int'"))
  end.

(** [generate]: every failure of the transport, a status other than 200
    and an undecodable body all surface as OllamaModelError. *)
Definition generate `{Builtins} (self : t) (model prompt : string)
    (temperature : Q) (max_tokens : option Z) (system_prompt : option string)
    : py_result generated :=
  let pl := {| p_model := model; p_prompt := prompt;
               p_temperature := temperature;
               p_num_predict :=
                 match max_tokens with
                 | Some n => if n =? 0 then None else Some n
                 | None => None
                 end;
               p_system :=
                 match system_prompt with
                 | Some s => if String.eqb s "" then None else Some s
                 | None => None
                 end |} in
  match post self (base_url self +:+ "/api/generate") pl with
  | TimeoutException _ =>
      Raise (Exn OllamaModelError
               ("Generation timeout (>" +:+ str (twice (timeout self))
                +:+ "s) for model '" +:+ model +:+ "'"))
  | HTTPError m =>
      Raise (Exn OllamaModelError ("Generation failed: " +:+ m))
  | Response status_code text =>
      if negb (status_code =? 200) then
        Raise (Exn OllamaModelError
                 ("Generation failed: HTTP " +:+ str (PInt status_code)
                  +:+ " - " +:+ text))
      else
        match json_loads text with
        | None => Raise (Exn OllamaModelError "Invalid response from Ollama server")
        | Some body =>
            d ← as_dict body;
            ms ← truediv (get_or d "total_duration" (PInt 0)) 1000000;
            Ok {| response := get_or d "response" (PStr "");
                  gen_metadata :=
                    {[ "model" := get_or d "model" (PStr model);
                       "created_at" := get_or d "created_at" (PStr "");
                       "done" := get_or d "done" (PBool false);
                       "total_duration_ms" := ms;
                       "eval_count" := get_or d "eval_count" (PInt 0) ]} |}
        end
  end.

(** [s.find(c)] and [s.rfind(c)]: the index, or -1. *)
Fixpoint find (c : ascii) (s : string) : Z :=
  match s with
  | EmptyString => -1
  | String x s' =>
      if Ascii.eqb x c then 0
      else let i := find c s' in if i =? -1 then -1 else i + 1
  end.

Fixpoint rfind (c : ascii) (s : string) : Z :=
  match s with
  | EmptyString => -1
  | String x s' =>
      let i := rfind c s' in
      if i =? -1 then (if Ascii.eqb x c then 0 else -1) else i + 1
  end.

(** [s[a:b]] for [0 <= a < b]. *)
Definition slice (a b : Z) (s : string) : string :=
  String.substring (Z.to_nat a) (Z.to_nat (b - a)) s.

(** [generate_json]: the text between the first opening and the last
    closing brace is decoded; a missing or undecodable object is an
    OllamaModelError. *)
Definition generate_json `{Builtins} (self : t) (model prompt : string)
    (temperature : Q) (system_prompt : option string)
    : py_result generated_json :=
  result ← generate self model prompt temperature None system_prompt;
  response_text ←
    match response result with
    | PStr s => Ok (strip s)
    | v => Raise (no_attribute v "strip")
    end;
  let start := find "{" response_text in
  let end_ := rfind "}" response_text + 1 in
  let invalid :=
    Raise (Exn OllamaModelError
             ("Model did not return valid JSON. Response preview: "
              +:+ prefix 100 response_text)) in
  if negb (start =? -1) && (start <? end_) then
    match json_loads (slice start end_ response_text) with
    | Some parsed => Ok {| data := parsed; metadata := gen_metadata result |}
    | None => invalid
    end
  else invalid.

End OllamaClient.

(* ===================================================================== *)
(** * llm_service.py                                                      *)
(* ===================================================================== *)

Module LLMService.
Import Py.

Record ExtractionResult := {
  cve_id : option string;
  title : option string;
  description : string;
  vendor : option string;
  product : option string;
  severity : option string;
  cvss_score : option Q;
  cvss_vector : option string;
  confidence_score : Q;
  needs_review : bool;
  extraction_metadata : gmap string pyval
}.

Record t := {
  ollama_client : OllamaClient.t;
  model : string;
  temperature : Q;
  confidence_threshold : Q
}.

Definition VALID_SEVERITIES : list string :=
  ["CRITICAL"; "HIGH"; "MEDIUM"; "LOW"; "NONE"; "UNKNOWN"].

Definition SYSTEM_PROMPT : string :=
  let nl := OllamaClient.nl in
  "You are a cybersecurity data extraction assistant. Your task is to extract structured vulnerability information from raw text."
  +:+ nl +:+ nl +:+ "Extract the following fields:"
  +:+ nl +:+ "- cve_id: CVE identifier (format: CVE-YYYY-NNNNN)"
  +:+ nl +:+ "- title: Short vulnerability title"
  +:+ nl +:+ "- description: Detailed description"
  +:+ nl +:+ "- vendor: Affected vendor/organization"
  +:+ nl +:+ "- product: Affected product name"
  +:+ nl +:+ "- severity: One of CRITICAL, HIGH, MEDIUM, LOW, NONE, or UNKNOWN"
  +:+ nl +:+ "- cvss_score: CVSS score if available (0.0-10.0)"
  +:+ nl +:+ "- cvss_vector: CVSS vector string if available"
  +:+ nl +:+ nl +:+ "Return ONLY a JSON object with these fields. Use null for missing values."
  +:+ nl +:+ "Be conservative - only extract information you are confident about.".

(** The state of [_validate_extraction]: the [validated] dict and the
    [issues] list. *)
Definition vstate : Type := gmap string pyval * list string.

(** # Validate CVE ID *)
Definition validate_cve_id `{Builtins} (data : gmap string pyval)
    (raw_text : string) (st : vstate) : vstate :=
  let '(validated, issues) := st in
  let cve_id := get data "cve_id" in
  if truthy cve_id then
    let cve_id := strip (upper (str cve_id)) in
    if Re.fullmatch cve_id then (<["cve_id" := PStr cve_id]> validated, issues)
    else
      let issues := issues ++ ["Invalid CVE format: " +:+ cve_id] in
      match Re.search raw_text with
      | Some m =>
          (<["cve_id" := PStr (upper m)]> validated,
           issues ++ ["CVE extracted from raw text instead"])
      | None => (validated, issues)
      end
  else
    match Re.search raw_text with
    | Some m => (<["cve_id" := PStr (upper m)]> validated, issues)
    | None => (validated, issues ++ ["No CVE ID found"])
    end.

(** # Validate severity *)
Definition validate_severity `{Builtins} (data : gmap string pyval)
    (st : vstate) : vstate :=
  let '(validated, issues) := st in
  let severity := get data "severity" in
  if truthy severity then
    let severity := strip (upper (str severity)) in
    if bool_decide (severity ∈ VALID_SEVERITIES)
    then (<["severity" := PStr severity]> validated, issues)
    else (<["severity" := PStr "UNKNOWN"]> validated,
          issues ++ ["Invalid severity: " +:+ severity])
  else (<["severity" := PStr "UNKNOWN"]> validated, issues).

(** [0.0 <= score <= 10.0] *)
Definition cvss_in_range (score : pyfloat) : bool :=
  match score with
  | FFinite q => Qle_bool 0 q && Qle_bool q 10
  | _ => false
  end.

(** # Validate CVSS score *)
Definition validate_cvss_score `{Builtins} (data : gmap string pyval)
    (st : vstate) : py_result vstate :=
  let '(validated, issues) := st in
  let cvss_score := get data "cvss_score" in
  match cvss_score with
  | PNone => Ok (validated, issues)
  | _ =>
      match float cvss_score with
      | Ok score =>
          if cvss_in_range score
          then Ok (<["cvss_score" := PFloat score]> validated, issues)
          else Ok (validated,
                   issues ++ ["CVSS score out of range: " +:+ str (PFloat score)])
      | Raise e =>
          match exn_cls e with
          | ValueError | TypeError =>
              Ok (validated,
                  issues ++ ["Invalid CVSS score: " +:+ str cvss_score])
          | _ => Raise e
          end
      end
  end.

Definition STRING_FIELDS : list string :=
  ["title"; "description"; "vendor"; "product"; "cvss_vector"].

(** # Simple string fields: one turn of the loop *)
Definition validate_field `{Builtins} (data : gmap string pyval)
    (validated : gmap string pyval) (field : string) : gmap string pyval :=
  let value := get data field in
  if truthy value && truthy (PStr (strip (str value)))
  then <[field := PStr (strip (str value))]> validated
  else validated.

(** # Ensure description exists *)
Definition ensure_description (raw_text : string) (st : vstate)
    : py_result vstate :=
  let '(validated, issues) := st in
  let fallback :=
    Ok (<["description" := PStr (prefix 500 raw_text)]> validated,
        issues ++ ["Using raw text as description"]) in
  match validated !! "description" with
  | None => fallback
  | Some d =>
      n ← len d;
      if (n <? 10)%nat then fallback else Ok (validated, issues)
  end.

Definition _validate_extraction `{Builtins} (data : gmap string pyval)
    (raw_text : string) : py_result (gmap string pyval) :=
  let st : vstate := (∅, []) in
  let st := validate_cve_id data raw_text st in
  let st := validate_severity data st in
  st ← validate_cvss_score data st;
  let st := (foldl (validate_field data) st.1 STRING_FIELDS, st.2) in
  st ← ensure_description raw_text st;
  Ok (<["_validation_issues" := PList (PStr <$> st.2)]> st.1).

(** [v != "UNKNOWN"] *)
Definition ne_str (v : pyval) (s : string) : bool :=
  match v with
  | PStr x => negb (String.eqb x s)
  | _ => true
  end.

Definition _calculate_confidence (validated_data : gmap string pyval)
    (raw_text : string) : py_result Q :=
  let score := 0%Q in
  let max_score := 0%Q in
  (* CVE ID (required, high weight) *)
  let max_score := (max_score + 30)%Q in
  let score := if truthy (get validated_data "cve_id")
               then (score + 30)%Q else score in
  (* Vendor/Product (important) *)
  let max_score := (max_score + 20)%Q in
  let score := if truthy (get validated_data "vendor")
               then (score + 10)%Q else score in
  let score := if truthy (get validated_data "product")
               then (score + 10)%Q else score in
  (* Severity (important) *)
  let max_score := (max_score + 15)%Q in
  let score := if truthy (get validated_data "severity")
                  && ne_str (get validated_data "severity") "UNKNOWN"
               then (score + 15)%Q else score in
  (* CVSS score (nice to have) *)
  let max_score := (max_score + 10)%Q in
  let score := match get validated_data "cvss_score" with
               | PNone => score
               | _ => (score + 10)%Q
               end in
  (* Description quality *)
  let max_score := (max_score + 15)%Q in
  let description := get_or validated_data "description" (PStr "") in
  n ← len description;
  let score := if (50 <=? n)%nat then (score + 15)%Q
               else if (20 <=? n)%nat then (score + 10)%Q
               else if (10 <=? n)%nat then (score + 5)%Q
               else score in
  (* Title *)
  let max_score := (max_score + 10)%Q in
  let score := if truthy (get validated_data "title")
               then (score + 10)%Q else score in
  (* Deductions for validation issues *)
  let issues := get_or validated_data "_validation_issues" (PList []) in
  k ← len issues;
  let penalty := Z.min (Z.of_nat k * 5) 20 in
  let final_score :=
    Qmax 0 (Qmin 1 (score / max_score - inject_Z penalty / 100)) in
  Ok (round3 final_score).

(** The typed reading of [validated.get(k)] for the constructor of
    [ExtractionResult]: validation stores a [str] under the text keys and
    a finite float under "cvss_score" (lemma [validated_typed]). *)
Definition get_str (d : gmap string pyval) (k : string) : option string :=
  match d !! k with
  | Some (PStr s) => Some s
  | _ => None
  end.

Definition get_float (d : gmap string pyval) (k : string) : option Q :=
  match d !! k with
  | Some (PFloat (FFinite q)) => Some q
  | _ => None
  end.

Definition _create_fallback_result `{Builtins} (raw_text error_msg : string)
    (now : Z) : ExtractionResult :=
  (* Try to extract CVE from raw text *)
  let cve_match := Re.search raw_text in
  let cve_id := upper <$> cve_match in
  {| cve_id := cve_id;
     title := None;
     description := prefix 500 raw_text;
     vendor := None;
     product := None;
     severity := Some "UNKNOWN";
     cvss_score := None;
     cvss_vector := None;
     confidence_score := if truthy (from_option PStr PNone cve_id)
                         then 1 # 10 else 0;
     needs_review := true;
     extraction_metadata :=
       {[ "error" := PStr error_msg;
          "fallback" := PBool true;
          "extraction_time" := PStr (isoformat now) ]} |}.

(** [try: body except classes as e: handler(e)] *)
Definition try_except {A} (body : py_result A) (catches : exn_class -> bool)
    (handler : exn -> py_result A) : py_result A :=
  match body with
  | Ok a => Ok a
  | Raise e => if catches (exn_cls e) then handler e else Raise e
  end.

Definition build_prompt (raw_text : string) : string :=
  let nl := OllamaClient.nl in
  "Extract vulnerability information from the following text:"
  +:+ nl +:+ nl +:+ raw_text +:+ nl +:+ nl
  +:+ "Return a JSON object with the extracted fields.".

(** [now] is the reading of [datetime.utcnow()]. *)
Definition extract_vulnerability `{Builtins} (self : t) (raw_text : string)
    (now : Z) : py_result ExtractionResult :=
  let prompt := build_prompt raw_text in
  try_except
    (result ← OllamaClient.generate_json (ollama_client self) (model self)
                prompt (temperature self) (Some SYSTEM_PROMPT);
     let extracted_data := OllamaClient.data result in
     let llm_metadata := OllamaClient.metadata result in
     (* Validate and normalize extracted data *)
     data ← OllamaClient.as_dict extracted_data;
     validated ← _validate_extraction data raw_text;
     (* Calculate confidence score *)
     confidence ← _calculate_confidence validated raw_text;
     (* Determine if needs review *)
     let needs_review :=
       float_lt confidence (confidence_threshold self) in
     Ok {| cve_id := get_str validated "cve_id";
           title := get_str validated "title";
           description :=
             default (prefix 500 raw_text) (get_str validated "description");
           vendor := get_str validated "vendor";
           product := get_str validated "product";
           severity := get_str validated "severity";
           cvss_score := get_float validated "cvss_score";
           cvss_vector := get_str validated "cvss_vector";
           confidence_score := confidence;
           needs_review := needs_review;
           extraction_metadata :=
             {[ "model" := PStr (model self);
                "temperature" := PFloat (FFinite (temperature self));
                "extraction_time" := PStr (isoformat now);
                "llm_duration_ms" :=
                  get_or llm_metadata "total_duration_ms" (PInt 0);
                "validation_issues" :=
                  get_or validated "_validation_issues" (PList []) ]} |})
    (fun c => match c with OllamaModelError => true | _ => false end)
    (fun e =>
       (* Return low-confidence result on error *)
       Ok (_create_fallback_result raw_text (exn_msg e) now)).

(** [batch_extract]: one result for each text, in order.  Whatever
    [extract_vulnerability] raises is turned into the fallback result.
    The text at position [i] takes the [i]-th reading of the clock: one
    reading is taken for each text, by the result that is built. *)
Definition batch_extract `{Builtins} (self : t) (raw_texts : list string)
    (clock : nat -> Z) : list ExtractionResult :=
  imap (fun i text =>
          match extract_vulnerability self text (clock i) with
          | Ok result => result
          | Raise e => _create_fallback_result text (exn_msg e) (clock i)
          end) raw_texts.

End LLMService.

(* ===================================================================== *)
(** * llm_multi_provider_service.py                                       *)
(* ===================================================================== *)

Module MultiProviderLLMService.
Import Py.
Import LLMService (ExtractionResult).

(** The interface [LLMProvider] of llm_providers.py, as far as the
    extraction uses it. *)
Record LLMProvider := {
  provider_name : string;
  generate_json :
    string (* model *) -> string (* prompt *) ->
    string (* system_prompt *) -> Q (* temperature *) ->
    py_result OllamaClient.generated_json
}.

Record t := {
  primary_provider : LLMProvider;
  fallback_providers : list LLMProvider;
  model : string;
  temperature : Q;
  confidence_threshold : Q;
  max_retries : Z
}.

(** [max_retries: int = 3] *)
Definition default_max_retries : Z := 3.

Definition _build_extraction_prompt (raw_text : string) : string :=
  LLMService.build_prompt raw_text.

(** [str(last_error)] *)
Definition str_error (last_error : option exn) : string :=
  match last_error with
  | Some e => exn_msg e
  | None => "None"
  end.

(** The body of the [try] for one provider. *)
Definition attempt_with `{Builtins} (self : t) (raw_text : string) (now : Z)
    (attempt : nat) (provider : LLMProvider) : py_result ExtractionResult :=
  (* Generate JSON from provider *)
  result ← generate_json provider (model self)
              (_build_extraction_prompt raw_text)
              LLMService.SYSTEM_PROMPT (temperature self);
  let extracted_data := OllamaClient.data result in
  let provider_metadata := OllamaClient.metadata result in
  (* Validate and normalize extracted data *)
  data ← OllamaClient.as_dict extracted_data;
  validated ← LLMService._validate_extraction data raw_text;
  (* Calculate confidence score *)
  confidence ← LLMService._calculate_confidence validated raw_text;
  (* Determine if needs review *)
  let needs_review := float_lt confidence (confidence_threshold self) in
  Ok {| LLMService.cve_id := LLMService.get_str validated "cve_id";
        LLMService.title := LLMService.get_str validated "title";
        LLMService.description :=
          default (prefix 500 raw_text)
                  (LLMService.get_str validated "description");
        LLMService.vendor := LLMService.get_str validated "vendor";
        LLMService.product := LLMService.get_str validated "product";
        LLMService.severity := LLMService.get_str validated "severity";
        LLMService.cvss_score := LLMService.get_float validated "cvss_score";
        LLMService.cvss_vector := LLMService.get_str validated "cvss_vector";
        LLMService.confidence_score := confidence;
        LLMService.needs_review := needs_review;
        LLMService.extraction_metadata :=
          {[ "provider" := PStr (provider_name provider);
             "model" := PStr (model self);
             "temperature" := PFloat (FFinite (temperature self));
             "extraction_time" := PStr (isoformat now);
             "provider_metadata" := PDict (map_to_list provider_metadata);
             "validation_issues" :=
               get_or validated "_validation_issues" (PList []);
             "fallback_attempt" := PInt (Z.of_nat attempt) ]} |}.

Definition is_provider_failure (c : exn_class) : bool :=
  match c with
  | LLMConnectionError | LLMGenerationError => true
  | _ => false
  end.

(** The [for attempt, provider in enumerate(providers_to_try)] loop,
    from position [attempt] on.  The first component is the log of the
    providers whose [generate_json] was called, in call order. *)
Fixpoint try_providers `{Builtins} (self : t) (raw_text : string) (now : Z)
    (attempt : nat) (providers : list LLMProvider) (last_error : option exn)
    : list string * py_result ExtractionResult :=
  let all_failed :=
    (* All providers failed - return fallback result *)
    Ok (LLMService._create_fallback_result raw_text
          ("All providers failed: " +:+ str_error last_error) now) in
  match providers with
  | [] => ([], all_failed)
  | provider :: rest =>
      if max_retries self <=? Z.of_nat attempt then ([], all_failed)
      else
        match attempt_with self raw_text now attempt provider with
        | Ok r => ([provider_name provider], Ok r)
        | Raise e =>
            if is_provider_failure (exn_cls e) then
              let '(log, res) :=
                try_providers self raw_text now (S attempt) rest (Some e) in
              (provider_name provider :: log, res)
            else ([provider_name provider], Raise e)
        end
  end.

Definition providers_to_try (self : t) : list LLMProvider :=
  [primary_provider self] ++ fallback_providers self.

Definition run `{Builtins} (self : t) (raw_text : string) (now : Z)
    : list string * py_result ExtractionResult :=
  try_providers self raw_text now 0 (providers_to_try self) None.

Definition extract_vulnerability `{Builtins} (self : t) (raw_text : string)
    (now : Z) : py_result ExtractionResult :=
  (run self raw_text now).2.

(** The providers called by [extract_vulnerability], in order. *)
Definition attempted `{Builtins} (self : t) (raw_text : string) (now : Z)
    : list string :=
  (run self raw_text now).1.

(** [batch_extract], as in the single-provider service. *)
Definition batch_extract `{Builtins} (self : t) (raw_texts : list string)
    (clock : nat -> Z) : list ExtractionResult :=
  imap (fun i text =>
          match extract_vulnerability self text (clock i) with
          | Ok result => result
          | Raise e =>
              LLMService._create_fallback_result text (exn_msg e) (clock i)
          end) raw_texts.

End MultiProviderLLMService.

(* ===================================================================== *)
(** * models/database.py                                                  *)
(* ===================================================================== *)

Module Database.
Import Py.

Inductive ProcessingStatus :=
| PENDING | PROCESSING | COMPLETED | FAILED | NEEDS_REVIEW.

#[global] Instance ProcessingStatus_eq_dec : EqDecision ProcessingStatus.
Proof. solve_decision. Defined.

(** Table raw_entries. *)
Record RawEntry := {
  id : Z;
  source_id : Z;
  raw_payload : string;
  processing_status : ProcessingStatus;
  processing_attempts : Z;
  last_processing_error : option string;
  ingested_at : Z;
  processed_at : option Z
}.

(** Table vulnerabilities; the threat-intelligence and lifecycle columns,
    which the pipeline never writes, are left out. *)
Record Vulnerability := {
  cve_id : string;
  title : option string;
  description : string;
  cvss_score : option Q;
  cvss_vector : option string;
  severity : option string;
  confidence_score : Q;
  needs_review : bool;
  extraction_metadata : gmap string pyval;
  created_at : Z;
  updated_at : Z
}.

Record LLMConfig := {
  ollama_base_url : string;
  selected_model : option string;
  temperature : Q;
  confidence_threshold : Q;
  batch_size : Z
}.

(** The database, and the number of readings of the clock taken so far.
    [raw_entries] is keyed by the primary key [id]; [vulnerabilities] is
    the bare list of rows, so that the uniqueness of [cve_id] is a
    property to be proved of the pipeline, not one built in. *)
Record World := {
  raw_entries : gmap Z RawEntry;
  vulnerabilities : list Vulnerability;
  clock_reads : nat
}.

(** [session.get(Vulnerability, key)] *)
Definition db_get (w : World) (key : string) : option Vulnerability :=
  List.find (fun v => String.eqb (cve_id v) key) (vulnerabilities w).

(** The CVE ids of the rows of the table. *)
Definition keys (w : World) : list string := cve_id <$> vulnerabilities w.

(** Every row of [w] is still there in [w'], created when it was and with
    a confidence that is not lower. *)
Definition rows_kept (w w' : World) : Prop :=
  forall key v,
    db_get w key = Some v ->
    exists v', db_get w' key = Some v' /\
      (confidence_score v <= confidence_score v')%Q /\
      created_at v' = created_at v.

(** Every row of the staging table is stored under its primary key. *)
Definition well_keyed (w : World) : Prop :=
  forall k e, raw_entries w !! k = Some e -> id e = k.

End Database.

(* ===================================================================== *)
(** * processing_service.py                                               *)
(* ===================================================================== *)

Module ProcessingService.
Import Py Database.
Import LLMService (ExtractionResult).

Record ProcessingStats := {
  processed : Z;
  created : Z;
  updated : Z;
  failed : Z;
  skipped : Z;
  duplicates : Z;
  purged : Z;
  started_at : Z;
  ended_at : option Z
}.

Section WithClock.
(** [clock n] is what the [n]-th call of [datetime.utcnow()] returns. *)
Variable clock : nat -> Z.

Definition utcnow (w : World) : Z * World :=
  (clock (clock_reads w),
   {| raw_entries := raw_entries w;
      vulnerabilities := vulnerabilities w;
      clock_reads := S (clock_reads w) |}).

Definition set_entry (e : RawEntry) (w : World) : World :=
  {| raw_entries := <[id e := e]> (raw_entries w);
     vulnerabilities := vulnerabilities w;
     clock_reads := clock_reads w |}.

(** Writes a changed row back over the row with the same key. *)
Definition replace_row (v r : Vulnerability) : Vulnerability :=
  if String.eqb (cve_id r) (cve_id v) then v else r.

Definition update_vulnerability (v : Vulnerability) (w : World) : World :=
  {| raw_entries := raw_entries w;
     vulnerabilities := replace_row v <$> vulnerabilities w;
     clock_reads := clock_reads w |}.

(** [self.db.add(vulnerability)] *)
Definition add_vulnerability (v : Vulnerability) (w : World) : World :=
  {| raw_entries := raw_entries w;
     vulnerabilities := vulnerabilities w ++ [v];
     clock_reads := clock_reads w |}.

(** [ProcessingStats()] *)
Definition new_stats (w : World) : ProcessingStats * World :=
  let '(now, w) := utcnow w in
  ({| processed := 0; created := 0; updated := 0; failed := 0;
      skipped := 0; duplicates := 0; purged := 0;
      started_at := now; ended_at := None |}, w).

Definition finish (stats : ProcessingStats) (w : World)
    : ProcessingStats * World :=
  let '(now, w) := utcnow w in
  ({| processed := processed stats; created := created stats;
      updated := updated stats; failed := failed stats;
      skipped := skipped stats; duplicates := duplicates stats;
      purged := purged stats; started_at := started_at stats;
      ended_at := Some now |}, w).

(** The [where] clause of [get_pending_entries]. *)
Definition is_pending (e : RawEntry) : bool :=
  bool_decide (processing_status e = PENDING)
  || (bool_decide (processing_status e = FAILED)
      && (processing_attempts e <? 3)).

Definition ingested_before (a b : RawEntry) : Prop :=
  ingested_at a <= ingested_at b.

#[local] Instance ingested_before_dec : RelDecision ingested_before.
Proof. intros a b. unfold ingested_before. apply _. Defined.

(** [get_pending_entries]: the eligible rows, oldest first, at most
    [limit] of them.  [config] is the row [get_llm_config] returns. *)
Definition get_pending_entries (config : option LLMConfig)
    (limit : option Z) (w : World) : list RawEntry :=
  let limit :=
    match limit, config with
    | None, Some c => Some (Database.batch_size c)
    | _, _ => limit
    end in
  let limit := default 10 limit in
  let rows := (map_to_list (raw_entries w)).*2 in
  take (Z.to_nat limit)
       (merge_sort ingested_before (List.filter is_pending rows)).

(** [x or y] on optional columns. *)
Definition or_str (x y : option string) : option string :=
  match x with
  | Some s => if String.eqb s "" then y else x
  | None => y
  end.

Definition or_float (x y : option Q) : option Q :=
  match x with
  | Some q => if Qeq_bool q 0 then y else x
  | None => y
  end.

Definition mark (e : RawEntry) (st : ProcessingStatus)
    (err : option string) (at_ : option Z) : RawEntry :=
  {| id := id e; source_id := source_id e; raw_payload := raw_payload e;
     processing_status := st;
     processing_attempts := processing_attempts e;
     last_processing_error := err;
     ingested_at := ingested_at e;
     processed_at := at_ |}.

(** [process_entry].  [extract] is [llm_service.extract_vulnerability];
    its second argument is the reading of the clock it takes when it
    builds its result: an extraction that raises has read nothing, and
    the next reading is still to come.  The result is the returned
    object, if any, and the entry as it is left. *)
Definition process_entry
    (extract : string -> Z -> py_result ExtractionResult)
    (entry : RawEntry) (w : World)
    : option Vulnerability * RawEntry * World :=
  (* Mark as processing *)
  let entry :=
    {| id := id entry; source_id := source_id entry;
       raw_payload := raw_payload entry;
       processing_status := PROCESSING;
       processing_attempts := processing_attempts entry + 1;
       last_processing_error := last_processing_error entry;
       ingested_at := ingested_at entry;
       processed_at := processed_at entry |} in
  let w := set_entry entry w in
  (* Extract vulnerability data *)
  match extract (raw_payload entry) (clock (clock_reads w)) with
  | Raise e =>
      let '(now, w) := utcnow w in
      let entry := mark entry FAILED (Some (exn_msg e)) (Some now) in
      (None, entry, set_entry entry w)
  | Ok extraction =>
      let '(_, w) := utcnow w in
      match or_str (LLMService.cve_id extraction) None with
      | None =>
          (* No CVE ID found - mark as failed *)
          let '(now, w) := utcnow w in
          let entry :=
            mark entry FAILED (Some "No CVE ID extracted from text")
                 (Some now) in
          (None, entry, set_entry entry w)
      | Some key =>
          (* Check for duplicate vulnerability *)
          match db_get w key with
          | Some existing =>
              (* Update existing vulnerability if confidence is higher *)
              if float_gt (LLMService.confidence_score extraction)
                          (confidence_score existing)
              then
                let '(t_upd, w) := utcnow w in
                let existing :=
                  {| cve_id := cve_id existing;
                     title := or_str (LLMService.title extraction)
                                     (title existing);
                     description :=
                       if String.eqb (LLMService.description extraction) ""
                       then description existing
                       else LLMService.description extraction;
                     cvss_score :=
                       or_float (LLMService.cvss_score extraction)
                                (cvss_score existing);
                     cvss_vector :=
                       or_str (LLMService.cvss_vector extraction)
                              (cvss_vector existing);
                     severity := or_str (LLMService.severity extraction)
                                        (severity existing);
                     confidence_score :=
                       LLMService.confidence_score extraction;
                     needs_review := LLMService.needs_review extraction;
                     extraction_metadata :=
                       LLMService.extraction_metadata extraction;
                     created_at := created_at existing;
                     updated_at := t_upd |} in
                let w := update_vulnerability existing w in
                let '(now, w) := utcnow w in
                let entry :=
                  mark entry COMPLETED (last_processing_error entry)
                       (Some now) in
                (Some existing, entry, set_entry entry w)
              else
                let '(now, w) := utcnow w in
                let entry :=
                  mark entry COMPLETED (last_processing_error entry)
                       (Some now) in
                (None, entry, set_entry entry w)
          | None =>
              (* Create new vulnerability *)
              let '(now, w) := utcnow w in
              let entry :=
                mark entry COMPLETED (last_processing_error entry)
                     (Some now) in
              let w := set_entry entry w in
              (* the INSERT evaluates the column defaults of
                 created_at and updated_at, each by its own call of
                 datetime.utcnow *)
              let '(t_created, w) := utcnow w in
              let '(t_updated, w) := utcnow w in
              let vulnerability :=
                {| cve_id := key;
                   title := LLMService.title extraction;
                   description := LLMService.description extraction;
                   cvss_score := LLMService.cvss_score extraction;
                   cvss_vector := LLMService.cvss_vector extraction;
                   severity := LLMService.severity extraction;
                   confidence_score :=
                     LLMService.confidence_score extraction;
                   needs_review := LLMService.needs_review extraction;
                   extraction_metadata :=
                     LLMService.extraction_metadata extraction;
                   created_at := t_created;
                   updated_at := t_updated |} in
              (Some vulnerability, entry, add_vulnerability vulnerability w)
          end
      end
  end.

Definition bump (stats : ProcessingStats)
    (d_created d_updated d_failed d_skipped d_duplicates : Z)
    : ProcessingStats :=
  {| processed := processed stats + 1;
     created := created stats + d_created;
     updated := updated stats + d_updated;
     failed := failed stats + d_failed;
     skipped := skipped stats + d_skipped;
     duplicates := duplicates stats + d_duplicates;
     purged := purged stats;
     started_at := started_at stats;
     ended_at := ended_at stats |}.

(** One turn of the loop of [process_batch], on the row with key [i]. *)
Definition process_one
    (extract : string -> Z -> py_result ExtractionResult)
    (acc : ProcessingStats * World) (i : Z) : ProcessingStats * World :=
  let '(stats, w) := acc in
  match raw_entries w !! i with
  | None => acc
  | Some entry =>
      let '(result, entry, w) := process_entry extract entry w in
      match result with
      | Some r =>
          (* Check if it was an update or new creation *)
          if created_at r =? updated_at r
          then (bump stats 1 0 0 0 0, w)
          else (bump stats 0 1 0 0 1, w)
      | None =>
          if bool_decide (processing_status entry = FAILED)
          then (bump stats 0 0 1 0 0, w)
          else
            (* Duplicate with lower confidence *)
            (bump stats 0 0 0 1 1, w)
      end
  end.

(** [process_batch].  [config] is the row [get_llm_config] returns,
    [test_connection] the outcome of [ollama_client.test_connection()]
    and [post] the transport of the client. *)
Definition process_batch `{Builtins} (config : option LLMConfig)
    (test_connection : py_result unit)
    (post : string -> OllamaClient.payload -> OllamaClient.http_outcome)
    (batch_size : option Z) (w : World) : ProcessingStats * World :=
  let '(stats, w) := new_stats w in
  match config with
  | None => finish stats w
  | Some c =>
      match or_str (selected_model c) None with
      | None => finish stats w
      | Some selected =>
          let ollama_client :=
            {| OllamaClient.base_url := ollama_base_url c;
               OllamaClient.timeout := OllamaClient.FloatSeconds 30;
               OllamaClient.post := post |} in
          match test_connection with
          | Raise _ => finish stats w
          | Ok _ =>
              let llm_service :=
                {| LLMService.ollama_client := ollama_client;
                   LLMService.model := selected;
                   LLMService.temperature := temperature c;
                   LLMService.confidence_threshold :=
                     confidence_threshold c |} in
              (* Get pending entries *)
              let limit :=
                match batch_size with
                | Some n => if n =? 0 then Database.batch_size c else n
                | None => Database.batch_size c
                end in
              let entries := get_pending_entries config (Some limit) w in
              (* Process each entry *)
              let '(stats, w) :=
                foldl (process_one
                         (LLMService.extract_vulnerability llm_service))
                      (stats, w) (id <$> entries) in
              finish stats w
          end
      end
  end.

(** Microseconds in a day. *)
Definition day : Z := 86400 * 1000000.

Definition is_purgeable (cutoff_date : Z) (e : RawEntry) : bool :=
  bool_decide (processing_status e = COMPLETED)
  && match processed_at e with
     | Some t => t <? cutoff_date
     | None => false
     end.

(** [purge_old_entries] *)
Definition purge_old_entries (days : Z) (w : World) : Z * World :=
  let '(now, w) := utcnow w in
  let cutoff_date := now - days * day in
  let kept :=
    filter (fun kv => is_purgeable cutoff_date kv.2 = false)
           (raw_entries w) in
  (Z.of_nat (size (raw_entries w)) - Z.of_nat (size kept),
   {| raw_entries := kept;
      vulnerabilities := vulnerabilities w;
      clock_reads := clock_reads w |}).

End WithClock.

(** What [get_processing_status] reports. *)
Record ProcessingStatusReport := {
  pending : Z;
  processing : Z;
  completed : Z;
  failed_count : Z;
  total : Z;
  vulnerabilities_total : Z;
  vulnerabilities_needs_review : Z;
  vulnerabilities_approved : Z
}.

(** [select(func.count()).select_from(RawEntry).where(
      RawEntry.processing_status == st)] *)
Definition count_status (st : ProcessingStatus) (w : World) : Z :=
  Z.of_nat
    (length (List.filter
               (fun e => bool_decide (processing_status e = st))
               (map_to_list (raw_entries w)).*2)).

(** [get_processing_status]; a count is an [int], so that [count or 0] is
    the count. *)
Definition get_processing_status (w : World) : ProcessingStatusReport :=
  let pending_count := count_status PENDING w in
  let processing_count := count_status PROCESSING w in
  let completed_count := count_status COMPLETED w in
  let n_failed := count_status FAILED w in
  let total_vulns := Z.of_nat (length (vulnerabilities w)) in
  let needs_review :=
    Z.of_nat (length (List.filter Database.needs_review (vulnerabilities w))) in
  {| pending := pending_count;
     processing := processing_count;
     completed := completed_count;
     failed_count := n_failed;
     total := pending_count + processing_count + completed_count
              + n_failed;
     vulnerabilities_total := total_vulns;
     vulnerabilities_needs_review := needs_review;
     vulnerabilities_approved := total_vulns - needs_review |}.

(** ** The pipeline as a transition system

    A row enters the staging table PENDING with no attempt made
    (the column defaults of [RawEntry]); batches and purges run with
    whatever clock, configuration and transport the environment
    provides. *)
Definition empty_world : World :=
  {| raw_entries := ∅; vulnerabilities := []; clock_reads := 0 |}.

Inductive step `{Builtins} : World -> World -> Prop :=
| step_ingest (w : World) (e : RawEntry) :
    raw_entries w !! id e = None ->
    processing_status e = PENDING ->
    processing_attempts e = 0 ->
    step w (set_entry e w)
| step_batch (clock : nat -> Z) (config : option LLMConfig)
    (test_connection : py_result unit)
    (post : string -> OllamaClient.payload -> OllamaClient.http_outcome)
    (batch_size : option Z) (w : World) :
    step w (process_batch clock config test_connection post batch_size w).2
| step_purge (clock : nat -> Z) (days : Z) (w : World) :
    step w (purge_old_entries clock days w).2.

Definition reachable `{Builtins} (w : World) : Prop :=
  rtc step empty_world w.

End ProcessingService.

(* ===================================================================== *)
(** * scheduler.py                                                        *)
(* ===================================================================== *)

Module ProcessingScheduler.
Import Py Database ProcessingService.

Record t := {
  is_running : bool;
  last_run : option Z;
  last_stats : option ProcessingStats
}.

(** [ProcessingScheduler()] *)
Definition init : t :=
  {| is_running := false; last_run := None; last_stats := None |}.

(** [get_interval_minutes]; the argument is the column
    [processing_interval_minutes] of the row [get_llm_config] returns, if
    there is one. *)
Definition get_interval_minutes (processing_interval_minutes : option Z) : Z :=
  match processing_interval_minutes with
  | Some m => Z.max 1 (Z.min 60 m)
  | None => 30
  end.

(** [run_processing_cycle]: a batch with the configured size, then the
    purge of what is older than seven days.  [last_stats] is the object
    that is returned, so that it shows the purge count as well. *)
Definition run_processing_cycle `{Builtins} (clock : nat -> Z)
    (config : option LLMConfig) (test_connection : py_result unit)
    (post : string -> OllamaClient.payload -> OllamaClient.http_outcome)
    (self : t) (w : World) : ProcessingStats * t * World :=
  let '(now, w) := utcnow clock w in
  (* Process batch *)
  let '(stats, w) := process_batch clock config test_connection post None w in
  (* Purge old entries (7 days) *)
  let '(purged_count, w) := purge_old_entries clock 7 w in
  let stats :=
    {| processed := processed stats; created := created stats;
       updated := updated stats; failed := failed stats;
       skipped := skipped stats; duplicates := duplicates stats;
       purged := purged_count; started_at := started_at stats;
       ended_at := ended_at stats |} in
  (stats,
   {| is_running := is_running self; last_run := Some now;
      last_stats := Some stats |},
   w).

End ProcessingScheduler.

(* ===================================================================== *)
(** * What validation leaves under each key                               *)
(* ===================================================================== *)

(** The content of the validated dict, read off the provider's answer;
    lemma [validated_lookup] relates it to [_validate_extraction]. *)
Module Validated.
Import Py LLMService.

Section Reading.
Context `{B : Builtins}.
Implicit Types (data : gmap string pyval) (raw k : string).

(** The normalised form of a text field of the provider's answer. *)
Definition normalised data k : string := strip (upper (str (get data k))).
Definition trimmed data k : string := strip (str (get data k)).

(** What validation leaves under each key, read off the answer. *)
Definition cve_of data raw : option string :=
if truthy (get data "cve_id") && Re.fullmatch (normalised data "cve_id")
then Some (normalised data "cve_id")
else upper <$> Re.search raw.

Definition severity_of data : string :=
if truthy (get data "severity")
   && bool_decide (normalised data "severity" ∈ VALID_SEVERITIES)
then normalised data "severity" else "UNKNOWN".

Definition field_of data k : option string :=
if truthy (get data k) && truthy (PStr (trimmed data k))
then Some (trimmed data k) else None.

Definition cvss_of data : option pyfloat :=
match get data "cvss_score" with
| PNone => None
| x =>
    match float x with
    | Ok f => if cvss_in_range f then Some f else None
    | Raise _ => None
    end
end.

Definition description_of data raw : string :=
match field_of data "description" with
| Some d => if (String.length d <? 10)%nat then prefix 500 raw else d
| None => prefix 500 raw
end.

(** The validated dict [v] holds exactly these entries. *)
Record shape data raw (v : gmap string pyval) (issues : list string)
  : Prop := {
sh_cve_id : v !! "cve_id" = PStr <$> cve_of data raw;
sh_severity : v !! "severity" = Some (PStr (severity_of data));
sh_cvss_score : v !! "cvss_score" = PFloat <$> cvss_of data;
sh_title : v !! "title" = PStr <$> field_of data "title";
sh_vendor : v !! "vendor" = PStr <$> field_of data "vendor";
sh_product : v !! "product" = PStr <$> field_of data "product";
sh_cvss_vector : v !! "cvss_vector" = PStr <$> field_of data "cvss_vector";
sh_description : v !! "description" = Some (PStr (description_of data raw));
sh_issues : v !! "_validation_issues" = Some (PList (PStr <$> issues))
}.

End Reading.

Definition is_none (x : pyval) : bool :=
  match x with PNone => true | _ => false end.

End Validated.

(* ===================================================================== *)
(** * The confidence score as the specification words it                  *)
(* ===================================================================== *)

Module ConfidenceSpec.
Import Py.

Implicit Types (v : gmap string pyval) (k : string).

(** "k is present" *)
Definition present v k : bool := bool_decide (is_Some (v !! k)).

(** "severity is set and not UNKNOWN" *)
Definition severity_known v : bool :=
  match v !! "severity" with
  | Some (PStr s) => negb (String.eqb s "UNKNOWN")
  | Some _ => true
  | None => false
  end.

Definition description_length v : nat :=
  match v !! "description" with
  | Some (PStr s) => String.length s
  | _ => 0%nat
  end.

(** "the number of recorded validation issues" *)
Definition issue_count v : nat :=
  match v !! "_validation_issues" with
  | Some (PList l) => length l
  | _ => 0%nat
  end.

Definition weight (w : Q) (b : bool) : Q := if b then w else 0%Q.

(** "15 if description length >= 50 (10 if >= 20, 5 if >= 10, else 0)" *)
Definition description_weight (n : nat) : Q :=
  if (50 <=? n)%nat then 15%Q
  else if (20 <=? n)%nat then 10%Q
  else if (10 <=? n)%nat then 5%Q
  else 0%Q.

(** The sum S of the weights. *)
Definition S v : Q :=
  (weight 30 (present v "cve_id")
   + weight 10 (present v "vendor")
   + weight 10 (present v "product")
   + weight 15 (severity_known v)
   + weight 10 (present v "cvss_score")
   + description_weight (description_length v)
   + weight 10 (present v "title"))%Q.

Definition clamp (lo hi x : Q) : Q := Qmax lo (Qmin hi x).

(** round(clamp(0, 1, S/100 - min(0.20, 0.05 * issue_count)), 3) *)
Definition confidence v : Q :=
  round3
    (clamp 0 1
       (S v / 100
        - Qmin (20 # 100) ((5 # 100) * inject_Z (Z.of_nat (issue_count v)))))%Q.

End ConfidenceSpec.

(* ===================================================================== *)
(** * The results extraction can produce                                  *)
(* ===================================================================== *)

Module Outcome.
Import Py LLMService.

(** The record both services build from a validated dict. *)
Definition validated_result (raw_text : string) (v : gmap string pyval)
    (confidence : Q) (threshold : Q) (meta : gmap string pyval)
    : ExtractionResult :=
  {| cve_id := get_str v "cve_id";
     title := get_str v "title";
     description := default (prefix 500 raw_text) (get_str v "description");
     vendor := get_str v "vendor";
     product := get_str v "product";
     severity := get_str v "severity";
     cvss_score := get_float v "cvss_score";
     cvss_vector := get_str v "cvss_vector";
     confidence_score := confidence;
     needs_review := float_lt confidence threshold;
     extraction_metadata := meta |}.

(** A result is either the fallback result or built from a validated
    answer of a provider. *)
Inductive produced `{Builtins} (threshold : Q) (raw_text : string) (now : Z)
    : ExtractionResult -> Prop :=
| produced_fallback (error_msg : string) :
    produced threshold raw_text now
      (_create_fallback_result raw_text error_msg now)
| produced_validated (data v : gmap string pyval) (confidence : Q)
    (meta : gmap string pyval) :
    _validate_extraction data raw_text = Ok v ->
    _calculate_confidence v raw_text = Ok confidence ->
    meta !! "fallback" = None ->
    produced threshold raw_text now
      (validated_result raw_text v confidence threshold meta).

(** The result carries the flag of the fallback path. *)
Definition is_fallback (r : ExtractionResult) : Prop :=
  extraction_metadata r !! "fallback" = Some (PBool true).

(** [raw_text] contains [m]. *)
Definition contains (raw_text m : string) : Prop :=
  exists p q, raw_text = p +:+ m +:+ q.

(** A failure of the transport: a time-out, any other HTTP error, or a
    status other than 200. *)
Definition http_failure (o : OllamaClient.http_outcome) : Prop :=
  match o with
  | OllamaClient.TimeoutException _ | OllamaClient.HTTPError _ => True
  | OllamaClient.Response status_code _ => status_code <> 200
  end.

End Outcome.

(* ===================================================================== *)
(** * Sample inputs                                                       *)
(* ===================================================================== *)

Module Samples.
Import Py.

(** How the sample runs print a value that is not a string: the only
    such value they meet is the float 60.0, twice the time-out. *)
Definition sample_repr (v : pyval) : string :=
  match v with
  | PFloat (FFinite q) => if Qeq_bool q 60 then "60.0" else "<repr>"
  | _ => "<repr>"
  end.

(** Builtins for the sample runs.  No sample converts a string to a
    float or decodes JSON. *)
Definition builtins : Builtins :=
  {| py_repr := sample_repr;
     float_of_str := fun _ => None;
     json_loads := fun _ => None;
     isoformat := fun _ => "2024-01-01T00:00:00" |}.

(** The answer of the scenario: an invalid severity, a score out of
    range and no CVE id. *)
Definition scenario_data : gmap string pyval :=
  {[ "title" := PStr "Test";
     "description" := PStr "Short";
     "vendor" := PStr "Test Vendor";
     "product" := PNone;
     "severity" := PStr "SUPER_HIGH";
     "cvss_score" := PFloat (FFinite 15);
     "cvss_vector" := PNone ]}.

Definition scenario_raw : string := "CVE-2024-5678: Test vulnerability".

Definition scenario_validated : gmap string pyval :=
  match LLMService._validate_extraction (H := builtins)
          scenario_data scenario_raw with
  | Ok v => v
  | Raise _ => ∅
  end.

(** An answer without a severity, otherwise in order. *)
Definition no_severity_data : gmap string pyval :=
  {[ "cve_id" := PStr "CVE-2024-1234";
     "description" := PStr "Authentication bypass in the login module." ]}.

(** A client whose requests all time out. *)
Definition dead_client : OllamaClient.t :=
  {| OllamaClient.base_url := "http://localhost:11434";
     OllamaClient.timeout := OllamaClient.FloatSeconds 30;
     OllamaClient.post := fun _ _ => OllamaClient.TimeoutException "timed out" |}.

(** A service with a review threshold of 0.05. *)
Definition low_threshold_service : LLMService.t :=
  {| LLMService.ollama_client := dead_client;
     LLMService.model := "llama3";
     LLMService.temperature := 1 # 10;
     LLMService.confidence_threshold := 5 # 100 |}.

Definition default_service : LLMService.t :=
  {| LLMService.ollama_client := dead_client;
     LLMService.model := "llama3";
     LLMService.temperature := 1 # 10;
     LLMService.confidence_threshold := 8 # 10 |}.

Definition answering (name : string) (answer : list (string * pyval))
    : MultiProviderLLMService.LLMProvider :=
  {| MultiProviderLLMService.provider_name := name;
     MultiProviderLLMService.generate_json := fun _ _ _ _ =>
       Ok {| OllamaClient.data := PDict answer;
             OllamaClient.metadata := ∅ |} |}.

Definition failing (name : string) (c : exn_class)
    : MultiProviderLLMService.LLMProvider :=
  {| MultiProviderLLMService.provider_name := name;
     MultiProviderLLMService.generate_json := fun _ _ _ _ =>
       Raise (Exn c "unreachable") |}.

Definition multi (primary : MultiProviderLLMService.LLMProvider)
    (fallbacks : list MultiProviderLLMService.LLMProvider)
    : MultiProviderLLMService.t :=
  {| MultiProviderLLMService.primary_provider := primary;
     MultiProviderLLMService.fallback_providers := fallbacks;
     MultiProviderLLMService.model := "auto";
     MultiProviderLLMService.temperature := 1 # 10;
     MultiProviderLLMService.confidence_threshold := 8 # 10;
     MultiProviderLLMService.max_retries :=
       MultiProviderLLMService.default_max_retries |}.

(** A provider that answers with a well-formed CVE id of its own. *)
Definition other_cve_provider : MultiProviderLLMService.LLMProvider :=
  answering "claude"
    [("cve_id", PStr "CVE-2020-0001");
     ("description", PStr "A vulnerability of some other product.")].


(** ** The pipeline *)

(** A clock that advances with every reading. *)
Definition ticking (n : nat) : Z := Z.of_nat n.

Definition pending_entry : Database.RawEntry :=
  {| Database.id := 1;
     Database.source_id := 1;
     Database.raw_payload := "CVE-2024-1234: Critical vulnerability in Acme CMS";
     Database.processing_status := Database.PENDING;
     Database.processing_attempts := 0;
     Database.last_processing_error := None;
     Database.ingested_at := 0;
     Database.processed_at := None |}.

(** An extraction without a title, with confidence 0.95. *)
Definition untitled_extraction : LLMService.ExtractionResult :=
  {| LLMService.cve_id := Some "CVE-2024-1234";
     LLMService.title := None;
     LLMService.description := "Authentication bypass in Acme CMS version 1.0";
     LLMService.vendor := Some "Acme";
     LLMService.product := Some "CMS";
     LLMService.severity := Some "CRITICAL";
     LLMService.cvss_score := Some (98 # 10);
     LLMService.cvss_vector := None;
     LLMService.confidence_score := 95 # 100;
     LLMService.needs_review := false;
     LLMService.extraction_metadata := {[ "model" := PStr "llama3" ]} |}.

(** The stored row for the same CVE id, with a title and confidence 0.7. *)
Definition stored_vulnerability : Database.Vulnerability :=
  {| Database.cve_id := "CVE-2024-1234";
     Database.title := Some "Old title";
     Database.description := "Old description";
     Database.cvss_score := None;
     Database.cvss_vector := None;
     Database.severity := None;
     Database.confidence_score := 7 # 10;
     Database.needs_review := true;
     Database.extraction_metadata := ∅;
     Database.created_at := -2;
     Database.updated_at := -1 |}.

Definition world_with (rows : list Database.Vulnerability) : Database.World :=
  {| Database.raw_entries := {[ 1 := pending_entry ]};
     Database.vulnerabilities := rows;
     Database.clock_reads := 0 |}.

Definition config : Database.LLMConfig :=
  {| Database.ollama_base_url := "http://localhost:11434";
     Database.selected_model := Some "llama3";
     Database.temperature := 1 # 10;
     Database.confidence_threshold := 8 # 10;
     Database.batch_size := 10 |}.

(** A transport whose requests all time out. *)
Definition dead_post (url : string) (pl : OllamaClient.payload)
    : OllamaClient.http_outcome :=
  OllamaClient.TimeoutException "timed out".

(** An entry whose text names no CVE. *)
Definition anonymous_entry : Database.RawEntry :=
  {| Database.id := 2;
     Database.source_id := 1;
     Database.raw_payload := "Security advisory without an identifier";
     Database.processing_status := Database.PENDING;
     Database.processing_attempts := 0;
     Database.last_processing_error := None;
     Database.ingested_at := 0;
     Database.processed_at := None |}.

(** A batch against a server whose requests all time out. *)
Definition dead_batch (w : Database.World) : Database.World :=
  (ProcessingService.process_batch (H := builtins) ticking (Some config)
     (Ok tt) dead_post None w).2.

(** The state after three such batches on that entry. *)
Definition exhausted_world : Database.World :=
  dead_batch
    (dead_batch
       (dead_batch
          (ProcessingService.set_entry anonymous_entry
             ProcessingService.empty_world))).

(** ** A server that answers *)





End Samples.

(* ===================================================================== *)
(** * Properties of the CVE pattern                                       *)
(* ===================================================================== *)

Section PatternFacts.
Import Re.

Lemma app_cons c (a b : string) : String c a +:+ b = String c (a +:+ b).
Proof. reflexivity. Qed.

Lemma app_nil_l (a : string) : "" +:+ a = a.
Proof. reflexivity. Qed.

Lemma app_nil_r (a : string) : a +:+ "" = a.
Proof. induction a as [|c a IH]; [done|]. by rewrite app_cons, IH. Qed.

Lemma app_assoc (a b c : string) : (a +:+ b) +:+ c = a +:+ b +:+ c.
Proof. induction a as [|x a IH]; [done|]. by rewrite !app_cons, IH. Qed.

Lemma length_app (a b : string) :
  String.length (a +:+ b) = (String.length a + String.length b)%nat.
Proof. induction a as [|x a IH]; [done|]. rewrite app_cons. simpl. lia. Qed.

Lemma match_atoms_split ats s m r :
  match_atoms ats s = Some (m, r) ->
  s = m +:+ r /\ String.length m = length ats.
Proof.
  revert s m r. induction ats as [|a ats IH]; intros s m r; simpl.
  - intros [= <- <-]. done.
  - destruct s as [|c s]; [done|].
    destruct (atom_ok a c); [|done].
    destruct (match_atoms ats s) as [[m' r']|] eqn:E; [|done].
    intros [= <- <-]. destruct (IH _ _ _ E) as [-> Hl].
    rewrite app_cons. simpl. by rewrite Hl.
Qed.

(** Whether the atoms match depends on the text they consume only. *)
Lemma match_atoms_rest ats m r r' :
  match_atoms ats (m +:+ r) = Some (m, r) ->
  match_atoms ats (m +:+ r') = Some (m, r').
Proof.
  revert m. induction ats as [|a ats IH]; intros m; simpl.
  - intros [= Hm Hr]. subst m. done.
  - destruct m as [|c m].
    + rewrite !app_nil_l. destruct r as [|c r]; [done|].
      destruct (atom_ok a c); [|done].
      by destruct (match_atoms ats r) as [[??]|].
    + rewrite !app_cons. destruct (atom_ok a c); [|done].
      destruct (match_atoms ats (m +:+ r)) as [[m' r'']|] eqn:E; [|done].
      intros [= -> ->]. by rewrite (IH _ E).
Qed.

Lemma take_digits_split s : exists rest, s = take_digits s +:+ rest.
Proof.
  induction s as [|c s [rest IH]]; simpl; [by exists ""|].
  destruct (is_digit c).
  - exists rest. by rewrite app_cons, <- IH.
  - by eexists.
Qed.

Lemma take_digits_idem s : take_digits (take_digits s) = take_digits s.
Proof.
  induction s as [|c s IH]; simpl; [done|].
  destruct (is_digit c) eqn:E; simpl; [|done]. by rewrite E, IH.
Qed.

Lemma match_at_inv s m :
  match_at s = Some m ->
  exists r, s = m +:+ r /\ (13 <= String.length m)%nat.
Proof.
  unfold match_at.
  destruct (match_atoms CVE_PATTERN s) as [[x r]|] eqn:E; [|done].
  intros [= <-]. destruct (match_atoms_split _ _ _ _ E) as [-> Hl].
  destruct (take_digits_split r) as [rest Hr].
  exists rest. split.
  - rewrite app_assoc. by rewrite <- Hr.
  - rewrite length_app, Hl. simpl. lia.
Qed.

Lemma match_at_nonempty s m : match_at s = Some m -> m <> "".
Proof.
  intros H ->. destruct (match_at_inv _ _ H) as (? & _ & Hl). simpl in Hl. lia.
Qed.

(** A match is itself a full match. *)
Lemma match_at_fullmatch s m : match_at s = Some m -> fullmatch m = true.
Proof.
  unfold fullmatch, match_at.
  destruct (match_atoms CVE_PATTERN s) as [[x r]|] eqn:E; [|done].
  intros [= <-]. destruct (match_atoms_split _ _ _ _ E) as [-> _].
  rewrite (match_atoms_rest _ _ _ (take_digits r) E).
  rewrite take_digits_idem. apply String.eqb_refl.
Qed.

Lemma fullmatch_match_at m : fullmatch m = true -> match_at m = Some m.
Proof.
  unfold fullmatch. destruct (match_at m) as [x|]; [|done].
  intros ->%String.eqb_eq. done.
Qed.

Lemma fullmatch_nonempty m : fullmatch m = true -> m <> "".
Proof. intros H. eapply match_at_nonempty, fullmatch_match_at, H. Qed.

(** A full match followed by more text is still matched at its head. *)
Lemma fullmatch_match_at_app m q :
  fullmatch m = true -> is_Some (match_at (m +:+ q)).
Proof.
  intros H%fullmatch_match_at. unfold match_at in *.
  destruct (match_atoms CVE_PATTERN m) as [[x r]|] eqn:E; [|done].
  destruct (match_atoms_split _ _ _ _ E) as [-> _].
  rewrite app_assoc, (match_atoms_rest _ _ _ (r +:+ q) E). by eexists.
Qed.

Lemma search_unfold s :
  search s =
  match match_at s with
  | Some m => Some m
  | None => match s with "" => None | String _ s' => search s' end
  end.
Proof. by destruct s. Qed.

Lemma search_found s m :
  search s = Some m ->
  exists p q, s = p +:+ m +:+ q /\ match_at (m +:+ q) = Some m /\
    forall p1 q1, s = p1 +:+ q1 ->
      (String.length p1 < String.length p)%nat -> match_at q1 = None.
Proof.
  induction s as [|c s IH]; rewrite search_unfold.
  - done.
  - destruct (match_at (String c s)) as [x|] eqn:E.
    + intros [= ->]. destruct (match_at_inv _ _ E) as (q & Hs & _).
      exists "", q. rewrite app_nil_l. split; [done|]. split; [by rewrite <- Hs|].
      intros ? ? _ Hl. simpl in Hl. lia.
    + intros (p & q & -> & Hm & Hleft)%IH.
      exists (String c p), q. split; [done|]. split; [done|].
      intros [|c1 p1] q1 Hs Hl.
      * rewrite app_nil_l in Hs. by subst q1.
      * rewrite app_cons in Hs. injection Hs as -> Hs.
        apply (Hleft p1 q1 Hs). simpl in Hl. lia.
Qed.

(** [search] finds a match whenever the text contains one, and the match
    it returns starts no later. *)
Lemma search_complete p m q :
  fullmatch m = true ->
  exists m0 p0 q0,
    search (p +:+ m +:+ q) = Some m0 /\
    p +:+ m +:+ q = p0 +:+ m0 +:+ q0 /\
    (String.length p0 <= String.length p)%nat.
Proof.
  intros Hm.
  assert (exists m0, search (p +:+ m +:+ q) = Some m0) as [m0 Hs].
  { induction p as [|c p IH].
    - rewrite app_nil_l. destruct (fullmatch_match_at_app m q Hm) as [x Hx].
      exists x. by rewrite search_unfold, Hx.
    - rewrite app_cons, search_unfold. destruct (match_at _); [by eexists|]. done. }
  destruct (search_found _ _ Hs) as (p0 & q0 & Heq & _ & Hleft).
  exists m0, p0, q0. split; [done|]. split; [done|].
  destruct (le_lt_dec (String.length p0) (String.length p)) as [|Hlt]; [done|].
  specialize (Hleft p (m +:+ q) eq_refl Hlt).
  destruct (fullmatch_match_at_app m q Hm) as [x Hx]. congruence.
Qed.

Lemma upper_nonempty s : s <> "" -> Py.upper s <> "".
Proof. by destruct s. Qed.

Lemma search_nonempty s m : search s = Some m -> m <> "".
Proof.
  intros (p & q & _ & H & _)%search_found. eapply match_at_nonempty, H.
Qed.

(** ** Upper case *)

Lemma upper_char_idem c : Py.upper_char (Py.upper_char c) = Py.upper_char c.
Proof. by destruct c as [[] [] [] [] [] [] [] []]. Qed.

Lemma is_digit_upper_char c : is_digit (Py.upper_char c) = is_digit c.
Proof. by destruct c as [[] [] [] [] [] [] [] []]. Qed.

Lemma atom_ok_upper_char a c : atom_ok a (Py.upper_char c) = atom_ok a c.
Proof.
  destruct a; simpl; [by rewrite upper_char_idem|apply is_digit_upper_char].
Qed.

Lemma upper_app (a b : string) :
  Py.upper (a +:+ b) = Py.upper a +:+ Py.upper b.
Proof.
  induction a as [|c a IH]; [done|]. rewrite app_cons. simpl.
  by rewrite IH, app_cons.
Qed.

Lemma match_atoms_upper ats s m r :
  match_atoms ats s = Some (m, r) ->
  match_atoms ats (Py.upper s) = Some (Py.upper m, Py.upper r).
Proof.
  revert s m r. induction ats as [|a ats IH]; intros s m r; simpl.
  - by intros [= <- <-].
  - destruct s as [|c s]; [done|]. simpl. rewrite atom_ok_upper_char.
    destruct (atom_ok a c); [|done].
    destruct (match_atoms ats s) as [[m' r']|] eqn:E; [|done].
    intros [= <- <-]. by rewrite (IH _ _ _ E).
Qed.

Lemma take_digits_upper s :
  take_digits (Py.upper s) = Py.upper (take_digits s).
Proof.
  induction s as [|c s IH]; [done|]. simpl. rewrite is_digit_upper_char.
  destruct (is_digit c); [|done]. simpl. by rewrite IH.
Qed.

(** The upper case of a match is a full match. *)
Lemma fullmatch_upper m : fullmatch m = true -> fullmatch (Py.upper m) = true.
Proof.
  intros H%fullmatch_match_at. unfold fullmatch, match_at in *.
  destruct (match_atoms CVE_PATTERN m) as [[x r]|] eqn:E; [|done].
  rewrite (match_atoms_upper _ _ _ _ E), take_digits_upper, <- upper_app.
  injection H as ->. apply String.eqb_refl.
Qed.

End PatternFacts.

(* ===================================================================== *)
(** * Properties of validation                                            *)
(* ===================================================================== *)

Section MonadFacts.
Import Py.

Lemma bind_Ok {A C} (m : py_result A) (k : A -> py_result C) a :
  m = Ok a -> (m ≫= k) = k a.
Proof. by intros ->. Qed.

Lemma bind_Ok_inv {A C} (m : py_result A) (k : A -> py_result C) c :
  (m ≫= k) = Ok c -> exists a, m = Ok a /\ k a = Ok c.
Proof. destruct m as [a|e]; [by exists a|done]. Qed.

Lemma bind_Raise {A C} (m : py_result A) (k : A -> py_result C) e :
  m = Raise e -> (m ≫= k) = Raise e.
Proof. by intros ->. Qed.

End MonadFacts.

Section ValidationFacts.
Import Py LLMService Validated.
Context `{B : Builtins}.

Implicit Types (data validated v : gmap string pyval) (st : vstate)
  (raw : string) (k : string).

Lemma validate_cve_id_other data raw st k :
  k <> "cve_id" -> (validate_cve_id data raw st).1 !! k = st.1 !! k.
Proof.
  intros Hk. destruct st as [m i]. unfold validate_cve_id.
  repeat case_match; simpl; by rewrite ?lookup_insert_ne.
Qed.

Lemma validate_cve_id_key data raw st :
  st.1 !! "cve_id" = None ->
  (validate_cve_id data raw st).1 !! "cve_id" = PStr <$> cve_of data raw.
Proof.
  intros Hk. destruct st as [m i]. unfold validate_cve_id, cve_of, normalised.
  simpl in Hk.
  destruct (truthy (get data "cve_id")); simpl;
    [destruct (Re.fullmatch _); simpl|];
    destruct (Re.search raw); simpl; by rewrite ?lookup_insert_eq.
Qed.

Lemma validate_cve_id_issues data raw st :
  st.2 `prefix_of` (validate_cve_id data raw st).2.
Proof.
  destruct st as [m i]. unfold validate_cve_id.
  repeat case_match; simpl; try done;
    rewrite <- ?(assoc_L (++)); by apply prefix_app_r.
Qed.

Lemma validate_severity_other data st k :
  k <> "severity" -> (validate_severity data st).1 !! k = st.1 !! k.
Proof.
  intros Hk. destruct st as [m i]. unfold validate_severity.
  repeat case_match; simpl; by rewrite ?lookup_insert_ne.
Qed.

Lemma validate_severity_key data st :
  (validate_severity data st).1 !! "severity" = Some (PStr (severity_of data)).
Proof.
  destruct st as [m i]. unfold validate_severity, severity_of, normalised.
  destruct (truthy (get data "severity")); simpl;
    [case_bool_decide|]; simpl; by rewrite lookup_insert_eq.
Qed.

Lemma validate_severity_issues data st :
  st.2 `prefix_of` (validate_severity data st).2.
Proof.
  destruct st as [m i]. unfold validate_severity.
  repeat case_match; simpl; try done; by apply prefix_app_r.
Qed.

(** An invalid severity is recorded; a missing one is not. *)
Lemma validate_severity_invalid data st :
  truthy (get data "severity") = true ->
  normalised data "severity" ∉ VALID_SEVERITIES ->
  ("Invalid severity: " +:+ normalised data "severity")
    ∈ (validate_severity data st).2.
Proof.
  intros Ht Hn. destruct st as [m i]. unfold validate_severity.
  rewrite Ht. fold (normalised data "severity").
  rewrite bool_decide_eq_false_2 by done. simpl. set_solver.
Qed.

Lemma validate_severity_missing data st :
  truthy (get data "severity") = false ->
  (validate_severity data st).2 = st.2.
Proof. intros Ht. destruct st as [m i]. unfold validate_severity. by rewrite Ht. Qed.

Lemma is_none_spec x : if is_none x then x = PNone else x <> PNone.
Proof. by destruct x. Qed.

Lemma validate_cvss_score_unfold data validated issues :
  validate_cvss_score data (validated, issues) =
  if is_none (get data "cvss_score") then Ok (validated, issues)
  else
    match float (get data "cvss_score") with
    | Ok score =>
        if cvss_in_range score
        then Ok (<["cvss_score" := PFloat score]> validated, issues)
        else Ok (validated,
                 issues ++ ["CVSS score out of range: " +:+ str (PFloat score)])
    | Raise e =>
        match exn_cls e with
        | ValueError | TypeError =>
            Ok (validated,
                issues ++ ["Invalid CVSS score: "
                           +:+ str (get data "cvss_score")])
        | _ => Raise e
        end
    end.
Proof. unfold validate_cvss_score. by destruct (get data "cvss_score"). Qed.

Lemma validate_cvss_score_other data st st' k :
  validate_cvss_score data st = Ok st' ->
  k <> "cvss_score" -> st'.1 !! k = st.1 !! k.
Proof.
  intros H Hk. destruct st as [m i]. unfold validate_cvss_score in H.
  repeat case_match; simplify_eq; simpl; by rewrite ?lookup_insert_ne.
Qed.

Lemma validate_cvss_score_issues data st st' :
  validate_cvss_score data st = Ok st' -> st.2 `prefix_of` st'.2.
Proof.
  intros H. destruct st as [m i]. unfold validate_cvss_score in H.
  repeat case_match; simplify_eq; simpl; try done; by apply prefix_app_r.
Qed.

Lemma cvss_of_unfold data :
  cvss_of data =
  if is_none (get data "cvss_score") then None
  else match float (get data "cvss_score") with
       | Ok f => if cvss_in_range f then Some f else None
       | Raise _ => None
       end.
Proof. unfold cvss_of. by destruct (get data "cvss_score"). Qed.

(** The score is kept exactly when it converts to a float in
    [0.0, 10.0]. *)
Lemma validate_cvss_score_key data st st' :
  validate_cvss_score data st = Ok st' ->
  st.1 !! "cvss_score" = None ->
  st'.1 !! "cvss_score" = PFloat <$> cvss_of data.
Proof.
  intros H Hk. destruct st as [m i]. simpl in Hk.
  rewrite validate_cvss_score_unfold in H. rewrite cvss_of_unfold.
  destruct (is_none (get data "cvss_score")); [by simplify_eq|].
  destruct (float (get data "cvss_score")) as [x|e].
  - destruct (cvss_in_range x); simplify_eq; simpl; [|done].
    by rewrite lookup_insert_eq.
  - destruct (exn_cls e); by simplify_eq.
Qed.

(** An answer that is dropped leaves an issue behind. *)
Lemma validate_cvss_score_dropped data st st' :
  validate_cvss_score data st = Ok st' ->
  get data "cvss_score" <> PNone -> cvss_of data = None ->
  exists issue, st'.2 = st.2 ++ [issue] /\
    (issue = "Invalid CVSS score: " +:+ str (get data "cvss_score")
     \/ exists f, issue = "CVSS score out of range: " +:+ str (PFloat f)).
Proof.
  intros H Hn Hc. destruct st as [m i].
  rewrite validate_cvss_score_unfold in H. rewrite cvss_of_unfold in Hc.
  pose proof (is_none_spec (get data "cvss_score")) as Hs.
  destruct (is_none (get data "cvss_score")); [done|].
  destruct (float (get data "cvss_score")) as [x|e].
  - destruct (cvss_in_range x); simplify_eq; simpl. by eauto.
  - destruct (exn_cls e); simplify_eq; simpl; by eauto.
Qed.

Lemma cvss_of_finite data f :
  cvss_of data = Some f ->
  exists q, f = FFinite q /\ (0 <= q)%Q /\ (q <= 10)%Q /\
            float (get data "cvss_score") = Ok (FFinite q).
Proof.
  rewrite cvss_of_unfold. destruct (is_none _); [done|].
  destruct (float _) as [x|]; [|done].
  destruct (cvss_in_range x) eqn:Er; [|done]. intros [= ->].
  destruct f as [q| |]; [|done..].
  apply andb_true_iff in Er as [?%Qle_bool_iff ?%Qle_bool_iff]. by exists q.
Qed.

Lemma validate_field_unfold data validated field :
  validate_field data validated field =
  match field_of data field with
  | Some s => <[field := PStr s]> validated
  | None => validated
  end.
Proof.
  unfold validate_field, field_of, trimmed. by destruct (truthy _ && _).
Qed.

Lemma validate_field_lookup data validated field k :
  validate_field data validated field !! k =
  if bool_decide (k = field) && bool_decide (is_Some (field_of data k))
  then PStr <$> field_of data k else validated !! k.
Proof.
  rewrite validate_field_unfold. case_bool_decide as Hk; simpl.
  - subst k. destruct (field_of data field) as [s|]; simpl;
      by rewrite ?lookup_insert_eq.
  - case_match; [|done]. by rewrite lookup_insert_ne.
Qed.

Lemma fold_fields_lookup data validated fields k :
  foldl (validate_field data) validated fields !! k =
  if bool_decide (k ∈ fields) && bool_decide (is_Some (field_of data k))
  then PStr <$> field_of data k else validated !! k.
Proof.
  revert validated. induction fields as [|f fields IH]; intros m; simpl.
  - done.
  - rewrite IH, validate_field_lookup.
    destruct (bool_decide (is_Some (field_of data k))); rewrite ?andb_true_r,
      ?andb_false_r; [|done].
    repeat case_bool_decide; try done; set_solver.
Qed.

Lemma ensure_description_other raw st st' k :
  ensure_description raw st = Ok st' ->
  k <> "description" -> st'.1 !! k = st.1 !! k.
Proof.
  intros H Hk. destruct st as [m i]. unfold ensure_description in H.
  destruct (m !! "description") as [d|]; simplify_eq; simpl;
    [|by rewrite lookup_insert_ne].
  destruct (len d) as [n|]; simpl in H; [|done].
  destruct (n <? 10)%nat; simplify_eq; simpl; by rewrite ?lookup_insert_ne.
Qed.

Lemma ensure_description_issues raw st st' :
  ensure_description raw st = Ok st' -> st.2 `prefix_of` st'.2.
Proof.
  intros H. destruct st as [m i]. unfold ensure_description in H.
  destruct (m !! "description") as [d|]; simplify_eq; simpl;
    [|by apply prefix_app_r].
  destruct (len d) as [n|]; simpl in H; [|done].
  destruct (n <? 10)%nat; simplify_eq; simpl; [by apply prefix_app_r|done].
Qed.

(** After the loop over the text fields the description is a [str] or
    absent, so that [len] cannot fail. *)
Lemma ensure_description_key data raw st :
  st.1 !! "description" = PStr <$> field_of data "description" ->
  exists st', ensure_description raw st = Ok st' /\
    st'.1 !! "description" = Some (PStr (description_of data raw)).
Proof.
  intros Hk. destruct st as [m i]. simpl in Hk.
  unfold ensure_description, description_of. rewrite Hk.
  destruct (field_of data "description") as [d|]; simpl.
  - destruct (String.length d <? 10)%nat; eexists; (split; [done|]); simpl;
      by rewrite ?lookup_insert_eq.
  - eexists. split; [done|]. simpl. by rewrite lookup_insert_eq.
Qed.

(** The stages of [_validate_extraction], one after the other. *)
Lemma validate_stages data raw v :
  _validate_extraction data raw = Ok v ->
  exists st3 st5,
    validate_cvss_score data
      (validate_severity data (validate_cve_id data raw (∅, []))) = Ok st3 /\
    ensure_description raw
      (foldl (validate_field data) st3.1 STRING_FIELDS, st3.2) = Ok st5 /\
    v = <["_validation_issues" := PList (PStr <$> st5.2)]> st5.1.
Proof.
  unfold _validate_extraction.
  intros (st3 & E3 & (st5 & E5 & [= <-])%bind_Ok_inv)%bind_Ok_inv.
  by exists st3, st5.
Qed.

(** Validation fails only where the conversion of the CVSS score fails
    with an exception it does not catch. *)
Lemma validate_returns data raw :
  returns (validate_cvss_score data
             (validate_severity data (validate_cve_id data raw (∅, [])))) ->
  returns (_validate_extraction data raw).
Proof.
  intros [st3 E3]. unfold _validate_extraction.
  rewrite (bind_Ok _ _ _ E3).
  destruct (ensure_description_key data raw
              (foldl (validate_field data) st3.1 STRING_FIELDS, st3.2))
    as (st5 & E5 & _).
  { cbn [fst snd]. rewrite fold_fields_lookup.
    rewrite (validate_cvss_score_other _ _ _ _ E3) by done.
    rewrite validate_severity_other, validate_cve_id_other by done.
    by destruct (field_of data "description"). }
  rewrite (bind_Ok _ _ _ E5). by eexists.
Qed.

Lemma validated_shape data raw v :
  _validate_extraction data raw = Ok v ->
  exists issues, shape data raw v issues.
Proof.
  intros (st3 & st5 & E3 & E5 & ->)%validate_stages.
  exists st5.2.
  assert (forall k, k <> "cve_id" -> k <> "severity" -> k <> "cvss_score" ->
            (foldl (validate_field data) st3.1 STRING_FIELDS) !! k =
            if bool_decide (k ∈ STRING_FIELDS)
            then PStr <$> field_of data k else None) as Hf.
  { intros k ???. rewrite fold_fields_lookup.
    rewrite (validate_cvss_score_other _ _ _ _ E3) by done.
    rewrite validate_severity_other, validate_cve_id_other by done.
    cbn [fst]. rewrite lookup_empty.
    case_bool_decide; simpl; [|done].
    by destruct (field_of data k). }
  assert (forall k, k ∉ STRING_FIELDS ->
            (foldl (validate_field data) st3.1 STRING_FIELDS) !! k
            = st3.1 !! k) as Hg.
  { intros k Hk. rewrite fold_fields_lookup.
    by rewrite bool_decide_eq_false_2. }
  destruct (ensure_description_key data raw
              (foldl (validate_field data) st3.1 STRING_FIELDS, st3.2))
    as (st5' & E5' & Hd).
  { cbn [fst snd]. by rewrite Hf. }
  rewrite E5 in E5'. injection E5' as <-.
  split; rewrite ?lookup_insert_eq; try done;
    rewrite lookup_insert_ne by done;
    try (rewrite (ensure_description_other _ _ _ _ E5) by done; simpl).
  - rewrite Hg by (unfold STRING_FIELDS; set_solver).
    rewrite (validate_cvss_score_other _ _ _ _ E3) by done.
    rewrite validate_severity_other by done.
    by apply validate_cve_id_key.
  - rewrite Hg by (unfold STRING_FIELDS; set_solver).
    rewrite (validate_cvss_score_other _ _ _ _ E3) by done.
    apply validate_severity_key.
  - rewrite Hg by (unfold STRING_FIELDS; set_solver).
    apply (validate_cvss_score_key _ _ _ E3).
    by rewrite validate_severity_other, validate_cve_id_other.
  - by rewrite Hf.
  - by rewrite Hf.
  - by rewrite Hf.
  - by rewrite Hf.
  - done.
Qed.

End ValidationFacts.

(* ===================================================================== *)
(** * Properties of the confidence score                                  *)
(* ===================================================================== *)

Section ConfidenceFacts.
Import Py LLMService Validated.
Context `{B : Builtins}.

#[local] Instance round3_proper : Proper (Qeq ==> Qeq) round3.
Proof.
  intros x y E. unfold round3.
  assert (Qfloor (x * 1000) = Qfloor (y * 1000)) as -> by (by rewrite E).
  assert ((x * 1000 - inject_Z (Qfloor (y * 1000)) ?= 1 # 2)
          = (y * 1000 - inject_Z (Qfloor (y * 1000)) ?= 1 # 2))%Q as ->
    by (by rewrite E).
  reflexivity.
Qed.

Lemma Qfloor_bounds (x : Q) (n : Z) :
  (inject_Z n <= x)%Q -> (x <= inject_Z n)%Q -> Qfloor x = n.
Proof.
  intros H1 H2. assert (x == inject_Z n)%Q as -> by (by apply Qle_antisym).
  apply Qfloor_Z.
Qed.

(** Rounding keeps the unit interval. *)
Lemma round3_unit (x : Q) : (0 <= x)%Q -> (x <= 1)%Q ->
  (0 <= round3 x)%Q /\ (round3 x <= 1)%Q.
Proof.
  intros H0 H1. unfold round3.
  pose proof (Qfloor_le (x * 1000)) as Hfl.
  pose proof (Qlt_floor (x * 1000)) as Hlt.
  assert (0 <= Qfloor (x * 1000)) as Hf0.
  { apply (Qfloor_resp_le 0). lra. }
  assert (Qfloor (x * 1000) <= 1000) as Hf1.
  { apply (Qfloor_resp_le _ 1000). lra. }
  set (f := Qfloor (x * 1000)) in *.
  assert (f = 1000 -> (x * 1000 - inject_Z f ?= 1 # 2)%Q = Lt) as Htop.
  { intros Hf. rewrite <- Qlt_alt. rewrite Hf in *.
    change (inject_Z 1000) with 1000%Q in *. lra. }
  assert (forall n : Z, 0 <= n <= 1000 ->
            (0 <= inject_Z n / 1000)%Q /\ (inject_Z n / 1000 <= 1)%Q) as Hr.
  { intros n [Hn0 Hn1]. rewrite Zle_Qle in Hn0, Hn1.
    change (inject_Z 1000) with 1000%Q in Hn1.
    change (inject_Z 0) with 0%Q in Hn0.
    split.
    - apply Qle_shift_div_l; lra.
    - apply Qle_shift_div_r; lra. }
  destruct (x * 1000 - inject_Z f ?= 1 # 2)%Q eqn:Ec.
  - destruct (Z.even f); apply Hr; [lia|].
    destruct (decide (f = 1000)) as [E|]; [|lia].
    by specialize (Htop E).
  - apply Hr. lia.
  - apply Hr. destruct (decide (f = 1000)) as [E|]; [|lia].
    by specialize (Htop E).
Qed.

(** Rounding adds at most half a thousandth. *)
Lemma round3_upper (x : Q) : (round3 x <= x + (1 # 2000))%Q.
Proof.
  unfold round3.
  pose proof (Qfloor_le (x * 1000)) as Hfl.
  set (f := Qfloor (x * 1000)) in *. clearbody f.
  destruct (x * 1000 - inject_Z f ?= 1 # 2)%Q eqn:Ec.
  - apply Qeq_alt in Ec. apply Qle_shift_div_r; [done|].
    destruct (Z.even f); [|rewrite inject_Z_plus;
      change (inject_Z 1) with 1%Q]; lra.
  - apply Qle_shift_div_r; [done|]. lra.
  - apply Qgt_alt in Ec. apply Qle_shift_div_r; [done|].
    rewrite inject_Z_plus. change (inject_Z 1) with 1%Q. lra.
Qed.

Lemma truthy_str s : truthy (PStr s) = true <-> s <> "".
Proof.
  simpl. rewrite negb_true_iff. split.
  - intros H ->. done.
  - intros H. by apply String.eqb_neq.
Qed.

Lemma cve_of_nonempty data raw c : cve_of data raw = Some c -> c <> "".
Proof.
  unfold cve_of. destruct (truthy _ && _) eqn:E.
  - intros [= <-]. apply andb_true_iff in E as [_ E].
    by apply fullmatch_nonempty.
  - destruct (Re.search raw) as [m|] eqn:Es; [|done]. intros [= <-].
    by eapply upper_nonempty, search_nonempty.
Qed.

Lemma field_of_nonempty data k s : field_of data k = Some s -> s <> "".
Proof.
  unfold field_of. destruct (truthy (get data k) && _) eqn:E; [|done].
  intros [= <-]. apply andb_true_iff in E as [_ E]. by apply truthy_str.
Qed.

Lemma severity_of_valid data : severity_of data ∈ VALID_SEVERITIES.
Proof.
  unfold severity_of. destruct (truthy _); simpl; [|set_solver].
  case_bool_decide; [done|set_solver].
Qed.

Lemma severity_of_nonempty data : severity_of data <> "".
Proof.
  pose proof (severity_of_valid data) as H. intros E. rewrite E in H.
  unfold VALID_SEVERITIES in H. set_solver.
Qed.

Lemma truthy_opt_str (o : option string) :
  (forall s, o = Some s -> s <> "") ->
  truthy (default PNone (PStr <$> o)) = bool_decide (is_Some (PStr <$> o)).
Proof.
  intros H. destruct o as [s|]; simpl; [|done].
  specialize (H s eq_refl). apply String.eqb_neq in H. by rewrite H.
Qed.

Section Formula.
Import ConfidenceSpec.

Lemma weight_step (score w : Q) (b : bool) :
  ((if b then score + w else score) == score + weight w b)%Q.
Proof. destruct b; unfold weight; lra. Qed.

Lemma penalty_as_min (k : nat) :
  (inject_Z (Z.min (Z.of_nat k * 5) 20) / 100
   == Qmin (20 # 100) ((5 # 100) * inject_Z (Z.of_nat k)))%Q.
Proof.
  destruct (Z.le_gt_cases (Z.of_nat k * 5) 20) as [Hle|Hgt].
  - rewrite Z.min_l by done. rewrite Q.min_r.
    + rewrite inject_Z_mult. change (inject_Z 5) with 5%Q. field.
    + rewrite Zle_Qle in Hle. rewrite inject_Z_mult in Hle.
      change (inject_Z 5) with 5%Q in Hle.
      change (inject_Z 20) with 20%Q in Hle. lra.
  - rewrite Z.min_r by lia. rewrite Q.min_l.
    + reflexivity.
    + assert (20 <= Z.of_nat k * 5) as Hle by lia.
      rewrite Zle_Qle in Hle. rewrite inject_Z_mult in Hle.
      change (inject_Z 5) with 5%Q in Hle.
      change (inject_Z 20) with 20%Q in Hle. lra.
Qed.

(** On a dict of the shape validation produces, the score computed
    is the one specified. *)
Lemma confidence_of_shape data raw v issues :
  shape data raw v issues ->
  exists c, _calculate_confidence v raw = Ok c /\ (c == confidence v)%Q.
Proof.
  intros [Hc Hs Hcv Ht Hve Hp Hvec Hd Hi].
  unfold _calculate_confidence, confidence, S, present, severity_known,
    description_length, issue_count, clamp, get, get_or.
  rewrite Hc, Hs, Hcv, Ht, Hve, Hp, Hd, Hi.
  rewrite !truthy_opt_str by
    (eauto using cve_of_nonempty, field_of_nonempty).
  change (default PNone (Some (PStr (severity_of data))))
    with (PStr (severity_of data)).
  assert (truthy (PStr (severity_of data))
          && ne_str (PStr (severity_of data)) "UNKNOWN"
          = negb (String.eqb (severity_of data) "UNKNOWN")) as ->.
  { simpl. pose proof (severity_of_nonempty data) as Hn.
    apply String.eqb_neq in Hn. by rewrite Hn. }
  change (default (PStr "") (Some (PStr (description_of data raw))))
    with (PStr (description_of data raw)).
  change (default (PList []) (Some (PList (PStr <$> issues))))
    with (PList (PStr <$> issues)).
  change (len (PStr (description_of data raw)))
    with (Ok (String.length (description_of data raw))).
  change (len (PList (PStr <$> issues)))
    with (Ok (length (PStr <$> issues))).
  rewrite (bind_Ok _ _ _ eq_refl), (bind_Ok _ _ _ eq_refl).
  eexists. split; [reflexivity|].
  apply round3_proper.
  rewrite penalty_as_min.
  apply Q.max_compat; [reflexivity|].
  apply Q.min_compat; [reflexivity|].
  generalize (Qmin (20 # 100)
                ((5 # 100) * inject_Z (Z.of_nat (length (PStr <$> issues))))).
  intros pen.
  generalize (String.length (description_of data raw)). intros n.
  unfold description_weight, weight. clear.
  generalize (bool_decide (is_Some (PStr <$> cve_of data raw))),
    (bool_decide (is_Some (PStr <$> field_of data "vendor"))),
    (bool_decide (is_Some (PStr <$> field_of data "product"))),
    (bool_decide (is_Some (PStr <$> field_of data "title"))),
    (String.eqb (severity_of data) "UNKNOWN"),
    (50 <=? n)%nat, (20 <=? n)%nat, (10 <=? n)%nat.
  intros b1 b2 b3 b4 b5 b6 b7 b8.
  destruct (cvss_of data); cbn [default fmap option_fmap option_map];
    [rewrite bool_decide_eq_true_2 by eauto
    |rewrite bool_decide_eq_false_2 by (by intros [??])];
    destruct b1, b2, b3, b4, b5, b6, b7, b8;
    (apply Qplus_comp; [by vm_compute|reflexivity]).
Qed.

End Formula.

End ConfidenceFacts.

(* ===================================================================== *)
(** * Properties of extraction                                            *)
(* ===================================================================== *)

Section ExtractionFacts.
Import Py LLMService Validated Outcome.
Context `{B : Builtins}.

Lemma llm_extract_produced (self : LLMService.t) raw now r :
  LLMService.extract_vulnerability self raw now = Ok r ->
  produced (confidence_threshold self) raw now r.
Proof.
  unfold LLMService.extract_vulnerability, try_except.
  destruct (OllamaClient.generate_json _ _ _ _ _ ≫= _) as [x|e] eqn:E.
  - intros [= <-].
    apply bind_Ok_inv in E as (res & _ & E).
    apply bind_Ok_inv in E as (data & _ & E).
    apply bind_Ok_inv in E as (v & Hv & E).
    apply bind_Ok_inv in E as (c & Hc & [= <-]).
    by apply (produced_validated _ _ _ data v c).
  - destruct (exn_cls e); try done; intros [= <-]; constructor.
Qed.

Lemma attempt_with_produced (self : MultiProviderLLMService.t) raw now
    attempt provider r :
  MultiProviderLLMService.attempt_with self raw now attempt provider = Ok r ->
  produced (MultiProviderLLMService.confidence_threshold self) raw now r.
Proof.
  unfold MultiProviderLLMService.attempt_with. intros E.
  apply bind_Ok_inv in E as (res & _ & E).
  apply bind_Ok_inv in E as (data & _ & E).
  apply bind_Ok_inv in E as (v & Hv & E).
  apply bind_Ok_inv in E as (c & Hc & [= <-]).
  by apply (produced_validated _ _ _ data v c).
Qed.

Lemma try_providers_produced (self : MultiProviderLLMService.t) raw now
    attempt providers last_error r :
  (MultiProviderLLMService.try_providers self raw now attempt providers
     last_error).2 = Ok r ->
  produced (MultiProviderLLMService.confidence_threshold self) raw now r.
Proof.
  revert attempt last_error.
  induction providers as [|p ps IH]; intros attempt last_error; simpl.
  - intros [= <-]. constructor.
  - destruct (_ <=? _); simpl; [intros [= <-]; constructor|].
    destruct (MultiProviderLLMService.attempt_with _ _ _ _ _)
      as [x|e] eqn:E; simpl.
    + intros [= <-]. by eapply attempt_with_produced.
    + destruct (MultiProviderLLMService.is_provider_failure _); [|done].
      specialize (IH (S attempt) (Some e)).
      destruct (MultiProviderLLMService.try_providers _ _ _ _ _ _).
      apply IH.
Qed.

Lemma multi_extract_produced (self : MultiProviderLLMService.t) raw now r :
  MultiProviderLLMService.extract_vulnerability self raw now = Ok r ->
  produced (MultiProviderLLMService.confidence_threshold self) raw now r.
Proof. apply try_providers_produced. Qed.

(** ** Bounds *)

Lemma calculate_confidence_unit v raw c :
  _calculate_confidence v raw = Ok c -> (0 <= c)%Q /\ (c <= 1)%Q.
Proof.
  unfold _calculate_confidence. intros E.
  apply bind_Ok_inv in E as (n & _ & E).
  apply bind_Ok_inv in E as (k & _ & [= <-]).
  apply round3_unit.
  - apply Q.le_max_l.
  - apply Q.max_lub; [done|]. apply Q.le_min_l.
Qed.

Lemma float_lt_spec (x y : Q) : float_lt x y = true <-> (x < y)%Q.
Proof.
  unfold float_lt. rewrite negb_true_iff. split.
  - intros H. apply Qnot_le_lt. intros Hle%Qle_bool_iff. congruence.
  - intros H. destruct (Qle_bool y x) eqn:E; [|done].
    apply Qle_bool_iff in E. apply Qle_not_lt in E. done.
Qed.

Lemma fallback_confidence raw msg now :
  confidence_score (_create_fallback_result raw msg now)
  = match Re.search raw with Some _ => 1 # 10 | None => 0%Q end.
Proof.
  unfold _create_fallback_result. cbn [confidence_score].
  destruct (Re.search raw) as [m|] eqn:E; [|done].
  cbn [fmap option_fmap option_map from_option].
  apply search_nonempty, upper_nonempty in E.
  apply truthy_str in E. by rewrite E.
Qed.

Lemma produced_bounds threshold raw now r :
  produced threshold raw now r ->
  (0 <= confidence_score r)%Q /\ (confidence_score r <= 1)%Q /\
  (needs_review r = true <->
     (confidence_score r < threshold)%Q \/ is_fallback r).
Proof.
  intros [msg|data v c meta Hv Hc Hm].
  - rewrite fallback_confidence. split; [|split].
    + by destruct (Re.search raw).
    + by destruct (Re.search raw).
    + split; [|done]. intros _. right. done.
  - destruct (calculate_confidence_unit _ _ _ Hc) as [H0 H1].
    split; [done|]. split; [done|].
    cbn [needs_review confidence_score validated_result].
    rewrite float_lt_spec. unfold is_fallback.
    cbn [extraction_metadata validated_result]. rewrite Hm.
    split; [by left|]. by intros [?|?].
Qed.

(** ** Failures of the provider *)


(** Every failure of the transport surfaces as OllamaModelError. *)
Lemma generate_transport_failure (self : OllamaClient.t) model prompt
    temperature max_tokens system_prompt :
  (forall url pl, http_failure (OllamaClient.post self url pl)) ->
  exists e,
    OllamaClient.generate self model prompt temperature max_tokens
      system_prompt = Raise e /\ exn_cls e = OllamaModelError.
Proof.
  intros Hf. unfold OllamaClient.generate.
  match goal with
  | |- context [OllamaClient.post self ?u ?pl] =>
      specialize (Hf u pl); destruct (OllamaClient.post self u pl)
        as [m|m|code text]
  end; [by eexists..|].
  simpl in Hf. apply Z.eqb_neq in Hf. rewrite Hf. by eexists.
Qed.

Lemma generate_json_transport_failure (self : OllamaClient.t) model prompt
    temperature system_prompt :
  (forall url pl, http_failure (OllamaClient.post self url pl)) ->
  exists e,
    OllamaClient.generate_json self model prompt temperature system_prompt
    = Raise e /\ exn_cls e = OllamaModelError.
Proof.
  intros Hf. unfold OllamaClient.generate_json.
  destruct (generate_transport_failure self model prompt temperature None
              system_prompt Hf) as (e & -> & He).
  by exists e.
Qed.


Lemma llm_extract_on_model_error (self : LLMService.t) raw now e :
  OllamaClient.generate_json (ollama_client self) (model self)
    (build_prompt raw) (temperature self) (Some SYSTEM_PROMPT) = Raise e ->
  exn_cls e = OllamaModelError ->
  LLMService.extract_vulnerability self raw now
  = Ok (_create_fallback_result raw (exn_msg e) now).
Proof.
  intros He Hc. unfold LLMService.extract_vulnerability, try_except.
  rewrite (bind_Raise _ _ _ He). by rewrite Hc.
Qed.

Lemma try_providers_all_fail (self : MultiProviderLLMService.t) raw now
    attempt providers last_error :
  (forall p, p ∈ providers ->
     exists e,
       MultiProviderLLMService.generate_json p
         (MultiProviderLLMService.model self)
         (MultiProviderLLMService._build_extraction_prompt raw)
         SYSTEM_PROMPT (MultiProviderLLMService.temperature self) = Raise e /\
       MultiProviderLLMService.is_provider_failure (exn_cls e) = true) ->
  exists msg,
    (MultiProviderLLMService.try_providers self raw now attempt providers
       last_error).2 = Ok (_create_fallback_result raw msg now).
Proof.
  revert attempt last_error.
  induction providers as [|p ps IH]; intros attempt last_error Hall; simpl.
  - by eexists.
  - destruct (_ <=? _); simpl; [by eexists|].
    destruct (Hall p) as (e & He & Hc); [set_solver|].
    unfold MultiProviderLLMService.attempt_with.
    rewrite (bind_Raise _ _ _ He), Hc.
    destruct (IH (S attempt) (Some e)) as [msg Hmsg]; [set_solver|].
    destruct (MultiProviderLLMService.try_providers _ _ _ _ _ _).
    by exists msg.
Qed.

End ExtractionFacts.

(* ===================================================================== *)
(** * The confidence score (C1, C2)                                       *)
(* ===================================================================== *)

(** C1.  For every validated extraction the confidence score equals
    round(clamp(0, 1, S/100 - min(0.20, 0.05 * issue_count)), 3), where
    issue_count is the number of recorded validation issues and S adds 30
    for a cve_id, 10 for a vendor, 10 for a product, 15 for a severity
    other than UNKNOWN, 10 for a cvss_score, 15/10/5/0 for a description of
    at least 50/20/10/fewer characters and 10 for a title. *)
Theorem C1_confidence_formula `{B : Py.Builtins}
    (data v : gmap string Py.pyval) (raw : string) :
  LLMService._validate_extraction data raw = Py.Ok v ->
  exists c, LLMService._calculate_confidence v raw = Py.Ok c /\
            (c == ConfidenceSpec.confidence v)%Q.
Proof.
  intros [issues Hs]%validated_shape. by eapply confidence_of_shape.
Qed.

Lemma C1_confidence_formula_witness :
  LLMService._validate_extraction (H := Samples.builtins)
    Samples.scenario_data Samples.scenario_raw
  = Py.Ok Samples.scenario_validated /\
  exists c,
    LLMService._calculate_confidence Samples.scenario_validated
      Samples.scenario_raw = Py.Ok c /\
    (c == ConfidenceSpec.confidence Samples.scenario_validated)%Q.
Proof.
  split; [by vm_compute|].
  apply (C1_confidence_formula (B := Samples.builtins)
           Samples.scenario_data Samples.scenario_validated
           Samples.scenario_raw).
  by vm_compute.
Defined.

(** C2, as the code has it: the confidence of every result of either
    service lies in [0, 1], and needs_review holds exactly when the
    confidence is below the threshold or the result is the fallback
    result, which is flagged whatever the threshold. *)
Theorem C2_confidence_bounds_and_review_flag `{B : Py.Builtins} :
  (forall (self : LLMService.t) raw now r,
     LLMService.extract_vulnerability self raw now = Py.Ok r ->
     (0 <= LLMService.confidence_score r)%Q /\
     (LLMService.confidence_score r <= 1)%Q /\
     (LLMService.needs_review r = true <->
        (LLMService.confidence_score r < LLMService.confidence_threshold self)%Q
        \/ Outcome.is_fallback r)) /\
  (forall (self : MultiProviderLLMService.t) raw now r,
     MultiProviderLLMService.extract_vulnerability self raw now = Py.Ok r ->
     (0 <= LLMService.confidence_score r)%Q /\
     (LLMService.confidence_score r <= 1)%Q /\
     (LLMService.needs_review r = true <->
        (LLMService.confidence_score r
         < MultiProviderLLMService.confidence_threshold self)%Q
        \/ Outcome.is_fallback r)).
Proof.
  split; intros self raw now r H.
  - eapply produced_bounds, llm_extract_produced, H.
  - eapply produced_bounds, multi_extract_produced, H.
Qed.

Lemma C2_confidence_bounds_and_review_flag_witness :
  let r := LLMService._create_fallback_result (H := Samples.builtins)
             Samples.scenario_raw
             "Generation timeout (>60.0s) for model 'llama3'" 0 in
  LLMService.extract_vulnerability (H := Samples.builtins)
    Samples.default_service Samples.scenario_raw 0 = Py.Ok r /\
  (0 <= LLMService.confidence_score r)%Q /\
  (LLMService.confidence_score r <= 1)%Q /\
  (LLMService.needs_review r = true <->
     (LLMService.confidence_score r
      < LLMService.confidence_threshold Samples.default_service)%Q
     \/ Outcome.is_fallback r).
Proof.
  intros r. split; [by vm_compute|].
  apply (proj1 (C2_confidence_bounds_and_review_flag (B := Samples.builtins))
           Samples.default_service Samples.scenario_raw 0 r).
  by vm_compute.
Defined.

(** C2, as stated, fails on the fallback path: with a threshold of 0.05
    and a provider that times out, the result salvages the CVE id, has
    confidence 0.1, which is not below the threshold, and is flagged for
    review all the same. *)
Lemma C2_review_flag_counterexample :
  exists r,
    LLMService.extract_vulnerability (H := Samples.builtins)
      Samples.low_threshold_service Samples.scenario_raw 0 = Py.Ok r /\
    LLMService.needs_review r = true /\
    ~ (LLMService.confidence_score r
       < LLMService.confidence_threshold Samples.low_threshold_service)%Q.
Proof.
  eexists. split; [by vm_compute|]. split; [done|]. by vm_compute.
Qed.

(* ===================================================================== *)
(** * The CVE id of a result (C3)                                         *)
(* ===================================================================== *)

Section CveIdFacts.
Import Py LLMService Validated Outcome.
Context `{B : Builtins}.

Lemma get_str_fmap (v : gmap string pyval) k (o : option string) :
  v !! k = PStr <$> o -> get_str v k = o.
Proof. unfold get_str. intros ->. by destruct o. Qed.

Lemma search_fullmatch raw m0 : Re.search raw = Some m0 -> Re.fullmatch m0 = true.
Proof.
  intros (p & q & _ & H & _)%search_found. by eapply match_at_fullmatch.
Qed.

Lemma validated_cve_id data raw v m0 :
  _validate_extraction data raw = Ok v ->
  Re.search raw = Some m0 ->
  get_str v "cve_id"
  = Some (if truthy (get data "cve_id")
             && Re.fullmatch (normalised data "cve_id")
          then normalised data "cve_id" else upper m0).
Proof.
  intros [issues Hs]%validated_shape Hm.
  rewrite (get_str_fmap _ _ _ (sh_cve_id _ _ _ _ Hs)).
  unfold cve_of. rewrite Hm. by destruct (truthy _ && _).
Qed.

Lemma produced_cve_id threshold raw now r m0 :
  produced threshold raw now r ->
  Re.search raw = Some m0 ->
  exists c, cve_id r = Some c /\ Re.fullmatch c = true /\
            (is_fallback r -> c = upper m0).
Proof.
  intros [msg|data v c meta Hv Hc Hmeta] Hm.
  - exists (upper m0). cbn [cve_id _create_fallback_result]. rewrite Hm.
    split; [done|]. split; [|done].
    apply fullmatch_upper, (search_fullmatch raw), Hm.
  - cbn [cve_id validated_result]. rewrite (validated_cve_id _ _ _ _ Hv Hm).
    eexists. split; [done|]. split.
    + destruct (truthy _ && _) eqn:E.
      * by apply andb_true_iff in E as [_ E].
      * apply fullmatch_upper, (search_fullmatch raw), Hm.
    + unfold is_fallback. cbn [extraction_metadata validated_result].
      by rewrite Hmeta.
Qed.

End CveIdFacts.

(* ===================================================================== *)
(** * Severity and CVSS score (C9)                                        *)
(* ===================================================================== *)

Section SeverityCvssFacts.
Import Py LLMService Validated Outcome.
Context `{B : Builtins}.

Lemma prefix_elem_of (l1 l2 : list string) x :
  l1 `prefix_of` l2 -> x ∈ l1 -> x ∈ l2.
Proof. intros [k ->] H. set_solver. Qed.

Lemma valid_severity_upper s : s ∈ VALID_SEVERITIES -> upper s = s.
Proof.
  unfold VALID_SEVERITIES. rewrite !elem_of_cons, elem_of_nil.
  intros [->|[->|[->|[->|[->|[->|[]]]]]]]; reflexivity.
Qed.

Lemma cvss_of_spec data f :
  cvss_of data = Some f <->
  get data "cvss_score" <> PNone /\
  float (get data "cvss_score") = Ok f /\ cvss_in_range f = true.
Proof.
  rewrite cvss_of_unfold.
  pose proof (is_none_spec (get data "cvss_score")) as Hn.
  destruct (is_none (get data "cvss_score")).
  - split; [done|]. by intros [? _].
  - destruct (float (get data "cvss_score")) as [x|e].
    + destruct (cvss_in_range x) eqn:E.
      * split; [by intros [= <-]|]. by intros (_ & [= <-] & _).
      * split; [done|]. intros (_ & [= <-] & ?). congruence.
    + split; [done|]. by intros (_ & ? & _).
Qed.

Lemma cvss_in_range_spec f :
  cvss_in_range f = true <->
  exists q, f = FFinite q /\ (0 <= q)%Q /\ (q <= 10)%Q.
Proof.
  destruct f as [q| |]; simpl.
  - rewrite andb_true_iff, !Qle_bool_iff. split.
    + intros [??]. by exists q.
    + by intros (? & [= <-] & ? & ?).
  - split; [done|]. by intros (? & ? & _).
  - split; [done|]. by intros (? & ? & _).
Qed.

(** The issues validation records for the severity and the score. *)
Lemma validated_issues data raw v :
  _validate_extraction data raw = Ok v ->
  exists issues,
    v !! "_validation_issues" = Some (PList (PStr <$> issues)) /\
    (truthy (get data "severity") = true ->
     normalised data "severity" ∉ VALID_SEVERITIES ->
     ("Invalid severity: " +:+ normalised data "severity") ∈ issues) /\
    (get data "cvss_score" <> PNone -> cvss_of data = None ->
     exists issue, issue ∈ issues /\
       (issue = "Invalid CVSS score: " +:+ str (get data "cvss_score")
        \/ exists f, issue = "CVSS score out of range: " +:+ str (PFloat f))).
Proof.
  intros (st3 & st5 & E3 & E5 & ->)%validate_stages.
  exists st5.2. split; [by rewrite lookup_insert_eq|].
  pose proof (validate_cvss_score_issues _ _ _ E3) as P3.
  pose proof (ensure_description_issues _ _ _ E5) as P5.
  cbn [snd] in P5. split.
  - intros Ht Hn. eapply prefix_elem_of; [exact P5|].
    eapply prefix_elem_of; [exact P3|].
    by apply validate_severity_invalid.
  - intros Hn Hc.
    destruct (validate_cvss_score_dropped _ _ _ E3 Hn Hc) as (i & Hi & Hw).
    exists i. split; [|done].
    eapply prefix_elem_of; [exact P5|]. rewrite Hi. set_solver.
Qed.

Lemma llm_extract_on_success (self : LLMService.t) raw now res data v c :
  OllamaClient.generate_json (ollama_client self) (model self)
    (build_prompt raw) (temperature self) (Some SYSTEM_PROMPT) = Ok res ->
  OllamaClient.as_dict (OllamaClient.data res) = Ok data ->
  _validate_extraction data raw = Ok v ->
  _calculate_confidence v raw = Ok c ->
  exists meta,
    LLMService.extract_vulnerability self raw now
    = Ok (validated_result raw v c (confidence_threshold self) meta).
Proof.
  intros Hg Hd Hv Hc. unfold LLMService.extract_vulnerability, try_except.
  rewrite (bind_Ok _ _ _ Hg). cbn zeta.
  rewrite (bind_Ok _ _ _ Hd), (bind_Ok _ _ _ Hv), (bind_Ok _ _ _ Hc).
  by eexists.
Qed.

(** With an unknown severity and no score the weights add up to 75 at
    most, so the confidence stays below 0.8. *)
Lemma confidence_without_severity_and_score (v : gmap string pyval) :
  v !! "severity" = Some (PStr "UNKNOWN") ->
  v !! "cvss_score" = None ->
  (ConfidenceSpec.confidence v < 8 # 10)%Q.
Proof.
  intros Hs Hc. unfold ConfidenceSpec.confidence.
  eapply Qle_lt_trans; [apply round3_upper|].
  set (k := ConfidenceSpec.issue_count v).
  assert (0 <= Qmin (20 # 100) ((5 # 100) * inject_Z (Z.of_nat k)))%Q as Hp.
  { apply Q.min_glb; [done|].
    assert (0 <= inject_Z (Z.of_nat k))%Q
      by (change 0%Q with (inject_Z 0); rewrite <- Zle_Qle; lia).
    nra. }
  assert (ConfidenceSpec.S v <= 75)%Q as HS.
  { unfold ConfidenceSpec.S, ConfidenceSpec.severity_known,
      ConfidenceSpec.present, ConfidenceSpec.weight,
      ConfidenceSpec.description_weight.
    rewrite Hs, Hc. simpl (negb _).
    rewrite (bool_decide_eq_false_2 (is_Some None)) by (by intros [??]).
    repeat case_match; by vm_compute. }
  unfold ConfidenceSpec.clamp.
  set (x := (ConfidenceSpec.S v / 100 - _)%Q).
  assert (x <= 3 # 4)%Q as Hx.
  { unfold x. assert (ConfidenceSpec.S v / 100 <= 75 / 100)%Q.
    { apply Qmult_le_compat_r; [done|]. done. }
    assert (75 / 100 == 3 # 4)%Q by reflexivity. lra. }
  assert (Qmax 0 (Qmin 1 x) <= 3 # 4)%Q.
  { apply Q.max_lub; [done|].
    eapply Qle_trans; [apply Q.le_min_r|done]. }
  lra.
Qed.

End SeverityCvssFacts.

(* ===================================================================== *)
(** * The chain of providers (C5)                                         *)
(* ===================================================================== *)

Section ProviderChainFacts.
Import Py LLMService MultiProviderLLMService.
Context `{B : Builtins}.
Variables (self : MultiProviderLLMService.t) (raw : string) (now : Z).

#[local] Abbreviation call p :=
  (generate_json p (MultiProviderLLMService.model self)
     (_build_extraction_prompt raw) SYSTEM_PROMPT
     (MultiProviderLLMService.temperature self)).

#[local] Abbreviation loop := (try_providers self raw now).

Lemma try_providers_cons attempt p ps last_error :
  loop attempt (p :: ps) last_error =
  if max_retries self <=? Z.of_nat attempt
  then ([], Ok (_create_fallback_result raw
                  ("All providers failed: " +:+ str_error last_error) now))
  else
    match attempt_with self raw now attempt p with
    | Ok r => ([provider_name p], Ok r)
    | Raise e =>
        if is_provider_failure (exn_cls e)
        then (provider_name p :: (loop (S attempt) ps (Some e)).1,
              (loop (S attempt) ps (Some e)).2)
        else ([provider_name p], Raise e)
    end.
Proof.
  simpl. destruct (_ <=? _); [done|].
  destruct (attempt_with _ _ _ _ _) as [r|e]; [done|].
  destruct (is_provider_failure _); [|done].
  by destruct (try_providers _ _ _ _ _ _).
Qed.

(** The providers are called in list order. *)
Lemma try_providers_log_prefix attempt ps last_error :
  (loop attempt ps last_error).1 `prefix_of` (provider_name <$> ps).
Proof.
  revert attempt last_error.
  induction ps as [|p ps IH]; intros attempt last_error.
  - done.
  - rewrite try_providers_cons. rewrite fmap_cons.
    destruct (_ <=? _); [apply prefix_nil|].
    destruct (attempt_with _ _ _ _ _) as [r|e]; simpl.
    + apply prefix_cons, prefix_nil.
    + destruct (is_provider_failure _); simpl.
      * apply prefix_cons, IH.
      * apply prefix_cons, prefix_nil.
Qed.

(** No more than [max_retries] providers are called. *)
Lemma try_providers_log_length attempt ps last_error :
  Z.of_nat attempt + Z.of_nat (length (loop attempt ps last_error).1)
  <= Z.max (Z.of_nat attempt) (max_retries self).
Proof.
  revert attempt last_error.
  induction ps as [|p ps IH]; intros attempt last_error.
  - simpl. lia.
  - rewrite try_providers_cons.
    destruct (Z.leb_spec (max_retries self) (Z.of_nat attempt));
      [simpl; lia|].
    destruct (attempt_with _ _ _ _ _) as [r|e]; [simpl; lia|].
    destruct (is_provider_failure _); [|simpl; lia].
    specialize (IH (S attempt) (Some e)). cbn [fst length]. lia.
Qed.

(** The loop moves past a provider only when its attempt raised a
    connection or a generation error. *)
Lemma try_providers_advance attempt ps last_error i p :
  ps !! i = Some p ->
  (S i < length (loop attempt ps last_error).1)%nat ->
  exists e, attempt_with self raw now (attempt + i) p = Raise e /\
            is_provider_failure (exn_cls e) = true.
Proof.
  revert attempt last_error i.
  induction ps as [|q ps IH]; intros attempt last_error i Hp Hl; [done|].
  rewrite try_providers_cons in Hl.
  destruct (_ <=? _); [simpl in Hl; lia|].
  destruct (attempt_with self raw now attempt q) as [r|e] eqn:E;
    [simpl in Hl; lia|].
  destruct (is_provider_failure (exn_cls e)) eqn:Ef; [|simpl in Hl; lia].
  cbn [fst length] in Hl. destruct i as [|i].
  - injection Hp as <-. rewrite Nat.add_0_r. by exists e.
  - replace (attempt + S i)%nat with (S attempt + i)%nat by lia.
    apply (IH (S attempt) (Some e) i Hp). lia.
Qed.

(** The loop ends with the first attempt that does not raise such an
    error, and returns what that attempt returns. *)
Lemma try_providers_stop attempt ps last_error i p :
  ps !! i = Some p ->
  (i < length (loop attempt ps last_error).1)%nat ->
  (forall e, attempt_with self raw now (attempt + i) p = Raise e ->
             is_provider_failure (exn_cls e) = false) ->
  length (loop attempt ps last_error).1 = S i /\
  (loop attempt ps last_error).2 = attempt_with self raw now (attempt + i) p.
Proof.
  revert attempt last_error i.
  induction ps as [|q ps IH]; intros attempt last_error i Hp Hl Hok; [done|].
  rewrite try_providers_cons in Hl |- *.
  destruct (_ <=? _); [simpl in Hl; lia|].
  destruct i as [|i].
  - injection Hp as <-. rewrite Nat.add_0_r in *.
    destruct (attempt_with self raw now attempt q) as [r|e] eqn:E; [done|].
    by rewrite (Hok e eq_refl).
  - destruct (attempt_with self raw now attempt q) as [r|e] eqn:E;
      [simpl in Hl; lia|].
    destruct (is_provider_failure (exn_cls e)) eqn:Ef; [|simpl in Hl; lia].
    cbn [fst snd length] in *.
    replace (attempt + S i)%nat with (S attempt + i)%nat in * by lia.
    destruct (IH (S attempt) (Some e) i Hp) as [H1 H2]; [lia|done|].
    by rewrite H1, H2.
Qed.

(** ** Which exceptions an attempt can raise *)

Lemma float_raises x e :
  float x = Raise e ->
  exn_cls e = OverflowError \/ exn_cls e = ValueError
  \/ exn_cls e = TypeError.
Proof.
  destruct x as [| |z| |s| |]; simpl; try (intros [= <-]; by auto).
  - destruct (_ <? _); [done|]. intros [= <-]; by auto.
  - destruct (float_of_str s); [done|]. intros [= <-]; by auto.
Qed.

Lemma ensure_description_raises st e :
  ensure_description raw st = Raise e -> exn_cls e = TypeError.
Proof.
  destruct st as [m i]. unfold ensure_description.
  destruct (m !! "description") as [d|]; [|done].
  destruct d; simpl; try (by intros [= <-]); by destruct (_ <? _)%nat.
Qed.

Lemma validate_extraction_raises data e :
  _validate_extraction data raw = Raise e ->
  is_provider_failure (exn_cls e) = false.
Proof.
  unfold _validate_extraction.
  destruct (validate_cvss_score _ _) as [st3|e3] eqn:E3.
  - rewrite (bind_Ok _ _ _ eq_refl).
    destruct (ensure_description _ _) as [st5|e5] eqn:E5; [done|].
    rewrite (bind_Raise _ _ _ eq_refl). intros [= <-].
    by rewrite (ensure_description_raises _ _ E5).
  - rewrite (bind_Raise _ _ _ eq_refl). intros [= <-].
    destruct (validate_severity _ _) as [m i].
    rewrite validate_cvss_score_unfold in E3.
    destruct (Validated.is_none _); [done|].
    destruct (float _) as [x|e'] eqn:Ef; [by destruct (cvss_in_range x)|].
    destruct (float_raises _ _ Ef) as [Hc|[Hc|Hc]]; rewrite Hc in E3;
      try done. injection E3 as <-. by rewrite Hc.
Qed.

Lemma calculate_confidence_raises v e :
  _calculate_confidence v raw = Raise e ->
  is_provider_failure (exn_cls e) = false.
Proof.
  unfold _calculate_confidence.
  assert (forall x e, len x = Raise e -> exn_cls e = TypeError) as Hlen.
  { intros x e'. destruct x; simpl; try done; by intros [= <-]. }
  destruct (len (get_or v "description" (PStr ""))) as [n|e1] eqn:E1.
  - rewrite (bind_Ok _ _ _ eq_refl). cbn zeta.
    destruct (len (get_or v "_validation_issues" (PList []))) as [k|e2] eqn:E2.
    + by rewrite (bind_Ok _ _ _ eq_refl).
    + rewrite (bind_Raise _ _ _ eq_refl). intros [= <-].
      by rewrite (Hlen _ _ E2).
  - rewrite (bind_Raise _ _ _ eq_refl). intros [= <-].
    by rewrite (Hlen _ _ E1).
Qed.

(** A connection or generation error of an attempt is one of the call
    of the provider. *)
Lemma attempt_with_failure attempt p e :
  attempt_with self raw now attempt p = Raise e ->
  is_provider_failure (exn_cls e) = true ->
  call p = Raise e.
Proof.
  unfold attempt_with. destruct (call p) as [res|e0] eqn:Ec.
  - rewrite (bind_Ok _ _ _ eq_refl). cbn zeta.
    destruct (OllamaClient.as_dict _) as [data|e1] eqn:Ed.
    + rewrite (bind_Ok _ _ _ eq_refl).
      destruct (_validate_extraction data raw) as [v|e2] eqn:Ev.
      * rewrite (bind_Ok _ _ _ eq_refl).
        destruct (_calculate_confidence v raw) as [c|e3] eqn:Econf.
        -- by rewrite (bind_Ok _ _ _ eq_refl).
        -- rewrite (bind_Raise _ _ _ eq_refl). intros [= <-] Hf.
           rewrite (calculate_confidence_raises _ _ Econf) in Hf. done.
      * rewrite (bind_Raise _ _ _ eq_refl). intros [= <-] Hf.
        rewrite (validate_extraction_raises _ _ Ev) in Hf. done.
    + rewrite (bind_Raise _ _ _ eq_refl). intros [= <-] Hf.
      unfold OllamaClient.as_dict in Ed.
      destruct (OllamaClient.data res); try done; by injection Ed as <-.
  - rewrite (bind_Raise _ _ _ eq_refl). by intros [= <-].
Qed.

Lemma attempt_with_metadata attempt p r :
  attempt_with self raw now attempt p = Ok r ->
  extraction_metadata r !! "fallback_attempt" = Some (PInt (Z.of_nat attempt))
  /\ extraction_metadata r !! "provider" = Some (PStr (provider_name p)).
Proof.
  unfold attempt_with. intros E.
  apply bind_Ok_inv in E as (res & _ & E).
  apply bind_Ok_inv in E as (data & _ & E).
  apply bind_Ok_inv in E as (v & _ & E).
  apply bind_Ok_inv in E as (c & _ & [= <-]).
  cbn [extraction_metadata]. split.
  - by repeat (rewrite lookup_insert_ne by done);
      rewrite ?lookup_insert_eq, ?lookup_singleton_eq.
  - by rewrite lookup_insert_eq.
Qed.

End ProviderChainFacts.

(* ===================================================================== *)
(** * Properties of process_entry                                         *)
(* ===================================================================== *)

Section ProcessEntryFacts.
Import Py Database ProcessingService.
Import LLMService (ExtractionResult).
Variable clock : nat -> Z.
Variable extract : string -> Z -> py_result ExtractionResult.

Implicit Types (w : World) (entry e : RawEntry) (v : Vulnerability).

#[local] Abbreviation run entry w := (process_entry clock extract entry w).

Ltac process_entry_cases :=
  unfold process_entry, utcnow, set_entry, update_vulnerability,
    add_vulnerability, mark;
  cbn [raw_entries vulnerabilities clock_reads raw_payload id];
  repeat case_match; cbn [fst snd raw_entries vulnerabilities clock_reads
    processing_status processing_attempts id].

(** The entry is written back under its key; no other row of the staging
    table changes. *)
Lemma process_entry_entries entry w :
  raw_entries (run entry w).2 = <[id entry := (run entry w).1.2]> (raw_entries w).
Proof. process_entry_cases; by rewrite insert_insert_eq. Qed.

(** The entry leaves with one more attempt, COMPLETED or FAILED. *)
Lemma process_entry_entry entry w :
  let e' := (run entry w).1.2 in
  id e' = id entry /\
  processing_attempts e' = processing_attempts entry + 1 /\
  (processing_status e' = FAILED \/ processing_status e' = COMPLETED).
Proof. process_entry_cases; by auto. Qed.

(** ** The table of vulnerabilities *)

Lemma db_get_Some w key v :
  db_get w key = Some v -> cve_id v = key /\ v ∈ vulnerabilities w.
Proof.
  unfold db_get. intros H. apply find_some in H as [Hin Heq].
  apply String.eqb_eq in Heq. split; [done|]. by apply list_elem_of_In.
Qed.

Lemma db_get_None w key : db_get w key = None -> key ∉ keys w.
Proof.
  unfold db_get, keys. intros H [v [-> Hv]]%list_elem_of_fmap.
  apply list_elem_of_In in Hv.
  pose proof (find_none _ _ H v Hv) as Hf. simpl in Hf.
  by rewrite String.eqb_refl in Hf.
Qed.

Lemma replace_row_key v r : cve_id (replace_row v r) = cve_id r.
Proof.
  unfold replace_row. destruct (String.eqb _ _) eqn:E; [|done].
  by apply String.eqb_eq in E.
Qed.

Lemma replace_row_keys v (rows : list Vulnerability) :
  cve_id <$> (replace_row v <$> rows) = cve_id <$> rows.
Proof.
  induction rows as [|r rows IH]; [done|]. rewrite !fmap_cons.
  by rewrite replace_row_key, IH.
Qed.

Lemma find_replace_row v (rows : list Vulnerability) key :
  find (fun r => String.eqb (cve_id r) key) (replace_row v <$> rows)
  = (if String.eqb (cve_id v) key then fun _ => v else fun r => r)
      <$> find (fun r => String.eqb (cve_id r) key) rows.
Proof.
  induction rows as [|r rows IH]; [done|]. rewrite fmap_cons.
  cbn [find]. rewrite replace_row_key.
  destruct (String.eqb (cve_id r) key) eqn:E; [|done].
  simpl. unfold replace_row. apply String.eqb_eq in E. subst key.
  destruct (String.eqb (cve_id r) (cve_id v)) eqn:E2.
  - apply String.eqb_eq in E2. rewrite E2. by rewrite String.eqb_refl.
  - rewrite String.eqb_sym in E2. by rewrite E2.
Qed.

(** What [process_entry] does to the table: nothing, an insertion under a
    key that was free, or a row written back. *)
Lemma process_entry_vulnerabilities entry w :
  let w' := (run entry w).2 in
  let r := (run entry w).1.1 in
  (r = None /\ vulnerabilities w' = vulnerabilities w)
  \/ (exists v, r = Some v /\ (cve_id v ∉ keys w) /\
                vulnerabilities w' = vulnerabilities w ++ [v])
  \/ (exists v, r = Some v /\
                vulnerabilities w' = replace_row v <$> vulnerabilities w).
Proof.
  unfold process_entry.
  destruct (utcnow clock _) as [t0 w0] eqn:E0.
  assert (vulnerabilities w0 = vulnerabilities w) as Hw0
    by (by injection E0 as <- <-).
  assert (forall key, db_get w0 key = db_get {|
            raw_entries := raw_entries w0;
            vulnerabilities := vulnerabilities w;
            clock_reads := clock_reads w0 |} key) as Hget
    by (intros key; unfold db_get; by rewrite Hw0).
  destruct (extract _ _) as [x|e]; [|by left].
  destruct (or_str _ _) as [key|]; [|by left].
  destruct (db_get w0 key) as [existing|] eqn:Eg.
  - destruct (float_gt _ _); [|by left].
    right. right. eexists. split; [done|].
    cbn [utcnow update_vulnerability set_entry vulnerabilities snd fst].
    by rewrite Hw0.
  - right. left. eexists. split; [done|].
    cbn [utcnow add_vulnerability set_entry vulnerabilities snd fst cve_id].
    split; [|by rewrite Hw0].
    apply db_get_None in Eg. unfold keys in *. by rewrite <- Hw0.
Qed.

(** [process_entry] keeps the CVE ids of the table distinct. *)
Lemma process_entry_NoDup entry w :
  NoDup (keys w) -> NoDup (keys (run entry w).2).
Proof.
  intros Hn. unfold keys.
  destruct (process_entry_vulnerabilities entry w)
    as [[_ ->]|[(v & _ & Hv & ->)|(v & _ & ->)]].
  - done.
  - rewrite fmap_app. apply NoDup_app. split; [done|]. split.
    + intros k Hk [->|[]%elem_of_nil]%elem_of_cons. done.
    + apply NoDup_singleton.
  - by rewrite replace_row_keys.
Qed.

End ProcessEntryFacts.

(* ===================================================================== *)
(** * Comparisons and lookups of stored rows                              *)
(* ===================================================================== *)

Lemma float_gt_spec (x y : Q) : Py.float_gt x y = true <-> (y < x)%Q.
Proof. apply float_lt_spec. Qed.

Lemma db_get_ext (w1 w2 : Database.World) key :
  Database.vulnerabilities w1 = Database.vulnerabilities w2 ->
  Database.db_get w1 key = Database.db_get w2 key.
Proof. unfold Database.db_get. by intros ->. Qed.

Lemma or_str_key (key : string) :
  key <> "" -> ProcessingService.or_str (Some key) None = Some key.
Proof. intros H. simpl. apply String.eqb_neq in H. by rewrite H. Qed.

(* ===================================================================== *)
(** * Further properties of process_entry                                 *)
(* ===================================================================== *)

Lemma find_app_Some {A} (f : A -> bool) (l1 l2 : list A) a :
  find f l1 = Some a -> find f (l1 ++ l2) = Some a.
Proof.
  induction l1 as [|x l1 IH]; [done|]. simpl.
  destruct (f x); [done|]. apply IH.
Qed.

Lemma find_app_None {A} (f : A -> bool) (l1 l2 : list A) :
  find f l1 = None -> find f (l1 ++ l2) = find f l2.
Proof.
  induction l1 as [|x l1 IH]; [done|]. simpl.
  destruct (f x); [done|]. apply IH.
Qed.

(** When extraction raises, or yields no CVE id, the entry is left FAILED
    with the message of the exception, resp. "No CVE ID extracted from
    text", one more attempt and the time of the failure; nothing is
    returned and the table of vulnerabilities is not touched.  An
    extraction that raises has not read the clock, so the failure is
    stamped with the first reading; an extraction that returns has spent
    that reading on its result, and the failure is stamped with the
    second.  Either way the stamp is the last reading taken. *)
Theorem process_entry_failure
    (clock : nat -> Z)
    (extract : string -> Z -> Py.py_result LLMService.ExtractionResult)
    (entry : Database.RawEntry) (w : Database.World) (msg : string)
    (reading : nat) :
  ((exists e,
      extract (Database.raw_payload entry) (clock (Database.clock_reads w))
      = Py.Raise e /\ msg = Py.exn_msg e /\
      reading = Database.clock_reads w)
   \/ exists x,
        extract (Database.raw_payload entry) (clock (Database.clock_reads w))
        = Py.Ok x /\
        (LLMService.cve_id x = None \/ LLMService.cve_id x = Some "") /\
        msg = "No CVE ID extracted from text" /\
        reading = S (Database.clock_reads w)) ->
  let run := ProcessingService.process_entry clock extract entry w in
  run.1.1 = None /\
  Database.processing_status run.1.2 = Database.FAILED /\
  Database.last_processing_error run.1.2 = Some msg /\
  Database.processing_attempts run.1.2
  = Database.processing_attempts entry + 1 /\
  Database.processed_at run.1.2 = Some (clock reading) /\
  Database.clock_reads run.2 = S reading /\
  Database.raw_entries run.2
  = <[Database.id entry := run.1.2]> (Database.raw_entries w) /\
  Database.vulnerabilities run.2 = Database.vulnerabilities w.
Proof.
  intros H run. unfold run, ProcessingService.process_entry,
    ProcessingService.utcnow, ProcessingService.set_entry.
  cbn [Database.raw_entries Database.vulnerabilities Database.clock_reads
       Database.raw_payload Database.id].
  destruct H as [(e & -> & -> & ->)|(x & -> & Hc & -> & ->)].
  - cbn. by rewrite insert_insert_eq.
  - destruct Hc as [-> | ->]; cbn; by rewrite insert_insert_eq.
Qed.

Lemma process_entry_failure_witness :
  let run :=
    ProcessingService.process_entry Samples.ticking
      (fun _ _ => Py.Raise (Py.Exn Py.OtherException "LLM error"))
      Samples.pending_entry (Samples.world_with []) in
  Database.processing_status run.1.2 = Database.FAILED /\
  Database.last_processing_error run.1.2 = Some "LLM error" /\
  Database.processed_at run.1.2 = Some (Samples.ticking 0) /\
  Database.clock_reads run.2 = 1%nat /\
  Database.vulnerabilities run.2 = [].
Proof.
  intros run.
  destruct (process_entry_failure Samples.ticking
              (fun _ _ => Py.Raise (Py.Exn Py.OtherException "LLM error"))
              Samples.pending_entry (Samples.world_with []) "LLM error" 0%nat
              (or_introl (ex_intro _ (Py.Exn Py.OtherException "LLM error")
                            (conj eq_refl (conj eq_refl eq_refl)))))
    as (_ & H1 & H2 & _ & H4 & H5 & _ & H3).
  by repeat split.
Defined.

(** When the extracted CVE id has no stored row, a row is inserted that
    carries the extraction's fields; it is the row a later lookup of the
    id finds, the rows of all other ids are as before, and the entry is
    COMPLETED. *)
Theorem process_entry_creates
    (clock : nat -> Z)
    (extract : string -> Z -> Py.py_result LLMService.ExtractionResult)
    (entry : Database.RawEntry) (w : Database.World)
    (x : LLMService.ExtractionResult) (key : string) :
  extract (Database.raw_payload entry) (clock (Database.clock_reads w))
  = Py.Ok x ->
  LLMService.cve_id x = Some key ->
  key <> "" ->
  Database.db_get w key = None ->
  let run := ProcessingService.process_entry clock extract entry w in
  exists v,
    run.1.1 = Some v /\
    Database.vulnerabilities run.2 = Database.vulnerabilities w ++ [v] /\
    Database.db_get run.2 key = Some v /\
    (forall k, k <> key -> Database.db_get run.2 k = Database.db_get w k) /\
    Database.processing_status run.1.2 = Database.COMPLETED /\
    Database.cve_id v = key /\
    Database.title v = LLMService.title x /\
    Database.description v = LLMService.description x /\
    Database.severity v = LLMService.severity x /\
    Database.cvss_score v = LLMService.cvss_score x /\
    Database.cvss_vector v = LLMService.cvss_vector x /\
    Database.confidence_score v = LLMService.confidence_score x /\
    Database.needs_review v = LLMService.needs_review x /\
    Database.extraction_metadata v = LLMService.extraction_metadata x.
Proof.
  intros Hx Hkey Hne Hget run.
  unfold run, ProcessingService.process_entry, ProcessingService.utcnow,
    ProcessingService.set_entry.
  cbn [Database.raw_entries Database.vulnerabilities Database.clock_reads
       Database.raw_payload Database.id].
  rewrite Hx, Hkey, (or_str_key key Hne).
  match goal with
  | |- context [Database.db_get ?w1 key] =>
      rewrite (db_get_ext w1 w key eq_refl), Hget
  end.
  eexists. split; [done|].
  unfold ProcessingService.add_vulnerability, ProcessingService.mark.
  cbn [fst snd Database.vulnerabilities Database.processing_status
       Database.cve_id Database.title Database.description
       Database.severity Database.cvss_score Database.cvss_vector
       Database.confidence_score Database.needs_review
       Database.extraction_metadata].
  split; [done|]. unfold Database.db_get in *.
  cbn [Database.vulnerabilities]. split; [|split; [|done]].
  - rewrite find_app_None by done. cbn. by rewrite String.eqb_refl.
  - intros k Hk.
    destruct (find (fun v => String.eqb (Database.cve_id v) k)
                (Database.vulnerabilities w)) as [a|] eqn:E.
    + by apply find_app_Some.
    + rewrite find_app_None by done. cbn.
      apply String.eqb_neq in Hk. rewrite String.eqb_sym in Hk. by rewrite Hk.
Qed.

Lemma process_entry_creates_witness :
  let run :=
    ProcessingService.process_entry Samples.ticking
      (fun _ _ => Py.Ok Samples.untitled_extraction)
      Samples.pending_entry (Samples.world_with []) in
  exists v,
    run.1.1 = Some v /\
    Database.db_get run.2 "CVE-2024-1234" = Some v /\
    Database.confidence_score v = 95 # 100.
Proof.
  intros run.
  destruct (process_entry_creates Samples.ticking
              (fun _ _ => Py.Ok Samples.untitled_extraction)
              Samples.pending_entry (Samples.world_with [])
              Samples.untitled_extraction "CVE-2024-1234"
              eq_refl eq_refl ltac:(done) eq_refl)
    as (v & H1 & _ & H2 & _ & _ & _ & _ & _ & _ & _ & _ & H3 & _).
  exists v. by repeat split.
Defined.

(* ===================================================================== *)
(** * Stored rows are never lost                                          *)
(* ===================================================================== *)

Section RowsKept.
Import Py Database ProcessingService.
Context `{B : Builtins}.

Lemma rows_kept_refl w : rows_kept w w.
Proof. intros key v H. exists v. split; [done|]. split; [apply Qle_refl|done]. Qed.

Lemma rows_kept_trans w1 w2 w3 :
  rows_kept w1 w2 -> rows_kept w2 w3 -> rows_kept w1 w3.
Proof.
  intros H12 H23 key v H.
  destruct (H12 key v H) as (v2 & H2 & Hc2 & Ht2).
  destruct (H23 key v2 H2) as (v3 & H3 & Hc3 & Ht3).
  exists v3. split; [done|]. split; [by eapply Qle_trans|congruence].
Qed.

Lemma rows_kept_same_table w w' :
  vulnerabilities w' = vulnerabilities w -> rows_kept w w'.
Proof.
  intros E key v H. exists v. rewrite (db_get_ext w' w key E).
  split; [done|]. split; [apply Qle_refl|done].
Qed.

Lemma process_entry_rows_kept clock extract entry w :
  rows_kept w (process_entry clock extract entry w).2.
Proof.
  unfold process_entry, utcnow, set_entry.
  cbn [raw_entries vulnerabilities clock_reads raw_payload id].
  destruct (extract _ _) as [x|e]; [|by apply rows_kept_same_table].
  destruct (or_str _ _) as [key0|]; [|by apply rows_kept_same_table].
  match goal with
  | |- context [db_get ?w1 key0] => rewrite (db_get_ext w1 w key0 eq_refl)
  end.
  destruct (db_get w key0) as [existing|] eqn:Eg.
  - destruct (float_gt _ _) eqn:Hgt; [|by apply rows_kept_same_table].
    apply float_gt_spec in Hgt.
    destruct (db_get_Some _ _ _ Eg) as [Hk _].
    intros key v Hv. unfold db_get in *.
    cbn [fst snd vulnerabilities update_vulnerability].
    rewrite find_replace_row, Hv. cbn [cve_id fmap option_fmap option_map].
    rewrite Hk. destruct (String.eqb key0 key) eqn:E.
    + apply String.eqb_eq in E. subst key.
      assert (v = existing) as -> by congruence.
      eexists. split; [done|]. cbn. split; [by apply Qlt_le_weak|done].
    + exists v. split; [done|]. split; [apply Qle_refl|done].
  - intros key v Hv. exists v. unfold db_get in *.
    cbn [fst snd vulnerabilities add_vulnerability].
    split; [by apply find_app_Some|]. split; [apply Qle_refl|done].
Qed.

Lemma process_one_rows_kept clock extract acc i :
  rows_kept acc.2 (process_one clock extract acc i).2.
Proof.
  destruct acc as [stats w]. unfold process_one.
  destruct (raw_entries w !! i) as [entry|]; [|apply rows_kept_refl].
  pose proof (process_entry_rows_kept clock extract entry w) as H.
  destruct (process_entry clock extract entry w) as [[result e'] w'].
  cbn [snd] in *. by repeat case_match.
Qed.

Lemma foldl_process_one_rows_kept clock extract ids acc :
  rows_kept acc.2 (foldl (process_one clock extract) acc ids).2.
Proof.
  revert acc. induction ids as [|i ids IH]; intros acc; [apply rows_kept_refl|].
  simpl. eapply rows_kept_trans; [apply process_one_rows_kept|apply IH].
Qed.

Lemma finish_rows_kept clock stats w w0 :
  rows_kept w w0 -> rows_kept w (finish clock stats w0).2.
Proof.
  intros H. eapply rows_kept_trans; [exact H|].
  by apply rows_kept_same_table.
Qed.

Lemma process_batch_rows_kept clock config test_connection post batch_size w :
  rows_kept w
    (process_batch clock config test_connection post batch_size w).2.
Proof.
  unfold process_batch, new_stats.
  destruct (utcnow clock w) as [t0 w0] eqn:E0.
  assert (rows_kept w w0) as H0.
  { apply rows_kept_same_table. by injection E0 as <- <-. }
  destruct config as [c|]; [|by apply finish_rows_kept].
  destruct (or_str _ _) as [selected|]; [|by apply finish_rows_kept].
  destruct test_connection as [u|e]; [|by apply finish_rows_kept].
  match goal with
  | |- context [foldl (process_one clock ?x) ?acc ?ids] =>
      pose proof (foldl_process_one_rows_kept clock x ids acc) as Hf;
      destruct (foldl (process_one clock x) acc ids) as [stats' w']
  end.
  cbn [snd] in Hf. apply finish_rows_kept.
  by eapply rows_kept_trans.
Qed.

Lemma step_rows_kept w w' : step w w' -> rows_kept w w'.
Proof.
  intros [w0 e _ _ _|clock config tc post bs w0|clock days w0].
  - by apply rows_kept_same_table.
  - apply process_batch_rows_kept.
  - by apply rows_kept_same_table.
Qed.

End RowsKept.

(** Whatever the pipeline does afterwards (ingestion, batches, purges), a
    stored vulnerability stays stored under its CVE id, keeps the time of
    its creation, and its confidence never decreases. *)
Theorem stored_rows_are_kept `{B : Py.Builtins} (w w' : Database.World)
    (key : string) (v : Database.Vulnerability) :
  rtc ProcessingService.step w w' ->
  Database.db_get w key = Some v ->
  exists v',
    Database.db_get w' key = Some v' /\
    (Database.confidence_score v <= Database.confidence_score v')%Q /\
    Database.created_at v' = Database.created_at v.
Proof.
  intros Hs. revert key v. change (Database.rows_kept w w').
  induction Hs as [|w1 w2 w3 H12 _ IH]; [apply rows_kept_refl|].
  eapply rows_kept_trans; [by apply step_rows_kept|exact IH].
Qed.

Lemma stored_rows_are_kept_witness :
  let w := Samples.world_with [Samples.stored_vulnerability] in
  let w' :=
    (ProcessingService.process_batch (H := Samples.builtins) Samples.ticking
       (Some Samples.config) (Py.Ok tt) Samples.dead_post None w).2 in
  exists v',
    Database.db_get w' "CVE-2024-1234" = Some v' /\
    (7 # 10 <= Database.confidence_score v')%Q.
Proof.
  intros w w'.
  destruct (stored_rows_are_kept (B := Samples.builtins) w w' "CVE-2024-1234"
              Samples.stored_vulnerability)
    as (v' & H1 & H2 & _).
  - apply rtc_once. apply ProcessingService.step_batch.
  - reflexivity.
  - exists v'. by split.
Defined.
Section PurgeFacts.
Import Py Database ProcessingService.

Lemma is_purgeable_false cutoff e :
  is_purgeable cutoff e = false <->
  processing_status e <> COMPLETED
  \/ processed_at e = None
  \/ exists t, processed_at e = Some t /\ cutoff <= t.
Proof.
  unfold is_purgeable. split.
  - intros H. apply andb_false_iff in H as [H|H].
    + left. by apply bool_decide_eq_false in H.
    + destruct (processed_at e) as [t|]; [|by right; left].
      right. right. exists t. split; [done|]. by apply Z.ltb_ge in H.
  - intros [H|[H|(t & H & Ht)]]; apply andb_false_iff.
    + left. by apply bool_decide_eq_false.
    + right. by rewrite H.
    + right. rewrite H. by apply Z.ltb_ge.
Qed.

End PurgeFacts.

Lemma purge_old_entries_rows (clock : nat -> Z) (days : Z)
    (w : Database.World) :
  let cutoff := clock (Database.clock_reads w) - days * ProcessingService.day in
  let run := ProcessingService.purge_old_entries clock days w in
  (forall k e,
     Database.raw_entries run.2 !! k = Some e <->
     Database.raw_entries w !! k = Some e /\
     (Database.processing_status e <> Database.COMPLETED
      \/ Database.processed_at e = None
      \/ exists t, Database.processed_at e = Some t /\ cutoff <= t)) /\
  Z.of_nat (size (Database.raw_entries run.2)) + run.1
  = Z.of_nat (size (Database.raw_entries w)) /\
  0 <= run.1 /\
  Database.vulnerabilities run.2 = Database.vulnerabilities w.
Proof.
  intros cutoff run. unfold run, ProcessingService.purge_old_entries.
  cbn [ProcessingService.utcnow fst snd Database.raw_entries
       Database.vulnerabilities Database.clock_reads].
  fold cutoff. split; [|split; [lia|split; [|done]]].
  - intros k e. rewrite map_lookup_filter_Some. cbn [snd].
    by rewrite is_purgeable_false.
  - match goal with
    | |- context [filter ?P (Database.raw_entries w)] =>
        pose proof (map_subseteq_size _ _
                      (map_filter_subseteq P (Database.raw_entries w)))
    end.
    lia.
Qed.

(** [purge_old_entries] removes the rows that are COMPLETED and were
    processed before the cutoff, and no other: a row that is not COMPLETED,
    has no time of processing, or was processed at or after the cutoff stays
    as it is.  The count returned is the number of rows removed; the table of
    vulnerabilities is not touched. *)
Theorem purge_old_entries_spec (clock : nat -> Z) (days : Z)
    (w : Database.World) :
  let cutoff := clock (Database.clock_reads w) - days * ProcessingService.day in
  let run := ProcessingService.purge_old_entries clock days w in
  (forall k e,
     Database.raw_entries run.2 !! k = Some e <->
     Database.raw_entries w !! k = Some e /\
     (Database.processing_status e <> Database.COMPLETED
      \/ Database.processed_at e = None
      \/ exists t, Database.processed_at e = Some t /\ cutoff <= t)) /\
  Z.of_nat (size (Database.raw_entries run.2)) + run.1
  = Z.of_nat (size (Database.raw_entries w)) /\
  0 <= run.1 /\
  Database.vulnerabilities run.2 = Database.vulnerabilities w.
Proof.
  apply purge_old_entries_rows.
Qed.
Section PendingFacts.
Import Py Database ProcessingService.
#[local] Existing Instance ProcessingService.ingested_before_dec.

Lemma is_pending_spec e :
  is_pending e = true <->
  processing_status e = PENDING
  \/ (processing_status e = FAILED /\ processing_attempts e < 3).
Proof.
  unfold is_pending. rewrite orb_true_iff, andb_true_iff.
  rewrite !bool_decide_eq_true, Z.ltb_lt. tauto.
Qed.

#[local] Instance ingested_before_total : Total ingested_before.
Proof. intros a b. unfold ingested_before. lia. Qed.

#[local] Instance ingested_before_trans : Transitive ingested_before.
Proof. intros a b c. unfold ingested_before. lia. Qed.

(** The rows the query ranges over, oldest first. *)
Lemma eligible_sorted (w : World) :
  let rows := merge_sort ingested_before
                (List.filter is_pending (map_to_list (raw_entries w)).*2) in
  StronglySorted ingested_before rows /\
  forall e, e ∈ rows <->
    (exists k, raw_entries w !! k = Some e) /\ is_pending e = true.
Proof.
  intros rows. split; [apply StronglySorted_merge_sort; apply _|].
  intros e. unfold rows. rewrite merge_sort_Permutation.
  rewrite list_elem_of_In, filter_In, <- list_elem_of_In.
  rewrite list_elem_of_fmap. split.
  - intros [([k e'] & -> & H%elem_of_map_to_list) Hp]. split; [by exists k|done].
  - intros [[k H] Hp]. split; [|done]. exists (k, e).
    split; [done|]. by apply elem_of_map_to_list.
Qed.

Lemma take_sorted_oldest {A} (R : relation A) (l : list A) n x y :
  StronglySorted R l -> x ∈ take n l -> y ∈ l -> (y ∉ take n l) ->
  length (take n l) = n /\ R x y.
Proof.
  intros Hs Hx Hy Hn. rewrite <- (take_drop n l) in Hy, Hs.
  apply elem_of_app in Hy as [Hy|Hy]; [done|]. split.
  - rewrite length_take. apply Nat.min_l.
    destruct (decide (n <= length l)%nat) as [|Hgt]; [done|].
    rewrite drop_ge in Hy by lia. by apply elem_of_nil in Hy.
  - by eapply StronglySorted_app_1_elem_of.
Qed.


(** [get_pending_entries] returns rows of the staging table that are PENDING,
    or FAILED after fewer than three attempts, oldest first and no more than
    the limit; a row that qualifies is left out only when the limit is
    reached, and then nothing selected was ingested after it. *)
Theorem get_pending_entries_spec (config : option Database.LLMConfig)
    (limit : option Z) (w : Database.World) (n : Z) :
  0 <= n ->
  match limit, config with
  | Some l, _ => l
  | None, Some c => Database.batch_size c
  | None, None => 10
  end = n ->
  let selected := ProcessingService.get_pending_entries config limit w in
  (length selected <= Z.to_nat n)%nat /\
  StronglySorted (fun a b => Database.ingested_at a <= Database.ingested_at b)
    selected /\
  (forall e, e ∈ selected ->
     (exists k, Database.raw_entries w !! k = Some e) /\
     (Database.processing_status e = Database.PENDING
      \/ (Database.processing_status e = Database.FAILED
          /\ Database.processing_attempts e < 3))) /\
  (forall k e,
     Database.raw_entries w !! k = Some e ->
     Database.processing_status e = Database.PENDING
     \/ (Database.processing_status e = Database.FAILED
         /\ Database.processing_attempts e < 3) ->
     (e ∉ selected) ->
     length selected = Z.to_nat n /\
     forall s, s ∈ selected -> Database.ingested_at s <= Database.ingested_at e).
Proof.
  intros Hn Hl selected.
  assert (selected
          = take (Z.to_nat n)
              (merge_sort ProcessingService.ingested_before
                 (List.filter ProcessingService.is_pending
                    (map_to_list (Database.raw_entries w)).*2))) as Hsel.
  { unfold selected, ProcessingService.get_pending_entries. subst n.
    by destruct limit as [l|], config as [c|]. }
  destruct (eligible_sorted w) as [Hs He]. cbn zeta in Hs, He.
  rewrite Hsel. split; [|split; [|split]].
  - rewrite length_take. lia.
  - rewrite <- (take_drop (Z.to_nat n)) in Hs.
    by apply StronglySorted_app_1_l in Hs.
  - intros e Hin. apply elem_of_take in Hin as (i & Hi & _).
    apply list_elem_of_lookup_2 in Hi. apply He in Hi as [Hk Hp].
    split; [done|]. by apply is_pending_spec.
  - intros k e Hk Hp Hout.
    assert (e ∈ merge_sort ProcessingService.ingested_before
                  (List.filter ProcessingService.is_pending
                     (map_to_list (Database.raw_entries w)).*2)) as Hin.
    { apply He. split; [by exists k|]. by apply is_pending_spec. }
    split.
    + rewrite length_take. apply Nat.min_l.
      destruct (decide (Z.to_nat n <= length (merge_sort
                  ProcessingService.ingested_before
                  (List.filter ProcessingService.is_pending
                     (map_to_list (Database.raw_entries w)).*2)))%nat)
        as [|Hgt]; [done|].
      rewrite take_ge in Hout by lia. done.
    + intros s Hs'.
      by destruct (take_sorted_oldest _ _ _ s e Hs Hs' Hin Hout).
Qed.

End PendingFacts.

Lemma get_pending_entries_spec_witness :
  let w := Samples.world_with [] in
  (length (ProcessingService.get_pending_entries None None w) <= 10)%nat.
Proof.
  intros w.
  destruct (get_pending_entries_spec None None w 10 ltac:(lia) eq_refl)
    as [H _].
  exact H.
Defined.
(* ===================================================================== *)
(** * A batch                                                             *)
(* ===================================================================== *)

Section BatchFacts.
Import Py Database ProcessingService.
Import LLMService (ExtractionResult).
#[local] Existing Instance ProcessingService.ingested_before_dec.
Variable clock : nat -> Z.
Variable extract : string -> Z -> py_result ExtractionResult.

(** The counters add up. *)
#[local] Abbreviation counted s :=
  (processed s = created s + updated s + failed s + skipped s /\
   duplicates s = updated s + skipped s /\
   0 <= created s /\ 0 <= updated s /\ 0 <= failed s /\ 0 <= skipped s).

Lemma process_one_counted acc i :
  let r := process_one clock extract acc i in
  (counted acc.1 -> counted r.1) /\
  purged r.1 = purged acc.1 /\ started_at r.1 = started_at acc.1 /\
  ended_at r.1 = ended_at acc.1.
Proof.
  destruct acc as [stats w]. unfold process_one.
  destruct (raw_entries w !! i) as [entry|]; [|done].
  destruct (process_entry clock extract entry w) as [[result e'] w'].
  repeat case_match; cbn; (split; [lia|done]).
Qed.

Lemma foldl_process_one_counted ids acc :
  let r := foldl (process_one clock extract) acc ids in
  (counted acc.1 -> counted r.1) /\
  purged r.1 = purged acc.1 /\ started_at r.1 = started_at acc.1 /\
  ended_at r.1 = ended_at acc.1.
Proof.
  revert acc. induction ids as [|i ids IH]; intros acc; [done|].
  cbn [foldl]. destruct (IH (process_one clock extract acc i)) as (H1 & H2 & H3 & H4).
  destruct (process_one_counted acc i) as (G1 & G2 & G3 & G4).
  cbn zeta in *. split; [auto|]. split; [congruence|]. split; congruence.
Qed.

(** What a turn of [process_entry] leaves of the entry, and when it
    stamps it. *)
Lemma process_entry_entry_kept entry w :
  let e' := (process_entry clock extract entry w).1.2 in
  let w' := (process_entry clock extract entry w).2 in
  source_id e' = source_id entry /\ raw_payload e' = raw_payload entry /\
  ingested_at e' = ingested_at entry /\
  exists j, (clock_reads w <= j < clock_reads w')%nat /\
            processed_at e' = Some (clock j).
Proof.
  unfold process_entry, utcnow, set_entry, update_vulnerability,
    add_vulnerability, mark.
  cbn [raw_entries vulnerabilities clock_reads raw_payload id].
  repeat case_match; cbn; (do 3 (split; [done|]));
    eexists; (split; [|reflexivity]); lia.
Qed.

Lemma process_one_clock_reads acc i :
  (clock_reads acc.2 <= clock_reads (process_one clock extract acc i).2)%nat.
Proof.
  destruct acc as [stats w]. unfold process_one.
  destruct (raw_entries w !! i) as [entry|]; [|done].
  pose proof (process_entry_entry_kept entry w)
    as (_ & _ & _ & j & Hj & _).
  destruct (process_entry clock extract entry w) as [[result e'] w'].
  cbn [fst snd] in *. repeat case_match; cbn [snd]; lia.
Qed.

Lemma foldl_process_one_clock_reads ids acc :
  (clock_reads acc.2
   <= clock_reads (foldl (process_one clock extract) acc ids).2)%nat.
Proof.
  revert acc. induction ids as [|i ids IH]; intros acc; [done|].
  cbn [foldl]. etrans; [apply (process_one_clock_reads acc i)|].
  apply IH.
Qed.

(** How a row leaves a batch that has selected it. *)
#[local] Abbreviation touched n m e e' :=
  (id e' = id e /\
   processing_attempts e' = processing_attempts e + 1 /\
   (processing_status e' = FAILED \/ processing_status e' = COMPLETED) /\
   (exists j, (n <= j < m)%nat /\ processed_at e' = Some (clock j)) /\
   source_id e' = source_id e /\ raw_payload e' = raw_payload e /\
   ingested_at e' = ingested_at e).

Lemma process_one_present stats w i entry :
  raw_entries w !! i = Some entry -> id entry = i ->
  let r := process_one clock extract (stats, w) i in
  exists e', raw_entries r.2 = <[i := e']> (raw_entries w) /\
             touched (clock_reads w) (clock_reads r.2) entry e' /\
             processed r.1 = processed stats + 1 /\
             (clock_reads w <= clock_reads r.2)%nat.
Proof.
  intros Hi Hid. unfold process_one. rewrite Hi.
  pose proof (process_entry_entries clock extract entry w) as H1.
  pose proof (process_entry_entry clock extract entry w) as (H2 & H3 & H4).
  pose proof (process_entry_entry_kept entry w) as (H5 & H6 & H7 & j & Hj & H8).
  destruct (process_entry clock extract entry w) as [[result e'] w'].
  cbn [fst snd] in *. exists e'. rewrite Hid in H1.
  assert (exists j, (clock_reads w <= j < clock_reads w')%nat
                    /\ processed_at e' = Some (clock j))
    as H9 by (exists j; split; [lia|done]).
  repeat case_match; cbn [fst snd processed bump];
    (split; [done|]); (split; [by repeat split|]); (split; [done|lia]).
Qed.

Lemma well_keyed_insert w w' i e' :
  well_keyed w -> id e' = i -> raw_entries w' = <[i := e']> (raw_entries w) ->
  well_keyed w'.
Proof.
  intros Hw Hid Hr k e. rewrite Hr. destruct (decide (k = i)) as [->|Hne].
  - rewrite lookup_insert_eq. by intros [= <-].
  - rewrite lookup_insert_ne by done. apply Hw.
Qed.

Lemma foldl_process_one_entries ids : forall stats w,
  NoDup ids -> well_keyed w ->
  (forall i, i ∈ ids -> is_Some (raw_entries w !! i)) ->
  let r := foldl (process_one clock extract) (stats, w) ids in
  well_keyed r.2 /\
  processed r.1 = processed stats + Z.of_nat (length ids) /\
  (forall k, k ∉ ids -> raw_entries r.2 !! k = raw_entries w !! k) /\
  (forall i e, i ∈ ids -> raw_entries w !! i = Some e ->
     exists e', raw_entries r.2 !! i = Some e' /\
                touched (clock_reads w) (clock_reads r.2) e e').
Proof.
  induction ids as [|i ids IH]; intros stats w Hnd Hw Hin.
  { cbn. split; [done|]. split; [lia|]. split; [done|].
    intros i e []%elem_of_nil. }
  apply NoDup_cons in Hnd as [Hi Hnd].
  destruct (Hin i) as [entry Hentry]; [by left|].
  destruct (process_one_present stats w i entry Hentry (Hw _ _ Hentry))
    as (e1 & Hr1 & Ht1 & Hp1 & Hc1).
  cbn [foldl].
  destruct (process_one clock extract (stats, w) i) as [stats1 w1] eqn:E1.
  cbn [fst snd] in Hr1, Ht1, Hp1, Hc1.
  assert (well_keyed w1) as Hw1.
  { eapply well_keyed_insert; [exact Hw| |exact Hr1].
    destruct Ht1 as [-> _]. by apply Hw. }
  destruct (IH stats1 w1 Hnd Hw1) as (G1 & G2 & G3 & G4).
  { intros j Hj. rewrite Hr1. destruct (decide (j = i)) as [->|Hne].
    - by rewrite lookup_insert_eq.
    - rewrite lookup_insert_ne by done. apply Hin. by right. }
  pose proof (foldl_process_one_clock_reads ids (stats1, w1)) as Hc2.
  cbn [snd] in Hc2.
  cbn zeta in *. split; [done|]. split; [rewrite G2, Hp1; cbn [length]; lia|].
  split.
  - intros k Hk. apply not_elem_of_cons in Hk as [Hki Hk].
    rewrite (G3 k Hk), Hr1. by rewrite lookup_insert_ne.
  - intros j e [->|Hj]%elem_of_cons He.
    + rewrite (G3 i Hi), Hr1, lookup_insert_eq. exists e1.
      split; [done|]. assert (e = entry) as -> by congruence.
      destruct Ht1 as (T1 & T2 & T3 & (n & Hn & T4) & T5).
      do 3 (split; [done|]). split; [|done]. exists n. split; [lia|done].
    + destruct (G4 j e Hj) as (e' & He' & T1 & T2 & T3 & (n & Hn & T4) & T5).
      { rewrite Hr1. rewrite lookup_insert_ne; [done|]. by intros ->. }
      exists e'. split; [done|]. do 3 (split; [done|]).
      split; [|done]. exists n. split; [lia|done].
Qed.

Lemma List_filter_sublist {A} (f : A -> bool) (l : list A) :
  List.filter f l `sublist_of` l.
Proof.
  induction l as [|x l IH]; [constructor|]. simpl.
  destruct (f x); by constructor.
Qed.

(** The selection holds rows of the table, each once. *)
Lemma get_pending_entries_rows config limit w :
  well_keyed w ->
  let selected := get_pending_entries config limit w in
  NoDup (id <$> selected) /\
  forall e, e ∈ selected -> raw_entries w !! id e = Some e.
Proof.
  intros Hw selected. unfold selected, get_pending_entries.
  set (n := Z.to_nat _).
  set (rows := (map_to_list (raw_entries w)).*2).
  assert (forall e, e ∈ rows -> raw_entries w !! id e = Some e) as Hrows.
  { intros e [[k e'] [-> H]]%list_elem_of_fmap.
    apply elem_of_map_to_list in H. cbn. by rewrite (Hw _ _ H). }
  assert (NoDup (id <$> rows)) as Hnd.
  { assert (id <$> rows = (map_to_list (raw_entries w)).*1) as ->;
      [|apply NoDup_fst_map_to_list].
    unfold rows. rewrite <- list_fmap_compose. apply list_fmap_ext.
    intros j [k e] H. apply list_elem_of_lookup_2, elem_of_map_to_list in H.
    cbn. by apply Hw. }
  split.
  - eapply sublist_NoDup; [|apply fmap_sublist, sublist_take].
    rewrite merge_sort_Permutation.
    eapply sublist_NoDup; [exact Hnd|]. apply fmap_sublist, List_filter_sublist.
  - intros e He. apply Hrows.
    apply elem_of_take in He as (j & Hj & _).
    apply list_elem_of_lookup_2 in Hj. rewrite merge_sort_Permutation in Hj.
    apply list_elem_of_In, filter_In in Hj as [Hj _]. by apply list_elem_of_In.
Qed.

Lemma get_pending_entries_pending config limit w e :
  e ∈ get_pending_entries config limit w -> is_pending e = true.
Proof.
  unfold get_pending_entries. intros (j & Hj & _)%elem_of_take.
  apply list_elem_of_lookup_2 in Hj. rewrite merge_sort_Permutation in Hj.
  by apply list_elem_of_In, filter_In in Hj as [_ Hj].
Qed.

End BatchFacts.

(** When no configuration row exists, no model is selected, or the
    connection test fails, [process_batch] returns at once: no row of either
    table is touched, every counter is zero, and the run is stamped with
    two successive readings of the clock. *)
Theorem process_batch_not_started `{B : Py.Builtins} (clock : nat -> Z)
    (config : option Database.LLMConfig) (test_connection : Py.py_result unit)
    (post : string -> OllamaClient.payload -> OllamaClient.http_outcome)
    (batch_size : option Z) (w : Database.World) :
  (config = None
   \/ (exists c, config = Some c /\
         (Database.selected_model c = None
          \/ Database.selected_model c = Some ""))
   \/ exists e, test_connection = Py.Raise e) ->
  let run :=
    ProcessingService.process_batch clock config test_connection post
      batch_size w in
  Database.raw_entries run.2 = Database.raw_entries w /\
  Database.vulnerabilities run.2 = Database.vulnerabilities w /\
  ProcessingService.processed run.1 = 0 /\
  ProcessingService.created run.1 = 0 /\
  ProcessingService.updated run.1 = 0 /\
  ProcessingService.failed run.1 = 0 /\
  ProcessingService.skipped run.1 = 0 /\
  ProcessingService.duplicates run.1 = 0 /\
  ProcessingService.purged run.1 = 0 /\
  ProcessingService.started_at run.1 = clock (Database.clock_reads w) /\
  ProcessingService.ended_at run.1
  = Some (clock (S (Database.clock_reads w))).
Proof.
  intros H run. unfold run, ProcessingService.process_batch.
  destruct H as [->|[(c & -> & Hc)|(e & ->)]].
  - done.
  - by destruct Hc as [-> | ->].
  - destruct config as [c|]; [|done].
    by destruct (ProcessingService.or_str _ _).
Qed.

Lemma process_batch_not_started_witness :
  let run :=
    ProcessingService.process_batch (H := Samples.builtins) Samples.ticking
      None (Py.Ok tt) Samples.dead_post None (Samples.world_with []) in
  Database.raw_entries run.2 !! 1 = Some Samples.pending_entry /\
  ProcessingService.processed run.1 = 0.
Proof.
  intros run.
  destruct (process_batch_not_started (B := Samples.builtins) Samples.ticking
              None (Py.Ok tt) Samples.dead_post None (Samples.world_with [])
              (or_introl eq_refl))
    as (H1 & _ & H2 & _).
  split; [|exact H2]. fold run in H1. rewrite H1. reflexivity.
Defined.

(** Whatever a batch meets, its counters add up: each processed entry is
    counted once as created, updated, failed or skipped, and the duplicates
    are the updated and the skipped ones.  A batch purges nothing. *)
Theorem process_batch_statistics `{B : Py.Builtins} (clock : nat -> Z)
    (config : option Database.LLMConfig) (test_connection : Py.py_result unit)
    (post : string -> OllamaClient.payload -> OllamaClient.http_outcome)
    (batch_size : option Z) (w : Database.World) :
  let stats :=
    (ProcessingService.process_batch clock config test_connection post
       batch_size w).1 in
  ProcessingService.processed stats
  = ProcessingService.created stats + ProcessingService.updated stats
    + ProcessingService.failed stats + ProcessingService.skipped stats /\
  ProcessingService.duplicates stats
  = ProcessingService.updated stats + ProcessingService.skipped stats /\
  0 <= ProcessingService.created stats /\
  0 <= ProcessingService.updated stats /\
  0 <= ProcessingService.failed stats /\
  0 <= ProcessingService.skipped stats /\
  ProcessingService.purged stats = 0 /\
  ProcessingService.started_at stats = clock (Database.clock_reads w) /\
  is_Some (ProcessingService.ended_at stats).
Proof.
  intros stats. unfold stats, ProcessingService.process_batch.
  cbn [ProcessingService.new_stats ProcessingService.utcnow].
  destruct config as [c|]; [|cbn; by repeat split].
  destruct (ProcessingService.or_str _ _) as [selected|];
    [|cbn; by repeat split].
  destruct test_connection as [u|e]; [|cbn; by repeat split].
  match goal with
  | |- context [foldl (ProcessingService.process_one clock ?x) ?acc ?ids] =>
      pose proof (foldl_process_one_counted clock x ids acc)
        as (H1 & H2 & H3 & H4);
      destruct (foldl (ProcessingService.process_one clock x) acc ids)
        as [stats' w']
  end.
  cbn [fst snd ProcessingService.processed ProcessingService.created
       ProcessingService.updated ProcessingService.failed
       ProcessingService.skipped ProcessingService.duplicates
       ProcessingService.purged ProcessingService.started_at
       ProcessingService.ended_at ProcessingService.finish
       ProcessingService.utcnow] in *.
  destruct H1 as (G1 & G2 & G3 & G4 & G5 & G6); [by repeat split|].
  by repeat split.
Qed.

Lemma process_batch_selection `{B : Py.Builtins} (clock : nat -> Z)
    (c : Database.LLMConfig) (model : string) (u : unit)
    (post : string -> OllamaClient.payload -> OllamaClient.http_outcome)
    (batch_size : option Z) (limit : Z) (w : Database.World) :
  Database.well_keyed w ->
  Database.selected_model c = Some model -> model <> "" ->
  match batch_size with
  | Some n => if n =? 0 then Database.batch_size c else n
  | None => Database.batch_size c
  end = limit ->
  let selected :=
    ProcessingService.get_pending_entries (Some c) (Some limit) w in
  let run :=
    ProcessingService.process_batch clock (Some c) (Py.Ok u) post
      batch_size w in
  ProcessingService.processed run.1 = Z.of_nat (length selected) /\
  (forall e, e ∈ selected ->
     exists e',
       Database.raw_entries run.2 !! Database.id e = Some e' /\
       Database.id e' = Database.id e /\
       Database.processing_attempts e' = Database.processing_attempts e + 1 /\
       (Database.processing_status e' = Database.FAILED
        \/ Database.processing_status e' = Database.COMPLETED) /\
       (exists j, (Database.clock_reads w < j < Database.clock_reads run.2)%nat
                  /\ Database.processed_at e' = Some (clock j)) /\
       Database.source_id e' = Database.source_id e /\
       Database.raw_payload e' = Database.raw_payload e /\
       Database.ingested_at e' = Database.ingested_at e) /\
  (forall k e,
     Database.raw_entries w !! k = Some e -> (e ∉ selected) ->
     Database.raw_entries run.2 !! k = Some e) /\
  (forall k,
     is_Some (Database.raw_entries run.2 !! k)
     <-> is_Some (Database.raw_entries w !! k)) /\
  Database.well_keyed run.2.
Proof.
  intros Hw Hm Hne Hl selected run.
  destruct (get_pending_entries_rows (Some c) (Some limit) w Hw)
    as [Hnd Hrows]. fold selected in Hnd, Hrows.
  unfold run, ProcessingService.process_batch.
  cbn [ProcessingService.new_stats ProcessingService.utcnow].
  rewrite Hm, (or_str_key model Hne), Hl.
  match goal with
  | |- context [foldl (ProcessingService.process_one clock ?x)
                      (?s0, ?w0) (Database.id <$> ?sel)] =>
      change sel with selected;
      pose proof (foldl_process_one_entries clock x (Database.id <$> selected)
                    s0 w0 Hnd Hw) as Hf;
      destruct (foldl (ProcessingService.process_one clock x) (s0, w0)
                  (Database.id <$> selected)) as [stats' w']
  end.
  cbn [fst snd Database.raw_entries ProcessingService.processed
       ProcessingService.finish ProcessingService.utcnow] in *.
  destruct Hf as (G1 & G2 & G3 & G4).
  { intros i [e [-> He]]%list_elem_of_fmap. rewrite (Hrows e He). by eexists. }
  rewrite length_fmap in G2.
  split; [rewrite G2; lia|]. split; [|split; [|split]].
  - intros e He.
    destruct (G4 (Database.id e) e) as (e' & He' & T1 & T2 & T3 & T4);
      [by apply list_elem_of_fmap_2|by apply Hrows|].
    exists e'. do 4 (split; [done|]).
    destruct T4 as [(j & Hj & T4) T5]. cbn [Database.clock_reads] in Hj.
    split; [|exact T5]. exists j. split; [cbn; lia|exact T4].
  - intros k e Hk Hout. rewrite G3; [done|].
    intros [e' [-> He']]%list_elem_of_fmap.
    pose proof (Hrows e' He') as H'.
    by assert (e = e') as -> by congruence.
  - intros k.
    destruct (decide (k ∈ Database.id <$> selected)) as [Hin|Hout].
    + pose proof Hin as [e [-> He]]%list_elem_of_fmap.
      destruct (G4 (Database.id e) e Hin (Hrows e He)) as (e' & -> & _).
      rewrite (Hrows e He). split; by eexists.
    + by rewrite (G3 k Hout).
  - exact G1.
Qed.


(** A configured batch over a well-keyed table processes exactly the rows
    [get_pending_entries] selects: each of them leaves with one more
    attempt, FAILED or COMPLETED, stamped with a reading of the clock taken
    during the batch, its payload as it was; every
    other row is as before; no row appears or disappears. *)
Theorem process_batch_touches_selection `{B : Py.Builtins} (clock : nat -> Z)
    (c : Database.LLMConfig) (model : string) (u : unit)
    (post : string -> OllamaClient.payload -> OllamaClient.http_outcome)
    (batch_size : option Z) (limit : Z) (w : Database.World) :
  Database.well_keyed w ->
  Database.selected_model c = Some model -> model <> "" ->
  match batch_size with
  | Some n => if n =? 0 then Database.batch_size c else n
  | None => Database.batch_size c
  end = limit ->
  let selected :=
    ProcessingService.get_pending_entries (Some c) (Some limit) w in
  let run :=
    ProcessingService.process_batch clock (Some c) (Py.Ok u) post
      batch_size w in
  ProcessingService.processed run.1 = Z.of_nat (length selected) /\
  (forall e, e ∈ selected ->
     exists e',
       Database.raw_entries run.2 !! Database.id e = Some e' /\
       Database.id e' = Database.id e /\
       Database.processing_attempts e' = Database.processing_attempts e + 1 /\
       (Database.processing_status e' = Database.FAILED
        \/ Database.processing_status e' = Database.COMPLETED) /\
       (exists j, (Database.clock_reads w < j < Database.clock_reads run.2)%nat
                  /\ Database.processed_at e' = Some (clock j)) /\
       Database.source_id e' = Database.source_id e /\
       Database.raw_payload e' = Database.raw_payload e /\
       Database.ingested_at e' = Database.ingested_at e) /\
  (forall k e,
     Database.raw_entries w !! k = Some e -> (e ∉ selected) ->
     Database.raw_entries run.2 !! k = Some e) /\
  (forall k,
     is_Some (Database.raw_entries run.2 !! k)
     <-> is_Some (Database.raw_entries w !! k)) /\
  Database.well_keyed run.2.
Proof.
  apply process_batch_selection.
Qed.

Lemma process_batch_touches_selection_witness :
  let w := Samples.world_with [] in
  let run :=
    ProcessingService.process_batch (H := Samples.builtins) Samples.ticking
      (Some Samples.config) (Py.Ok tt) Samples.dead_post None w in
  ProcessingService.processed run.1
  = Z.of_nat (length (ProcessingService.get_pending_entries
                        (Some Samples.config)
                        (Some (Database.batch_size Samples.config)) w)).
Proof.
  intros w run.
  destruct (process_batch_touches_selection (B := Samples.builtins)
              Samples.ticking Samples.config "llama3" tt Samples.dead_post
              None (Database.batch_size Samples.config) w)
    as [H _].
  - intros k e. unfold w. cbn.
    by intros [<- <-]%lookup_singleton_Some.
  - reflexivity.
  - discriminate.
  - reflexivity.
  - exact H.
Defined.

(* ===================================================================== *)
(** * Reachable states                                                    *)
(* ===================================================================== *)

Section ReachableFacts.
Import Py Database ProcessingService.
Context `{B : Builtins}.

(** The state a row of the staging table can be in. *)
#[local] Abbreviation settled e :=
  ((processing_status e = PENDING /\ processing_attempts e = 0)
   \/ ((processing_status e = FAILED \/ processing_status e = COMPLETED)
       /\ 1 <= processing_attempts e <= 3
       /\ is_Some (processed_at e))).

#[local] Abbreviation invariant w :=
  (well_keyed w /\ NoDup (keys w) /\
   forall k e, raw_entries w !! k = Some e -> settled e).

Lemma process_one_NoDup clock extract acc i :
  NoDup (keys acc.2) -> NoDup (keys (process_one clock extract acc i).2).
Proof.
  destruct acc as [stats w]. unfold process_one. intros Hn.
  destruct (raw_entries w !! i) as [entry|]; [|done].
  pose proof (process_entry_NoDup clock extract entry w Hn) as H.
  destruct (process_entry clock extract entry w) as [[result e'] w'].
  cbn [snd] in *. by repeat case_match.
Qed.

Lemma foldl_process_one_NoDup clock extract ids acc :
  NoDup (keys acc.2) ->
  NoDup (keys (foldl (process_one clock extract) acc ids).2).
Proof.
  revert acc. induction ids as [|i ids IH]; intros acc Hn; [done|].
  cbn [foldl]. by apply IH, process_one_NoDup.
Qed.

Lemma process_batch_NoDup clock config test_connection post batch_size w :
  NoDup (keys w) ->
  NoDup (keys (process_batch clock config test_connection post
                 batch_size w).2).
Proof.
  intros Hn. unfold process_batch.
  cbn [new_stats utcnow].
  destruct config as [c|]; [|done].
  destruct (or_str _ _) as [selected|]; [|done].
  destruct test_connection as [u|e]; [|done].
  match goal with
  | |- context [foldl (process_one clock ?x) ?acc ?ids] =>
      pose proof (foldl_process_one_NoDup clock x ids acc Hn) as Hf;
      destruct (foldl (process_one clock x) acc ids) as [stats' w']
  end.
  exact Hf.
Qed.

Lemma process_batch_rows clock config test_connection post batch_size w :
  well_keyed w ->
  let w' := (process_batch clock config test_connection post batch_size w).2 in
  well_keyed w' /\
  forall k e', raw_entries w' !! k = Some e' ->
    raw_entries w !! k = Some e'
    \/ exists e, raw_entries w !! k = Some e /\ is_pending e = true /\
         processing_attempts e' = processing_attempts e + 1 /\
         (processing_status e' = FAILED \/ processing_status e' = COMPLETED) /\
         is_Some (processed_at e').
Proof.
  intros Hw w'.
  assert (raw_entries w' = raw_entries w -> well_keyed w' /\
          forall k e', raw_entries w' !! k = Some e' ->
            raw_entries w !! k = Some e'
            \/ exists e, raw_entries w !! k = Some e /\ is_pending e = true /\
                 processing_attempts e' = processing_attempts e + 1 /\
                 (processing_status e' = FAILED
                  \/ processing_status e' = COMPLETED) /\
                 is_Some (processed_at e')) as Hsame.
  { intros E. split; [intros k e; rewrite E; apply Hw|].
    intros k e'. rewrite E. by left. }
  destruct config as [c|]; [|by apply Hsame].
  destruct (selected_model c) as [m|] eqn:Em;
    [|by apply Hsame; unfold w', process_batch; rewrite Em].
  destruct (decide (m = "")) as [->|Hne];
    [by apply Hsame; unfold w', process_batch; rewrite Em|].
  destruct test_connection as [u|e];
    [|by apply Hsame; unfold w', process_batch;
         rewrite Em, (or_str_key m Hne)].
  destruct (process_batch_selection clock c m u post batch_size
              _ w Hw Em Hne eq_refl) as (_ & H1 & H2 & H3 & H4).
  cbn zeta in H1, H2, H3, H4. fold w' in H1, H2, H3, H4.
  split; [done|]. intros k e' Hk.
  destruct (proj1 (H3 k) (mk_is_Some _ _ Hk)) as [e He].
  match type of H1 with
  | forall e, e ∈ get_pending_entries ?cfg ?lim w -> _ =>
      destruct (get_pending_entries_rows cfg lim w Hw) as [_ Hrows];
      destruct (decide (id e ∈ id <$> get_pending_entries cfg lim w))
        as [Hin|Hout]
  end.
  - apply list_elem_of_fmap in Hin as (e2 & Hid & Hin).
    pose proof (Hrows e2 Hin) as He2. rewrite <- Hid, (Hw _ _ He) in He2.
    assert (e2 = e) as -> by congruence.
    destruct (H1 e Hin) as (e1 & G1 & G2 & G3 & G4 & (j & _ & G5) & _).
    rewrite (Hw _ _ He) in G1.
    assert (e1 = e') as -> by congruence.
    right. exists e. split; [done|].
    split; [by eapply get_pending_entries_pending|].
    do 2 (split; [done|]). by rewrite G5.
  - left. rewrite (H2 k e He) in Hk; [by injection Hk as <-|].
    intros Hin. apply Hout. by apply list_elem_of_fmap_2.
Qed.

Lemma process_batch_invariant clock config test_connection post batch_size w :
  invariant w ->
  invariant (process_batch clock config test_connection post batch_size w).2.
Proof.
  intros (Hw & Hn & Hs).
  destruct (process_batch_rows clock config test_connection post batch_size
              w Hw) as [Hw' Hrows].
  split; [done|]. split; [by apply process_batch_NoDup|].
  intros k e' Hk. destruct (Hrows k e' Hk) as [H|(e & He & Hp & Ha & Hst & Ht)].
  - by eapply Hs.
  - right. split; [done|]. split; [|done].
    apply is_pending_spec in Hp.
    destruct (Hs k e He) as [[_ H0]|(_ & H1 & _)]; [lia|].
    destruct Hp as [Hp|[_ Hp]]; [|lia].
    destruct (Hs k e He) as [[_ H0]|([Hf|Hc] & _)]; [lia|congruence..].
Qed.

Lemma purge_invariant clock days w :
  invariant w -> invariant (purge_old_entries clock days w).2.
Proof.
  intros (Hw & Hn & Hs). unfold purge_old_entries. cbn.
  split; [|split; [done|]].
  - intros k e [H _]%map_lookup_filter_Some. by apply Hw.
  - intros k e [H _]%map_lookup_filter_Some. by eapply Hs.
Qed.

Lemma step_invariant w w' : step w w' -> invariant w -> invariant w'.
Proof.
  intros [w0 e Hfree Hp Ha|clock config tc post bs w0|clock days w0] Hi.
  - destruct Hi as (Hw & Hn & Hs). split; [|split; [done|]].
    + intros k e0. cbn. intros [[<- <-]|[_ H]]%lookup_insert_Some; [done|].
      by apply Hw.
    + intros k e0. cbn. intros [[<- <-]|[_ H]]%lookup_insert_Some.
      * by left.
      * by eapply Hs.
  - by apply process_batch_invariant.
  - by apply purge_invariant.
Qed.

Lemma steps_invariant w w' : rtc step w w' -> invariant w -> invariant w'.
Proof.
  induction 1 as [|w1 w2 w3 H12 _ IH]; [done|].
  intros Hi. by apply IH, (step_invariant w1).
Qed.

Lemma reachable_invariant w : reachable w -> invariant w.
Proof.
  intros H. apply (steps_invariant empty_world); [done|].
  split; [by intros k e H'|]. split; [constructor|]. by intros k e H'.
Qed.

End ReachableFacts.

Section ReachableTheorems.
Import Py Database ProcessingService.
Context `{B : Builtins}.

Lemma find_NoDup_keys (rows : list Vulnerability) v :
  NoDup (cve_id <$> rows) -> v ∈ rows ->
  find (fun r => String.eqb (cve_id r) (cve_id v)) rows = Some v.
Proof.
  induction rows as [|r rows IH]; [by intros _ ?%elem_of_nil|].
  rewrite fmap_cons, NoDup_cons. intros [Hr Hn] [->|Hv]%elem_of_cons.
  - cbn. by rewrite String.eqb_refl.
  - cbn. destruct (String.eqb (cve_id r) (cve_id v)) eqn:E; [|by apply IH].
    apply String.eqb_eq in E. destruct Hr. rewrite E.
    by apply list_elem_of_fmap_2.
Qed.

Lemma count_settled (rows : list RawEntry) :
  Forall (fun e => processing_status e = PENDING
                   \/ processing_status e = FAILED
                   \/ processing_status e = COMPLETED) rows ->
  let count st :=
    Z.of_nat (length (List.filter
                        (fun e => bool_decide (processing_status e = st))
                        rows)) in
  count PROCESSING = 0 /\
  count PENDING + count COMPLETED + count FAILED = Z.of_nat (length rows).
Proof.
  induction 1 as [|e rows He _ IH]; [done|]. cbn zeta in *. cbn [List.filter].
  destruct IH as [IH1 IH2].
  destruct He as [He|[He|He]]; rewrite He;
    repeat (case_bool_decide; try done); cbn [length]; lia.
Qed.

Lemma length_filter_le {A} (f : A -> bool) (l : list A) :
  (length (List.filter f l) <= length l)%nat.
Proof.
  induction l as [|x l IH]; [done|]. cbn. destruct (f x); cbn; lia.
Qed.

End ReachableTheorems.

(** In every state the pipeline can reach, a row of the staging table is
    stored under its own id and is either PENDING with no attempt made, or
    FAILED or COMPLETED after one to three attempts and stamped with the time
    it was processed; no row is left PROCESSING. *)
Theorem reachable_staging_rows `{B : Py.Builtins} (w : Database.World)
    (k : Z) (e : Database.RawEntry) :
  ProcessingService.reachable w ->
  Database.raw_entries w !! k = Some e ->
  Database.id e = k /\
  ((Database.processing_status e = Database.PENDING
    /\ Database.processing_attempts e = 0)
   \/ ((Database.processing_status e = Database.FAILED
        \/ Database.processing_status e = Database.COMPLETED)
       /\ 1 <= Database.processing_attempts e <= 3
       /\ is_Some (Database.processed_at e))).
Proof.
  intros Hr Hk. destruct (reachable_invariant w Hr) as (Hw & _ & Hs).
  split; [by apply Hw|by eapply Hs].
Qed.

Lemma reachable_staging_rows_witness :
  let w :=
    (ProcessingService.process_batch (H := Samples.builtins) Samples.ticking
       (Some Samples.config) (Py.Ok tt) Samples.dead_post None
       (ProcessingService.set_entry Samples.pending_entry
          ProcessingService.empty_world)).2 in
  exists e,
    Database.raw_entries w !! 1 = Some e /\
    Database.processing_status e = Database.COMPLETED /\
    1 <= Database.processing_attempts e <= 3.
Proof.
  intros w.
  assert (ProcessingService.reachable (H := Samples.builtins) w) as Hr.
  { eapply rtc_l; [|apply rtc_once, ProcessingService.step_batch].
    by apply ProcessingService.step_ingest. }
  assert (exists e, Database.raw_entries w !! 1 = Some e /\
                    Database.processing_status e = Database.COMPLETED)
    as (e & He & Hst) by (eexists; split; by vm_compute).
  exists e. split; [exact He|]. split; [exact Hst|].
  destruct (reachable_staging_rows (B := Samples.builtins) w 1 e Hr He)
    as [_ [[Hp _]|(_ & Ha & _)]]; [congruence|exact Ha].
Defined.

(** In every reachable state the table of vulnerabilities holds one row for
    each CVE id, and a lookup by id finds it. *)
Theorem reachable_one_row_per_cve `{B : Py.Builtins} (w : Database.World) :
  ProcessingService.reachable w ->
  NoDup (Database.cve_id <$> Database.vulnerabilities w) /\
  forall v, v ∈ Database.vulnerabilities w ->
            Database.db_get w (Database.cve_id v) = Some v.
Proof.
  intros Hr. destruct (reachable_invariant w Hr) as (_ & Hn & _).
  split; [exact Hn|]. intros v Hv. by apply find_NoDup_keys.
Qed.

Lemma reachable_one_row_per_cve_witness :
  let w :=
    (ProcessingService.process_batch (H := Samples.builtins) Samples.ticking
       (Some Samples.config) (Py.Ok tt) Samples.dead_post None
       (ProcessingService.set_entry Samples.pending_entry
          ProcessingService.empty_world)).2 in
  NoDup (Database.cve_id <$> Database.vulnerabilities w).
Proof.
  intros w.
  apply (reachable_one_row_per_cve (B := Samples.builtins) w).
  eapply rtc_l; [|apply rtc_once, ProcessingService.step_batch].
  by apply ProcessingService.step_ingest.
Defined.

(** The status report of a reachable state: nothing is in processing, the
    total is the number of rows of the staging table, and the approved
    vulnerabilities are those that need no review. *)
Theorem get_processing_status_reachable `{B : Py.Builtins}
    (w : Database.World) :
  ProcessingService.reachable w ->
  let r := ProcessingService.get_processing_status w in
  ProcessingService.processing r = 0 /\
  ProcessingService.total r = Z.of_nat (size (Database.raw_entries w)) /\
  ProcessingService.pending r + ProcessingService.completed r
  + ProcessingService.failed_count r = ProcessingService.total r /\
  ProcessingService.vulnerabilities_total r
  = Z.of_nat (length (Database.vulnerabilities w)) /\
  0 <= ProcessingService.vulnerabilities_approved r
    <= ProcessingService.vulnerabilities_total r /\
  ProcessingService.vulnerabilities_approved r
  = Z.of_nat (length (List.filter (fun v => negb (Database.needs_review v))
                        (Database.vulnerabilities w))).
Proof.
  intros Hr r. destruct (reachable_invariant w Hr) as (_ & _ & Hs).
  destruct (count_settled (map_to_list (Database.raw_entries w)).*2)
    as [H1 H2].
  { apply Forall_forall. intros e [[k e'] [-> H]]%list_elem_of_fmap.
    apply elem_of_map_to_list in H. cbn.
    destruct (Hs k e' H) as [[-> _]|([-> | ->] & _)]; by auto. }
  cbn zeta in H1, H2. rewrite length_fmap, length_map_to_list in H2.
  unfold r, ProcessingService.get_processing_status,
    ProcessingService.count_status.
  cbn [ProcessingService.processing ProcessingService.total
       ProcessingService.pending ProcessingService.completed
       ProcessingService.failed_count
       ProcessingService.vulnerabilities_total
       ProcessingService.vulnerabilities_approved].
  split; [exact H1|]. split; [lia|]. split; [lia|]. split; [done|].
  pose proof (length_filter_le Database.needs_review
                (Database.vulnerabilities w)).
  split; [lia|].
  induction (Database.vulnerabilities w) as [|v vs IH]; [done|].
  cbn [List.filter length]. pose proof (length_filter_le Database.needs_review vs).
  destruct (Database.needs_review v); cbn [negb length]; lia.
Qed.

Lemma get_processing_status_reachable_witness :
  let w :=
    (ProcessingService.process_batch (H := Samples.builtins) Samples.ticking
       (Some Samples.config) (Py.Ok tt) Samples.dead_post None
       (ProcessingService.set_entry Samples.pending_entry
          ProcessingService.empty_world)).2 in
  ProcessingService.processing (ProcessingService.get_processing_status w) = 0
  /\ ProcessingService.total (ProcessingService.get_processing_status w) = 1.
Proof.
  intros w.
  destruct (get_processing_status_reachable (B := Samples.builtins) w)
    as (H1 & H2 & _).
  - eapply rtc_l; [|apply rtc_once, ProcessingService.step_batch].
    by apply ProcessingService.step_ingest.
  - split; [exact H1|]. etrans; [exact H2|]. by vm_compute.
Defined.

(* ===================================================================== *)
(** * A cycle of the scheduler                                            *)
(* ===================================================================== *)

Section CycleFacts.
Import Py Database ProcessingService.
Context `{B : Builtins}.

Lemma process_batch_clock_reads clock config test_connection post batch_size w :
  (clock_reads w
   < clock_reads (process_batch clock config test_connection post
                    batch_size w).2)%nat.
Proof.
  unfold process_batch. cbn [new_stats utcnow].
  destruct config as [c|]; [|cbn; lia].
  destruct (or_str _ _) as [selected|]; [|cbn; lia].
  destruct test_connection as [u|e]; [|cbn; lia].
  match goal with
  | |- context [foldl (process_one clock ?x) ?acc ?ids] =>
      pose proof (foldl_process_one_clock_reads clock x ids acc) as Hf;
      destruct (foldl (process_one clock x) acc ids) as [stats' w']
  end.
  cbn in *. lia.
Qed.

Lemma run_processing_cycle_rows clock c model u post self w :
  well_keyed w ->
  selected_model c = Some model -> model <> "" ->
  let selected :=
    get_pending_entries (Some c) (Some (Database.batch_size c)) w in
  let run :=
    ProcessingScheduler.run_processing_cycle clock (Some c) (Ok u) post
      self w in
  (forall i j, (clock_reads w <= i <= j)%nat -> (j < clock_reads run.2)%nat ->
               clock j - clock i <= 7 * day) ->
  ProcessingScheduler.last_run run.1.2 = Some (clock (clock_reads w)) /\
  ProcessingScheduler.last_stats run.1.2 = Some run.1.1 /\
  processed run.1.1 = Z.of_nat (length selected) /\
  Z.of_nat (size (raw_entries run.2)) + purged run.1.1
  = Z.of_nat (size (raw_entries w)) /\
  forall e, e ∈ selected ->
    exists e',
      raw_entries run.2 !! id e = Some e' /\
      processing_attempts e' = processing_attempts e + 1 /\
      (processing_status e' = FAILED \/ processing_status e' = COMPLETED) /\
      raw_payload e' = raw_payload e.
Proof.
  intros Hw Hm Hne selected run.
  unfold run, ProcessingScheduler.run_processing_cycle.
  cbn [utcnow].
  set (w0 := {| raw_entries := raw_entries w;
                vulnerabilities := vulnerabilities w;
                clock_reads := S (clock_reads w) |}).
  destruct (process_batch_selection clock c model u post None
              (Database.batch_size c) w0 Hw Hm Hne eq_refl)
    as (H1 & H2 & _ & H3 & _).
  pose proof (process_batch_clock_reads clock (Some c) (Ok u) post None w0)
    as Hc.
  cbn zeta in H1, H2, H3.
  change (get_pending_entries (Some c) (Some (Database.batch_size c)) w0)
    with selected in H1, H2.
  destruct (process_batch clock (Some c) (Ok u) post None w0)
    as [stats wb].
  cbn [fst snd] in H1, H2, H3, Hc. cbn [clock_reads w0] in Hc.
  destruct (purge_old_entries_rows clock 7 wb) as (P1 & P2 & _).
  cbn zeta in P1, P2.
  assert (clock_reads (purge_old_entries clock 7 wb).2 = Datatypes.S (clock_reads wb))
    as Hcp by done.
  destruct (purge_old_entries clock 7 wb) as [purged_count w'] eqn:Ep.
  cbn [fst snd ProcessingScheduler.last_run ProcessingScheduler.last_stats
       processed purged] in *.
  intros Hclock. split; [done|]. split; [done|]. split; [exact H1|]. split.
  - rewrite P2. f_equal. rewrite <- !size_dom. f_equal.
    apply set_eq. intros k. rewrite !elem_of_dom. apply H3.
  - intros e He.
    destruct (H2 e He) as (e' & G1 & G2 & G3 & G4 & (j & Hj & G5) & _ & G6 & _).
    exists e'. split; [|done]. apply P1. split; [done|].
    right. right. exists (clock j). split; [done|].
    pose proof (Hclock j (clock_reads wb)). cbn [clock_reads w0] in Hj. lia.
Qed.

End CycleFacts.

(** A cycle of the scheduler whose readings of the clock lie within seven
    days of each other does not purge what its batch has just processed: every
    selected row is still in the staging table afterwards, FAILED or
    COMPLETED with one more attempt.  The statistics returned are the ones
    kept as [last_stats], the purge count included. *)
Theorem run_processing_cycle_keeps_processed `{B : Py.Builtins}
    (clock : nat -> Z) (c : Database.LLMConfig) (model : string) (u : unit)
    (post : string -> OllamaClient.payload -> OllamaClient.http_outcome)
    (self : ProcessingScheduler.t) (w : Database.World) :
  Database.well_keyed w ->
  Database.selected_model c = Some model -> model <> "" ->
  let selected :=
    ProcessingService.get_pending_entries (Some c)
      (Some (Database.batch_size c)) w in
  let run :=
    ProcessingScheduler.run_processing_cycle clock (Some c) (Py.Ok u) post
      self w in
  (forall i j,
     (Database.clock_reads w <= i <= j)%nat ->
     (j < Database.clock_reads run.2)%nat ->
     clock j - clock i <= 7 * ProcessingService.day) ->
  ProcessingScheduler.last_run run.1.2
  = Some (clock (Database.clock_reads w)) /\
  ProcessingScheduler.last_stats run.1.2 = Some run.1.1 /\
  ProcessingService.processed run.1.1 = Z.of_nat (length selected) /\
  Z.of_nat (size (Database.raw_entries run.2))
  + ProcessingService.purged run.1.1
  = Z.of_nat (size (Database.raw_entries w)) /\
  forall e, e ∈ selected ->
    exists e',
      Database.raw_entries run.2 !! Database.id e = Some e' /\
      Database.processing_attempts e' = Database.processing_attempts e + 1 /\
      (Database.processing_status e' = Database.FAILED
       \/ Database.processing_status e' = Database.COMPLETED) /\
      Database.raw_payload e' = Database.raw_payload e.
Proof.
  apply run_processing_cycle_rows.
Qed.

Lemma run_processing_cycle_keeps_processed_witness :
  let run :=
    ProcessingScheduler.run_processing_cycle (H := Samples.builtins)
      Samples.ticking (Some Samples.config) (Py.Ok tt) Samples.dead_post
      ProcessingScheduler.init (Samples.world_with []) in
  ProcessingService.processed run.1.1 = 1 /\
  ProcessingScheduler.last_stats run.1.2 = Some run.1.1.
Proof.
  intros run.
  destruct (run_processing_cycle_keeps_processed (B := Samples.builtins)
              Samples.ticking Samples.config "llama3" tt Samples.dead_post
              ProcessingScheduler.init (Samples.world_with []))
    as (_ & H1 & H2 & _).
  - intros k e. cbn. by intros [<- <-]%lookup_singleton_Some.
  - reflexivity.
  - discriminate.
  - intros i j Hij Hj. unfold Samples.ticking, ProcessingService.day.
    assert (j < 100)%nat; [|lia].
    eapply Nat.lt_le_trans; [exact Hj|]. apply Nat.leb_le. by vm_compute.
  - split; [|exact H1]. etrans; [exact H2|]. by vm_compute.
Defined.

(* ===================================================================== *)
(** * Batches of extractions                                              *)
(* ===================================================================== *)

Section BatchExtractFacts.
Import Py LLMService Outcome.
Context `{B : Builtins}.

(** What is known of every result, whichever way it was produced. *)
Lemma produced_facts threshold raw now r :
  produced threshold raw now r ->
  (0 <= confidence_score r)%Q /\ (confidence_score r <= 1)%Q /\
  (needs_review r = true <->
     (confidence_score r < threshold)%Q \/ is_fallback r) /\
  (forall m0, Re.search raw = Some m0 ->
     exists c, cve_id r = Some c /\ Re.fullmatch c = true).
Proof.
  intros H. destruct (produced_bounds _ _ _ _ H) as (H1 & H2 & H3).
  do 3 (split; [done|]). intros m0 Hm.
  destruct (produced_cve_id _ _ _ _ _ H Hm) as (c & Hc & Hf & _).
  by exists c.
Qed.

Lemma imap_lookup_Some {A C} (f : nat -> A -> C) (l : list A) i x :
  l !! i = Some x -> imap f l !! i = Some (f i x).
Proof. intros H. by rewrite list_lookup_imap, H. Qed.

End BatchExtractFacts.

(** [batch_extract] of either service gives one result for each text, in
    order, and a text whose extraction raises does not stop the batch: its
    result is the fallback result built from the text and the message of the
    exception.  Every result has a confidence in [0, 1], is flagged for
    review exactly when the confidence is below the threshold or it is a
    fallback result, and carries a well-formed CVE id when the text contains
    one. *)
Theorem batch_extract_results `{B : Py.Builtins} :
  (forall (self : LLMService.t) (raw_texts : list string) (clock : nat -> Z),
     let results := LLMService.batch_extract self raw_texts clock in
     length results = length raw_texts /\
     forall i text, raw_texts !! i = Some text ->
       exists r,
         results !! i = Some r /\
         (LLMService.extract_vulnerability self text (clock i) = Py.Ok r
          \/ exists e,
               LLMService.extract_vulnerability self text (clock i)
               = Py.Raise e /\
               r = LLMService._create_fallback_result text (Py.exn_msg e)
                     (clock i)) /\
         (0 <= LLMService.confidence_score r)%Q /\
         (LLMService.confidence_score r <= 1)%Q /\
         (LLMService.needs_review r = true <->
            (LLMService.confidence_score r
             < LLMService.confidence_threshold self)%Q
            \/ Outcome.is_fallback r) /\
         (forall m0, Re.search text = Some m0 ->
            exists c, LLMService.cve_id r = Some c /\ Re.fullmatch c = true))
  /\
  (forall (self : MultiProviderLLMService.t) (raw_texts : list string)
          (clock : nat -> Z),
     let results := MultiProviderLLMService.batch_extract self raw_texts clock in
     length results = length raw_texts /\
     forall i text, raw_texts !! i = Some text ->
       exists r,
         results !! i = Some r /\
         (MultiProviderLLMService.extract_vulnerability self text (clock i)
          = Py.Ok r
          \/ exists e,
               MultiProviderLLMService.extract_vulnerability self text
                 (clock i) = Py.Raise e /\
               r = LLMService._create_fallback_result text (Py.exn_msg e)
                     (clock i)) /\
         (0 <= LLMService.confidence_score r)%Q /\
         (LLMService.confidence_score r <= 1)%Q /\
         (LLMService.needs_review r = true <->
            (LLMService.confidence_score r
             < MultiProviderLLMService.confidence_threshold self)%Q
            \/ Outcome.is_fallback r) /\
         (forall m0, Re.search text = Some m0 ->
            exists c, LLMService.cve_id r = Some c /\ Re.fullmatch c = true)).
Proof.
  split; intros self raw_texts clock results.
  - split; [apply length_imap|]. intros i text Hi.
    unfold results, LLMService.batch_extract.
    rewrite (imap_lookup_Some _ _ _ _ Hi).
    destruct (LLMService.extract_vulnerability self text (clock i))
      as [r|e] eqn:E; eexists; (split; [done|]).
    + split; [by left|]. by eapply produced_facts, llm_extract_produced.
    + split; [right; by exists e|].
      apply (produced_facts _ text (clock i)). constructor.
  - split; [apply length_imap|]. intros i text Hi.
    unfold results, MultiProviderLLMService.batch_extract.
    rewrite (imap_lookup_Some _ _ _ _ Hi).
    destruct (MultiProviderLLMService.extract_vulnerability self text (clock i))
      as [r|e] eqn:E; eexists; (split; [done|]).
    + split; [by left|]. by eapply produced_facts, multi_extract_produced.
    + split; [right; by exists e|].
      apply (produced_facts _ text (clock i)). constructor.
Qed.

Lemma batch_extract_results_witness :
  let results :=
    LLMService.batch_extract (H := Samples.builtins) Samples.default_service
      [Samples.scenario_raw; "no identifier in this text"] Samples.ticking in
  length results = 2%nat /\
  exists r, results !! 1%nat = Some r /\
            (LLMService.confidence_score r <= 1)%Q.
Proof.
  intros results.
  destruct (proj1 (batch_extract_results (B := Samples.builtins))
              Samples.default_service
              [Samples.scenario_raw; "no identifier in this text"]
              Samples.ticking)
    as [H1 H2].
  split; [exact H1|].
  destruct (H2 1%nat "no identifier in this text" eq_refl)
    as (r & Hr & _ & _ & Hle & _).
  exists r. split; [exact Hr|exact Hle].
Defined.

(* ===================================================================== *)
(** * How the chain of providers ends                                     *)
(* ===================================================================== *)

Section ChainOutcomeFacts.
Import Py LLMService MultiProviderLLMService.
Context `{B : Builtins}.
Variables (self : MultiProviderLLMService.t) (raw : string) (now : Z).

#[local] Abbreviation all_failed msg :=
  (Ok (_create_fallback_result raw ("All providers failed: " +:+ msg) now)).

Lemma try_providers_outcome ps : forall attempt last_error,
  let log := (try_providers self raw now attempt ps last_error).1 in
  let res := (try_providers self raw now attempt ps last_error).2 in
  (log = [] /\ res = all_failed (str_error last_error) /\
   (ps = [] \/ max_retries self <= Z.of_nat attempt))
  \/ exists i p,
       ps !! i = Some p /\ length log = S i /\
       Z.of_nat (attempt + i) < max_retries self /\
       (forall j q, (j < i)%nat -> ps !! j = Some q ->
          exists e', attempt_with self raw now (attempt + j) q = Raise e' /\
                     is_provider_failure (exn_cls e') = true) /\
       match attempt_with self raw now (attempt + i) p with
       | Ok r => res = Ok r
       | Raise e =>
           if is_provider_failure (exn_cls e)
           then res = all_failed (exn_msg e) /\
                (ps !! S i = None
                 \/ max_retries self <= Z.of_nat (attempt + S i))
           else res = Raise e
       end.
Proof.
  induction ps as [|p ps IH]; intros attempt last_error.
  { left. cbn. by auto. }
  cbn zeta. rewrite try_providers_cons.
  destruct (Z.leb_spec (max_retries self) (Z.of_nat attempt)) as [Hle|Hlt].
  { left. cbn. by auto. }
  destruct (attempt_with self raw now attempt p) as [r|e] eqn:Ea.
  { right. exists 0%nat, p. rewrite Nat.add_0_r, Ea. cbn.
    split; [done|]. split; [done|]. split; [lia|]. split; [|done]. lia. }
  destruct (is_provider_failure (exn_cls e)) eqn:Ef.
  - cbn [fst snd].
    destruct (IH (S attempt) (Some e))
      as [(Hlog & Hres & Hwhy)|(i & q & Hq & Hlen & Hlim & Hprev & Hend)].
    + right. exists 0%nat, p. rewrite Nat.add_0_r, Ea, Ef, Hlog, Hres.
      cbn [length lookup list_lookup str_error].
      split; [done|]. split; [done|]. split; [lia|]. split; [lia|].
      split; [done|]. destruct Hwhy as [-> |Hwhy]; [by left|right]. lia.
    + right. exists (S i), q.
      replace (attempt + S i)%nat with (S attempt + i)%nat by lia.
      replace (attempt + S (S i))%nat with (S attempt + S i)%nat by lia.
      split; [done|]. split; [cbn; by rewrite Hlen|]. split; [done|].
      split; [|done].
      intros [|j] q' Hj Hq'.
      * injection Hq' as <-. rewrite Nat.add_0_r. by exists e.
      * replace (attempt + S j)%nat with (S attempt + j)%nat by lia.
        apply Hprev; [lia|done].
  - right. exists 0%nat, p. rewrite Nat.add_0_r, Ea, Ef. cbn.
    split; [done|]. split; [done|]. split; [lia|]. split; [|done]. lia.
Qed.

End ChainOutcomeFacts.

(** How [extract_vulnerability] of the multi-provider service ends.  If
    no provider is called (max_retries is not positive) the result is the
    fallback result with the error "All providers failed: None".
    Otherwise all providers called but the last failed with a connection
    or generation error, and the attempt with the last one decides: its
    result is returned; an exception of another class is raised as it is,
    with no further provider tried; and a connection or generation error,
    which ends the chain only when the providers or the retries are
    exhausted, gives the fallback result whose error is "All providers
    failed: " followed by the message of that last error. *)
Theorem multi_provider_outcome `{B : Py.Builtins}
    (self : MultiProviderLLMService.t) (raw : string) (now : Z) :
  let ps := MultiProviderLLMService.providers_to_try self in
  let log := MultiProviderLLMService.attempted self raw now in
  let res := MultiProviderLLMService.extract_vulnerability self raw now in
  let try i p := MultiProviderLLMService.attempt_with self raw now i p in
  let failed (msg : string) :=
    Py.Ok (LLMService._create_fallback_result raw
             ("All providers failed: " +:+ msg) now) in
  (log = [] /\ res = failed "None" /\
   MultiProviderLLMService.max_retries self <= 0)
  \/ exists i p,
       ps !! i = Some p /\ length log = S i /\
       Z.of_nat i < MultiProviderLLMService.max_retries self /\
       (forall j q, (j < i)%nat -> ps !! j = Some q ->
          exists e',
            try j q = Py.Raise e' /\
            (Py.exn_cls e' = Py.LLMConnectionError
             \/ Py.exn_cls e' = Py.LLMGenerationError)) /\
       match try i p with
       | Py.Ok r => res = Py.Ok r
       | Py.Raise e =>
           if MultiProviderLLMService.is_provider_failure (Py.exn_cls e)
           then res = failed (Py.exn_msg e) /\
                (ps !! S i = None
                 \/ MultiProviderLLMService.max_retries self <= Z.of_nat (S i))
           else res = Py.Raise e
       end.
Proof.
  intros ps log res try failed.
  destruct (try_providers_outcome self raw now ps 0 None)
    as [(Hlog & Hres & Hwhy)|(i & p & Hp & Hlen & Hlim & Hprev & Hend)].
  - left. split; [done|]. split; [done|].
    destruct Hwhy as [Hwhy|Hwhy]; [done|exact Hwhy].
  - right. exists i, p. split; [done|]. split; [done|]. split; [exact Hlim|].
    split; [|exact Hend].
    intros j q Hj Hq. destruct (Hprev j q Hj Hq) as (e' & He' & Hf).
    exists e'. split; [done|].
    by destruct (Py.exn_cls e'); auto.
Qed.

(* ===================================================================== *)
(** * The text fields and the description                                 *)
(* ===================================================================== *)

Section TextFieldFacts.
Import Py LLMService Validated.
Context `{B : Builtins}.

Lemma rstrip_idem s : rstrip (rstrip s) = rstrip s.
Proof.
  induction s as [|c s IH]; [done|]. cbn [rstrip].
  destruct (rstrip s) as [|c' r] eqn:E.
  - destruct (is_space c) eqn:Ec; [done|]. cbn. by rewrite Ec.
  - cbn [rstrip]. cbn [rstrip] in IH. by rewrite IH.
Qed.

Lemma rstrip_head c s :
  is_space c = false -> exists r, rstrip (String c s) = String c r.
Proof.
  intros Hc. cbn [rstrip]. destruct (rstrip s); [|by eexists].
  rewrite Hc. by eexists.
Qed.

Lemma lstrip_head s :
  lstrip s = "" \/ exists c r, lstrip s = String c r /\ is_space c = false.
Proof.
  induction s as [|c s IH]; [by left|]. cbn [lstrip].
  destruct (is_space c) eqn:Ec; [done|]. right. by exists c, s.
Qed.

(** What [strip] returns has no white space at either end. *)
Lemma strip_trimmed s :
  lstrip (strip s) = strip s /\ rstrip (strip s) = strip s.
Proof.
  unfold strip. split; [|apply rstrip_idem].
  destruct (lstrip_head s) as [-> |(c & r & -> & Hc)]; [done|].
  destruct (rstrip_head c r Hc) as [r' ->]. cbn. by rewrite Hc.
Qed.

Lemma field_of_trimmed data k s :
  field_of data k = Some s -> s <> "" /\ lstrip s = s /\ rstrip s = s.
Proof.
  intros H. split; [by eapply field_of_nonempty|].
  unfold field_of in H. destruct (_ && _); [|done]. injection H as <-.
  apply strip_trimmed.
Qed.

Lemma field_of_spec data k :
  field_of data k
  = if truthy (get data k) && negb (String.eqb (strip (str (get data k))) "")
    then Some (strip (str (get data k))) else None.
Proof. done. Qed.

Lemma length_prefix n s : (String.length (prefix n s) <= n)%nat.
Proof.
  unfold prefix. revert s. induction n as [|n IH]; intros [|c s]; cbn; try lia.
  specialize (IH s). lia.
Qed.

Lemma prefix_short n s : (String.length s <= n)%nat -> prefix n s = s.
Proof.
  unfold prefix. revert s. induction n as [|n IH]; intros [|c s]; cbn;
    try done; try lia.
  intros H. f_equal. apply IH. lia.
Qed.

(** The issues recorded before the description is looked at begin with a
    letter other than U. *)
#[local] Abbreviation early i :=
  (exists rest, i = String "I" rest \/ i = String "C" rest
                \/ i = String "N" rest).

Lemma early_issues data raw st3 :
  validate_cvss_score data
    (validate_severity data (validate_cve_id data raw (∅, []))) = Ok st3 ->
  Forall (fun i => early i) st3.2.
Proof.
  unfold validate_cvss_score, validate_severity, validate_cve_id.
  intros H. repeat case_match; simplify_eq; cbn [snd app];
    repeat (apply Forall_cons; split; [eexists; cbn; by eauto|]);
    by apply Forall_nil.
Qed.

Lemma description_issue data raw v :
  _validate_extraction data raw = Ok v ->
  exists issues,
    v !! "_validation_issues" = Some (PList (PStr <$> issues)) /\
    ("Using raw text as description" ∈ issues <->
     description_of data raw = prefix 500 raw /\
     match field_of data "description" with
     | Some d => (String.length d < 10)%nat
     | None => True
     end).
Proof.
  intros Hv. destruct (validated_shape _ _ _ Hv) as [issues' Hsh].
  apply validate_stages in Hv as (st3 & st5 & E3 & E5 & ->).
  exists st5.2. split; [by rewrite lookup_insert_eq|].
  pose proof (early_issues _ _ _ E3) as Hearly.
  assert ("Using raw text as description" ∉ st3.2) as Hout.
  { intros Hin. rewrite Forall_forall in Hearly.
    by destruct (Hearly _ Hin) as [rest [?|[?|?]]]. }
  assert ((foldl (validate_field data) st3.1 STRING_FIELDS) !! "description"
          = PStr <$> field_of data "description") as Hd.
  { rewrite fold_fields_lookup.
    destruct (field_of data "description") as [d|] eqn:Ed.
    - rewrite (bool_decide_eq_true_2 (is_Some (Some d))) by done.
      by rewrite bool_decide_eq_true_2 by set_solver.
    - rewrite andb_false_r.
      rewrite (validate_cvss_score_other data _ _ "description" E3) by done.
      by rewrite validate_severity_other, validate_cve_id_other. }
  remember (foldl (validate_field data) st3.1 STRING_FIELDS) as m5 eqn:Em5.
  unfold ensure_description in E5. cbn [fst snd] in E5. rewrite Hd in E5.
  unfold description_of.
  destruct (field_of data "description") as [d|]; simpl in E5.
  - destruct (Nat.ltb_spec (String.length d) 10); injection E5 as <-; cbn [snd].
    + split; [by intros _|]. intros _. apply elem_of_app. right. by left.
    + split; [by intros ?|]. intros [_ ?]. lia.
  - injection E5 as <-. cbn [snd]. split; [done|]. intros _.
    apply elem_of_app. right. by left.
Qed.

End TextFieldFacts.

(** Validation of the text fields title, vendor, product and cvss_vector:
    the field is stored exactly when the provider's value is truthy and not
    blank; what is stored is the value as a string with the white space
    stripped from both ends. *)
Theorem validate_text_fields `{B : Py.Builtins}
    (data : gmap string Py.pyval) (raw : string) (v : gmap string Py.pyval)
    (k : string) :
  LLMService._validate_extraction data raw = Py.Ok v ->
  k ∈ ["title"; "vendor"; "product"; "cvss_vector"] ->
  let text := Py.strip (Py.str (Py.get data k)) in
  v !! k = (if Py.truthy (Py.get data k) && negb (String.eqb text "")
            then Some (Py.PStr text) else None) /\
  Py.lstrip text = text /\ Py.rstrip text = text.
Proof.
  intros Hv Hk text. split; [|apply strip_trimmed].
  destruct (validated_shape _ _ _ Hv) as [issues Hsh].
  assert (v !! k = Py.PStr <$> Validated.field_of data k) as ->.
  { repeat (apply elem_of_cons in Hk as [-> |Hk]); [apply Hsh..|].
    by apply elem_of_nil in Hk. }
  rewrite field_of_spec. fold text. by destruct (_ && _).
Qed.

Lemma validate_text_fields_witness :
  Samples.scenario_validated !! "vendor" = Some (Py.PStr "Test Vendor").
Proof.
  destruct (validate_text_fields (B := Samples.builtins)
              Samples.scenario_data Samples.scenario_raw
              Samples.scenario_validated "vendor")
    as [H _].
  - by vm_compute.
  - set_solver.
  - etrans; [exact H|]. by vm_compute.
Defined.

(** Validation always leaves a description: the provider's, stripped, when
    that is truthy and at least ten characters long, and otherwise the first
    500 characters of the raw text; the issue "Using raw text as description"
    is recorded in exactly the second case. *)
Theorem validate_description `{B : Py.Builtins}
    (data : gmap string Py.pyval) (raw : string) (v : gmap string Py.pyval) :
  LLMService._validate_extraction data raw = Py.Ok v ->
  let text := Py.strip (Py.str (Py.get data "description")) in
  let kept :=
    Py.truthy (Py.get data "description")
    && (10 <=? String.length text)%nat in
  exists issues,
    v !! "_validation_issues" = Some (Py.PList (Py.PStr <$> issues)) /\
    v !! "description"
    = Some (Py.PStr (if kept then text else Py.prefix 500 raw)) /\
    ("Using raw text as description" ∈ issues <-> kept = false) /\
    (String.length (Py.prefix 500 raw) <= 500)%nat /\
    ((String.length raw <= 500)%nat -> Py.prefix 500 raw = raw).
Proof.
  intros Hv text kept.
  destruct (validated_shape _ _ _ Hv) as [issues' Hsh].
  destruct (description_issue _ _ _ Hv) as (issues & Hi & Hu).
  exists issues. split; [done|].
  assert (Validated.description_of data raw
          = (if kept then text else Py.prefix 500 raw) /\
          (match Validated.field_of data "description" with
           | Some d => (String.length d < 10)%nat
           | None => True
           end <-> kept = false)) as [Hd Hk].
  { unfold Validated.description_of. rewrite field_of_spec.
    fold text. unfold kept.
    destruct (Py.truthy (Py.get data "description")); cbn [andb];
      [|by split].
    destruct (String.eqb_spec text "") as [->|Hne]; cbn [negb]; [by split|].
    destruct (Nat.ltb_spec (String.length text) 10) as [Hlt|Hge].
    - apply Nat.leb_gt in Hlt as Hlt'. rewrite Hlt'. by split.
    - apply Nat.leb_le in Hge as Hge'. rewrite Hge'. split; [done|].
      split; [lia|done]. }
  split; [by rewrite (Validated.sh_description _ _ _ _ Hsh), Hd|].
  split; [|split; [apply length_prefix|apply prefix_short]].
  rewrite Hu, <- Hk. split; [by intros [_ ?]|]. intros H. split; [|done].
  apply Hk in H. rewrite Hd. by rewrite H.
Qed.

Lemma validate_description_witness :
  Samples.scenario_validated !! "description"
  = Some (Py.PStr Samples.scenario_raw).
Proof.
  destruct (validate_description (B := Samples.builtins)
              Samples.scenario_data Samples.scenario_raw
              Samples.scenario_validated)
    as (issues & _ & H & _).
  - by vm_compute.
  - etrans; [exact H|]. by vm_compute.
Defined.

(* ===================================================================== *)
(** * The shape of a CVE id                                               *)
(* ===================================================================== *)

Section ShapeFacts.
Import Re.

Lemma take_digits_all s :
  forallb is_digit (list_ascii_of_string s) = true <-> take_digits s = s.
Proof.
  induction s as [|c s IH]; [done|]. cbn.
  destruct (is_digit c); cbn; [|by split].
  rewrite IH. split; [by intros ->|by intros [= ?]].
Qed.

Lemma forallb_digits_app a b :
  forallb is_digit (list_ascii_of_string (a +:+ b))
  = forallb is_digit (list_ascii_of_string a)
    && forallb is_digit (list_ascii_of_string b).
Proof.
  induction a as [|c a IH]; [done|].
  rewrite app_cons. cbn [list_ascii_of_string forallb]. rewrite IH.
  by rewrite andb_assoc.
Qed.

Lemma upper_char_dash c : Py.upper_char c = "-"%char -> c = "-"%char.
Proof.
  destruct c as [[] [] [] [] [] [] [] []]; vm_compute; congruence.
Qed.

Lemma app_inv_head (a b c : string) : a +:+ b = a +:+ c -> b = c.
Proof. induction a as [|x a IH]; [done|]. cbn. intros [= H]. by apply IH. Qed.

Lemma match_atoms_cons a ats c m r :
  match_atoms (a :: ats) (String c m +:+ r) = Some (String c m, r) ->
  atom_ok a c = true /\ match_atoms ats (m +:+ r) = Some (m, r).
Proof.
  rewrite app_cons. cbn [match_atoms]. destruct (atom_ok a c); [|done].
  destruct (match_atoms ats (m +:+ r)) as [[m' r']|] eqn:E; [|done].
  by intros [= -> ->].
Qed.

Lemma fullmatch_shape_1 s :
  fullmatch s = true ->
  exists pre year num,
    s = pre +:+ year +:+ "-" +:+ num /\
    Py.upper pre = "CVE-" /\
    String.length year = 4%nat /\
    (4 <= String.length num)%nat /\
    forallb is_digit (list_ascii_of_string (year +:+ num)) = true.
Proof.
  intros H. apply fullmatch_match_at in H. unfold match_at in H.
  destruct (match_atoms CVE_PATTERN s) as [[x r]|] eqn:E; [|done].
  injection H as H. destruct (match_atoms_split _ _ _ _ E) as [Hs Hl].
  rewrite Hs in H. apply app_inv_head in H. subst s.
  unfold CVE_PATTERN in E, Hl. cbn [length] in Hl.
  do 13 (destruct x as [|? x]; [done|]). destruct x; [|done]. clear Hl.
  do 13 (apply match_atoms_cons in E as [? E]). clear E.
  repeat match goal with
         | H : atom_ok (Lit _) _ = true |- _ =>
             cbn in H; apply Ascii.eqb_eq in H
         | H : atom_ok Digit _ = true |- _ => cbn [atom_ok] in H
         end.
  match goal with
  | |- context [String ?c1 (String ?c2 (String ?c3 (String ?c4
         (String ?d1 (String ?d2 (String ?d3 (String ?d4
         (String ?c9 (String ?e1 (String ?e2 (String ?e3 (String ?e4 "")))))))))))) +:+ r] =>
      exists (String c1 (String c2 (String c3 (String c4 ""))));
      exists (String d1 (String d2 (String d3 (String d4 ""))));
      exists (String e1 (String e2 (String e3 (String e4 r))));
      assert (c9 = "-"%char) as -> by (by apply upper_char_dash)
  end.
  split; [done|]. split.
  { cbn [Py.upper].
    by repeat match goal with
              | H : Py.upper_char _ = _ |- _ => rewrite H; clear H
              end. }
  split; [done|]. split; [cbn; lia|].
  rewrite forallb_digits_app. cbn [list_ascii_of_string forallb].
  repeat match goal with H : is_digit _ = true |- _ => rewrite H; clear H end.
  cbn [andb]. by apply take_digits_all.
Qed.

Lemma upper_length s : String.length (Py.upper s) = String.length s.
Proof. induction s as [|c s IH]; [done|]. cbn. by rewrite IH. Qed.

Lemma match_atoms_intro a ats c s m r :
  atom_ok a c = true -> match_atoms ats s = Some (m, r) ->
  match_atoms (a :: ats) (String c s) = Some (String c m, r).
Proof. intros Ha Hm. cbn [match_atoms]. by rewrite Ha, Hm. Qed.

Lemma fullmatch_shape_2 pre year num :
  Py.upper pre = "CVE-" ->
  String.length year = 4%nat ->
  (4 <= String.length num)%nat ->
  forallb is_digit (list_ascii_of_string (year +:+ num)) = true ->
  fullmatch (pre +:+ year +:+ "-" +:+ num) = true.
Proof.
  intros Hpre Hy Hn Hd.
  rewrite forallb_digits_app in Hd. apply andb_true_iff in Hd as [Hdy Hdn].
  pose proof (upper_length pre) as Hl. rewrite Hpre in Hl. cbn in Hl.
  do 4 (destruct pre as [|? pre]; [done|]). destruct pre; [|done].
  do 4 (destruct year as [|? year]; [done|]). destruct year; [|done].
  do 4 (destruct num as [|? num]; [cbn in Hn; lia|]).
  cbn [Py.upper] in Hpre. injection Hpre as H1 H2 H3 H4.
  cbn [list_ascii_of_string forallb] in Hdy, Hdn.
  repeat match goal with
         | H : _ && _ = true |- _ => apply andb_true_iff in H as [? H]
         end.
  apply take_digits_all in Hdn.
  unfold fullmatch, match_at. rewrite !app_cons, !app_nil_l.
  match goal with
  | |- context [match_atoms CVE_PATTERN ?t] =>
      assert (exists m, match_atoms CVE_PATTERN t = Some (m, num) /\
                        t = m +:+ num) as (m & -> & Ht)
  end.
  { eexists. split.
    - unfold CVE_PATTERN.
      repeat (apply match_atoms_intro;
              [cbn [atom_ok];
               first [assumption
                     |apply Ascii.eqb_eq;
                      first [by rewrite H1|by rewrite H2
                            |by rewrite H3|by rewrite H4|done]]|]).
      reflexivity.
    - by rewrite !app_cons, app_nil_l. }
  rewrite Hdn, Ht. apply String.eqb_refl.
Qed.

End ShapeFacts.

(** The full matches of the pattern are the texts made of "CVE-" in any
    case, four digits, a hyphen and four or more digits. *)
Theorem cve_pattern_fullmatch_shape (s : string) :
  Re.fullmatch s = true <->
  exists pre year num,
    s = pre +:+ year +:+ "-" +:+ num /\
    Py.upper pre = "CVE-" /\
    String.length year = 4%nat /\
    (4 <= String.length num)%nat /\
    forallb Re.is_digit (list_ascii_of_string (year +:+ num)) = true.
Proof.
  split; [apply fullmatch_shape_1|].
  intros (pre & year & num & -> & H1 & H2 & H3 & H4).
  by apply fullmatch_shape_2.
Qed.

Section SearchFacts.
Import Re.

Lemma take_digits_app d q :
  take_digits d = d -> take_digits (d +:+ q) = d +:+ take_digits q.
Proof.
  induction d as [|c d IH]; [by rewrite !app_nil_l|].
  rewrite !app_cons. cbn [take_digits].
  destruct (is_digit c); [|done]. intros [= H]. by rewrite (IH H).
Qed.

(** At the head of a longer text a full match is extended by the digits
    that follow it. *)
Lemma match_at_extends m q :
  fullmatch m = true ->
  match_at (m +:+ q) = Some (m +:+ take_digits q).
Proof.
  intros H. apply fullmatch_match_at in H. unfold match_at in *.
  destruct (match_atoms CVE_PATTERN m) as [[x r]|] eqn:E; [|done].
  injection H as H. destruct (match_atoms_split _ _ _ _ E) as [Hs _].
  rewrite Hs in H. apply app_inv_head in H. subst m.
  rewrite app_assoc.
  rewrite (match_atoms_rest _ _ _ (r +:+ q) E).
  by rewrite (take_digits_app _ _ H), app_assoc.
Qed.

Lemma app_inv_length (a b a' b' : string) :
  a +:+ b = a' +:+ b' -> String.length a = String.length a' ->
  a = a' /\ b = b'.
Proof.
  revert a'. induction a as [|c a IH]; intros [|c' a']; try done.
  rewrite !app_cons. cbn [String.length]. intros [= -> H] [= Hl].
  by destruct (IH _ H Hl) as [-> ->].
Qed.

Lemma search_spec s :
  (search s = None <->
   forall p m q, s = p +:+ m +:+ q -> fullmatch m = false) /\
  (forall m, search s = Some m ->
     exists p q,
       s = p +:+ m +:+ q /\ fullmatch m = true /\
       forall p' m' q', s = p' +:+ m' +:+ q' -> fullmatch m' = true ->
         (String.length p <= String.length p')%nat /\
         (String.length p' = String.length p ->
          (String.length m' <= String.length m)%nat)).
Proof.
  split.
  - split.
    + intros Hnone p m q -> . destruct (fullmatch m) eqn:Hm; [|done].
      destruct (search_complete p m q Hm) as (m0 & ? & ? & Hs & _).
      congruence.
    + intros Hall. destruct (search s) as [m|] eqn:Hs; [|done].
      destruct (search_found _ _ Hs) as (p & q & Heq & Hm & _).
      apply match_at_fullmatch in Hm. by rewrite (Hall p m q Heq) in Hm.
  - intros m Hs. destruct (search_found _ _ Hs) as (p & q & Heq & Hm & Hleft).
    exists p, q. split; [done|].
    split; [by eapply match_at_fullmatch|].
    intros p' m' q' Heq' Hm'. split.
    + destruct (le_lt_dec (String.length p) (String.length p')) as [|Hlt];
        [done|].
      specialize (Hleft p' (m' +:+ q') Heq' Hlt).
      by rewrite (match_at_extends m' q' Hm') in Hleft.
    + intros Hl. rewrite Heq in Heq'.
      apply app_inv_length in Heq' as [_ Heq']; [|done].
      rewrite Heq', (match_at_extends m' q' Hm') in Hm.
      injection Hm as <-. rewrite length_app. lia.
Qed.

End SearchFacts.

(** [search] returns the leftmost match and, at that place, the longest:
    it finds nothing exactly when no part of the text is a full match, and
    no full match in the text starts before the one returned or starts at
    the same place and is longer. *)
Theorem cve_pattern_search_leftmost_longest (s : string) :
  (Re.search s = None <->
   forall p m q, s = p +:+ m +:+ q -> Re.fullmatch m = false) /\
  (forall m, Re.search s = Some m ->
     exists p q,
       s = p +:+ m +:+ q /\ Re.fullmatch m = true /\
       forall p' m' q', s = p' +:+ m' +:+ q' -> Re.fullmatch m' = true ->
         (String.length p <= String.length p')%nat /\
         (String.length p' = String.length p ->
          (String.length m' <= String.length m)%nat)).
Proof. apply search_spec. Qed.

Lemma cve_pattern_search_leftmost_longest_witness :
  Re.search "see cve-2024-12345 and CVE-2023-0001" = Some "cve-2024-12345" /\
  Re.fullmatch "cve-2024-12345" = true.
Proof.
  destruct (proj2 (cve_pattern_search_leftmost_longest
                     "see cve-2024-12345 and CVE-2023-0001")
              "cve-2024-12345" eq_refl)
    as (p & q & _ & H & _).
  split; [reflexivity|exact H].
Defined.

(* ===================================================================== *)
(** * Well-formed results and rows                                        *)
(* ===================================================================== *)

Section WellFormedFacts.
Import Py LLMService Validated Outcome.
Context `{B : Builtins}.
#[local] Set Warnings "-inconsistent-scopes".

Lemma upper_idem s : upper (upper s) = upper s.
Proof.
  induction s as [|c s IH]; [done|]. cbn. by rewrite upper_char_idem, IH.
Qed.

Lemma lstrip_upper s : upper s = s -> upper (lstrip s) = lstrip s.
Proof.
  induction s as [|c s IH]; [done|]. cbn [upper lstrip]. intros [= Hc Hs].
  destruct (is_space c); [by apply IH|]. cbn. by rewrite Hc, Hs.
Qed.

Lemma rstrip_upper s : upper s = s -> upper (rstrip s) = rstrip s.
Proof.
  induction s as [|c s IH]; [done|]. cbn [upper rstrip]. intros [= Hc Hs].
  specialize (IH Hs). destruct (rstrip s) as [|c' r].
  - destruct (is_space c); [done|]. cbn. by rewrite Hc.
  - cbn [upper] in *. by rewrite Hc, IH.
Qed.

Lemma normalised_upper data k : upper (normalised data k) = normalised data k.
Proof. apply rstrip_upper, lstrip_upper, upper_idem. Qed.

(** A full match in upper case is "CVE-", four digits, a hyphen and four
    digits or more. *)
#[local] Abbreviation canonical c :=
  (exists year num,
     c = "CVE-" +:+ year +:+ "-" +:+ num /\
     String.length year = 4%nat /\ (4 <= String.length num)%nat /\
     forallb Re.is_digit (list_ascii_of_string (year +:+ num)) = true).

Lemma fullmatch_canonical c :
  Re.fullmatch c = true -> upper c = c -> canonical c.
Proof.
  intros (pre & year & num & -> & Hp & Hy & Hn & Hd)%fullmatch_shape_1 Hu.
  rewrite upper_app in Hu.
  apply app_inv_length in Hu as [Hu _]; [|apply upper_length].
  rewrite Hp in Hu. subst pre. by exists year, num.
Qed.

Lemma cve_of_canonical data raw c : cve_of data raw = Some c -> canonical c.
Proof.
  unfold cve_of. destruct (truthy _ && _) eqn:E.
  - intros [= <-]. apply andb_true_iff in E as [_ E].
    apply fullmatch_canonical; [done|apply normalised_upper].
  - destruct (Re.search raw) as [m|] eqn:Es; [|done]. intros [= <-].
    apply fullmatch_canonical; [|apply upper_idem].
    by eapply fullmatch_upper, search_fullmatch.
Qed.

#[local] Abbreviation trimmed_text s :=
  (s <> "" /\ lstrip s = s /\ rstrip s = s).

#[local] Abbreviation well_formed raw r :=
  ((forall c, cve_id r = Some c -> canonical c) /\
   (cve_id r = None -> Re.search raw = None) /\
   (0 <= confidence_score r)%Q /\ (confidence_score r <= 1)%Q /\
   (exists s, severity r = Some s /\ s ∈ VALID_SEVERITIES) /\
   (forall q, cvss_score r = Some q -> (0 <= q)%Q /\ (q <= 10)%Q) /\
   (forall s, title r = Some s \/ vendor r = Some s \/ product r = Some s
              \/ cvss_vector r = Some s -> trimmed_text s) /\
   (description r = prefix 500 raw
    \/ ((10 <= String.length (description r))%nat
        /\ lstrip (description r) = description r
        /\ rstrip (description r) = description r))).

Lemma get_float_fmap (v : gmap string pyval) k (o : option pyfloat) q :
  v !! k = PFloat <$> o -> get_float v k = Some q -> o = Some (FFinite q).
Proof.
  unfold get_float. intros ->. destruct o as [[x| |]|]; cbn; try done.
  by intros [= ->].
Qed.

Lemma description_of_cases data raw :
  description_of data raw = prefix 500 raw
  \/ ((10 <= String.length (description_of data raw))%nat
      /\ lstrip (description_of data raw) = description_of data raw
      /\ rstrip (description_of data raw) = description_of data raw).
Proof.
  unfold description_of.
  destruct (field_of data "description") as [d|] eqn:E; [|by left].
  destruct (Nat.ltb_spec (String.length d) 10); [by left|]. right.
  split; [done|]. by destruct (field_of_trimmed _ _ _ E) as (_ & ? & ?).
Qed.

Lemma produced_well_formed threshold raw now r :
  produced threshold raw now r -> well_formed raw r.
Proof.
  intros H. destruct (produced_bounds _ _ _ _ H) as (Hc0 & Hc1 & _).
  destruct H as [msg|data v c meta Hv Hc Hm].
  - cbn [cve_id severity cvss_score title vendor product cvss_vector
         description _create_fallback_result].
    split.
    { intros c Hc. destruct (Re.search raw) as [m|] eqn:Es; [|done].
      injection Hc as <-. apply fullmatch_canonical; [|apply upper_idem].
      by eapply fullmatch_upper, search_fullmatch. }
    split; [by destruct (Re.search raw)|].
    do 2 (split; [done|]). split; [exists "UNKNOWN"; split; [done|set_solver]|].
    split; [done|]. split; [|by left]. by intros s [?|[?|[?|?]]].
  - destruct (validated_shape _ _ _ Hv) as [issues Hsh].
    cbn [cve_id severity cvss_score title vendor product cvss_vector
         description validated_result].
    rewrite (get_str_fmap _ _ _ (sh_cve_id _ _ _ _ Hsh)).
    rewrite (get_str_fmap _ _ (Some _) (sh_severity _ _ _ _ Hsh)).
    rewrite (get_str_fmap _ _ _ (sh_title _ _ _ _ Hsh)).
    rewrite (get_str_fmap _ _ _ (sh_vendor _ _ _ _ Hsh)).
    rewrite (get_str_fmap _ _ _ (sh_product _ _ _ _ Hsh)).
    rewrite (get_str_fmap _ _ _ (sh_cvss_vector _ _ _ _ Hsh)).
    rewrite (get_str_fmap _ _ (Some _) (sh_description _ _ _ _ Hsh)).
    split; [intros c0; apply cve_of_canonical|].
    split.
    { unfold cve_of. destruct (truthy _ && _); [done|].
      by destruct (Re.search raw). }
    do 2 (split; [done|]).
    split; [eexists; split; [done|apply severity_of_valid]|].
    split.
    { intros q Hq.
      apply (get_float_fmap _ _ _ _ (sh_cvss_score _ _ _ _ Hsh)) in Hq.
      by destruct (cvss_of_finite _ _ Hq) as (q' & [= <-] & ? & ? & _). }
    split; [|apply description_of_cases].
    intros s [Hs|[Hs|[Hs|Hs]]]; by eapply field_of_trimmed.
Qed.

End WellFormedFacts.

(** Every result of either service is well formed: a CVE id, if there is
    one, is "CVE-", four digits, a hyphen and four or more digits, in upper
    case, and there is one whenever the text contains a CVE id; the
    confidence lies in [0, 1]; the severity is a member of the severity set;
    a CVSS score lies in [0, 10]; title, vendor, product and CVSS vector are
    absent or non-empty and stripped; the description is the first 500
    characters of the text, or stripped and at least ten characters long. *)
Theorem extraction_result_well_formed `{B : Py.Builtins}
    (raw : string) (r : LLMService.ExtractionResult) :
  ((exists (self : LLMService.t) now,
      LLMService.extract_vulnerability self raw now = Py.Ok r)
   \/ exists (self : MultiProviderLLMService.t) now,
        MultiProviderLLMService.extract_vulnerability self raw now
        = Py.Ok r) ->
  (forall c, LLMService.cve_id r = Some c ->
     exists year num,
       c = "CVE-" +:+ year +:+ "-" +:+ num /\
       String.length year = 4%nat /\ (4 <= String.length num)%nat /\
       forallb Re.is_digit (list_ascii_of_string (year +:+ num)) = true) /\
  (LLMService.cve_id r = None -> Re.search raw = None) /\
  (0 <= LLMService.confidence_score r)%Q /\
  (LLMService.confidence_score r <= 1)%Q /\
  (exists s, LLMService.severity r = Some s /\
             s ∈ LLMService.VALID_SEVERITIES) /\
  (forall q, LLMService.cvss_score r = Some q -> (0 <= q)%Q /\ (q <= 10)%Q) /\
  (forall s,
     LLMService.title r = Some s \/ LLMService.vendor r = Some s
     \/ LLMService.product r = Some s \/ LLMService.cvss_vector r = Some s ->
     s <> "" /\ Py.lstrip s = s /\ Py.rstrip s = s) /\
  (LLMService.description r = Py.prefix 500 raw
   \/ ((10 <= String.length (LLMService.description r))%nat
       /\ Py.lstrip (LLMService.description r) = LLMService.description r
       /\ Py.rstrip (LLMService.description r) = LLMService.description r)).
Proof.
  intros [(self & now & H)|(self & now & H)].
  - by eapply produced_well_formed, llm_extract_produced.
  - by eapply produced_well_formed, multi_extract_produced.
Qed.

Lemma extraction_result_well_formed_witness :
  exists r,
    LLMService.extract_vulnerability (H := Samples.builtins)
      Samples.default_service Samples.scenario_raw 0 = Py.Ok r /\
    exists s, LLMService.severity r = Some s /\
              s ∈ LLMService.VALID_SEVERITIES.
Proof.
  eexists. split; [by vm_compute|].
  eapply (extraction_result_well_formed (B := Samples.builtins)
            Samples.scenario_raw).
  left. exists Samples.default_service, 0. by vm_compute.
Defined.

Section StoredRowFacts.
Import Py Database ProcessingService.
Context `{B : Builtins}.
#[local] Set Warnings "-inconsistent-scopes".

#[local] Abbreviation good_row v :=
  ((exists year num,
      cve_id v = "CVE-" +:+ year +:+ "-" +:+ num /\
      String.length year = 4%nat /\ (4 <= String.length num)%nat /\
      forallb Re.is_digit (list_ascii_of_string (year +:+ num)) = true) /\
   (0 <= confidence_score v)%Q /\ (confidence_score v <= 1)%Q /\
   (exists s, severity v = Some s /\ s ∈ LLMService.VALID_SEVERITIES) /\
   (forall q, cvss_score v = Some q -> (0 <= q)%Q /\ (q <= 10)%Q) /\
   (forall s, title v = Some s \/ cvss_vector v = Some s ->
              s <> "" /\ lstrip s = s /\ rstrip s = s)).

#[local] Abbreviation good_result x :=
  ((forall c, LLMService.cve_id x = Some c ->
      exists year num,
        c = "CVE-" +:+ year +:+ "-" +:+ num /\
        String.length year = 4%nat /\ (4 <= String.length num)%nat /\
        forallb Re.is_digit (list_ascii_of_string (year +:+ num)) = true) /\
   (0 <= LLMService.confidence_score x)%Q /\
   (LLMService.confidence_score x <= 1)%Q /\
   (exists s, LLMService.severity x = Some s /\
              s ∈ LLMService.VALID_SEVERITIES) /\
   (forall q, LLMService.cvss_score x = Some q -> (0 <= q)%Q /\ (q <= 10)%Q) /\
   (forall s, LLMService.title x = Some s \/ LLMService.cvss_vector x = Some s ->
              s <> "" /\ lstrip s = s /\ rstrip s = s)).

Lemma or_str_cases (x y : option string) :
  (or_str x y = x /\ exists s, x = Some s /\ s <> "") \/ or_str x y = y.
Proof.
  destruct x as [s|]; [|by right]. cbn.
  destruct (String.eqb_spec s ""); [by right|]. left. split; [done|]. by exists s.
Qed.

Lemma or_float_cases (x y : option Q) : or_float x y = x \/ or_float x y = y.
Proof.
  destruct x as [q|]; [|by right]. cbn. destruct (Qeq_bool q 0); by auto.
Qed.

Lemma valid_severity_nonempty s : s ∈ LLMService.VALID_SEVERITIES -> s <> "".
Proof. intros H ->. set_solver. Qed.

Lemma process_entry_good_rows clock extract entry w :
  (forall t x, extract (raw_payload entry) t = Ok x -> good_result x) ->
  Forall (fun v => good_row v) (vulnerabilities w) ->
  Forall (fun v => good_row v)
    (vulnerabilities (process_entry clock extract entry w).2).
Proof.
  intros Hx Hw. unfold process_entry, utcnow, set_entry.
  cbn [raw_entries vulnerabilities clock_reads raw_payload id].
  destruct (extract _ _) as [x|e] eqn:Ex; [|done].
  specialize (Hx _ _ Ex). destruct Hx as (X1 & X2 & X3 & X4 & X5 & X6).
  destruct (or_str (LLMService.cve_id x) None) as [key|] eqn:Ek; [|done].
  assert (LLMService.cve_id x = Some key) as Hkey.
  { destruct (or_str_cases (LLMService.cve_id x) None) as [[<- _]|H];
      [done|congruence]. }
  match goal with
  | |- context [db_get ?w1 key] => rewrite (db_get_ext w1 w key eq_refl)
  end.
  destruct (db_get w key) as [existing|] eqn:Eg.
  - destruct (float_gt _ _); [|done].
    cbn [fst snd vulnerabilities update_vulnerability].
    apply db_get_Some in Eg as [_ Hin].
    rewrite Forall_forall in Hw. pose proof (Hw _ Hin) as He.
    destruct He as (E1 & E2 & E3 & E4 & E5 & E6).
    apply Forall_forall. intros v [r [-> Hr]]%list_elem_of_fmap.
    unfold replace_row. destruct (String.eqb _ _); [|by apply Hw].
    cbn [cve_id confidence_score severity cvss_score title cvss_vector].
    split; [done|]. do 2 (split; [done|]). split; [|split].
    + destruct X4 as (s & Hs & Hv). exists s. split; [|done].
      rewrite Hs. cbn. apply valid_severity_nonempty in Hv.
      apply String.eqb_neq in Hv. by rewrite Hv.
    + intros q. destruct (or_float_cases (LLMService.cvss_score x)
                            (cvss_score existing)) as [-> | ->]; auto.
    + intros s [Hs|Hs].
      * destruct (or_str_cases (LLMService.title x) (title existing))
          as [[Ho _]|Ho]; rewrite Ho in Hs; auto.
      * destruct (or_str_cases (LLMService.cvss_vector x)
                    (cvss_vector existing))
          as [[Ho _]|Ho]; rewrite Ho in Hs; auto.
  - cbn [fst snd vulnerabilities add_vulnerability].
    apply Forall_app. split; [done|]. apply Forall_singleton.
    cbn [cve_id confidence_score severity cvss_score title cvss_vector].
    split; [by apply X1|]. do 3 (split; [done|]). by split.
Qed.

Lemma process_one_good_rows clock extract acc i :
  (forall payload t x, extract payload t = Ok x -> good_result x) ->
  Forall (fun v => good_row v) (vulnerabilities acc.2) ->
  Forall (fun v => good_row v)
    (vulnerabilities (process_one clock extract acc i).2).
Proof.
  intros Hx. destruct acc as [stats w]. unfold process_one. intros Hw.
  destruct (raw_entries w !! i) as [entry|]; [|done].
  pose proof (process_entry_good_rows clock extract entry w
                (fun t x => Hx _ t x) Hw) as H.
  destruct (process_entry clock extract entry w) as [[result e'] w'].
  cbn [snd] in *. by repeat case_match.
Qed.

Lemma foldl_process_one_good_rows clock extract ids acc :
  (forall payload t x, extract payload t = Ok x -> good_result x) ->
  Forall (fun v => good_row v) (vulnerabilities acc.2) ->
  Forall (fun v => good_row v)
    (vulnerabilities (foldl (process_one clock extract) acc ids).2).
Proof.
  intros Hx. revert acc. induction ids as [|i ids IH]; intros acc Hw; [done|].
  cbn [foldl]. by apply IH, process_one_good_rows.
Qed.

Lemma llm_extract_good_result (self : LLMService.t) payload t x :
  LLMService.extract_vulnerability self payload t = Ok x -> good_result x.
Proof.
  intros H. apply llm_extract_produced, produced_well_formed in H.
  destruct H as (H1 & _ & H2 & H3 & H4 & H5 & H6 & _).
  do 5 (split; [done|]). intros s [Hs|Hs]; apply H6; by auto.
Qed.

Lemma process_batch_good_rows clock config test_connection post batch_size w :
  Forall (fun v => good_row v) (vulnerabilities w) ->
  Forall (fun v => good_row v)
    (vulnerabilities
       (process_batch clock config test_connection post batch_size w).2).
Proof.
  intros Hw. unfold process_batch. cbn [new_stats utcnow].
  destruct config as [c|]; [|done].
  destruct (or_str _ _) as [selected|]; [|done].
  destruct test_connection as [u|e]; [|done].
  match goal with
  | |- context [foldl (process_one clock ?x) ?acc ?ids] =>
      pose proof (foldl_process_one_good_rows clock x ids acc) as Hf;
      destruct (foldl (process_one clock x) acc ids) as [stats' w']
  end.
  apply Hf; [|done]. apply llm_extract_good_result.
Qed.

Lemma steps_good_rows w w' :
  rtc step w w' ->
  Forall (fun v => good_row v) (vulnerabilities w) ->
  Forall (fun v => good_row v) (vulnerabilities w').
Proof.
  induction 1 as [|w1 w2 w3 H12 _ IH]; [done|]. intros H0. apply IH.
  destruct H12 as [w1 e _ _ _|clock config tc post bs w1|clock days w1];
    [done| |done].
  by apply process_batch_good_rows.
Qed.

Lemma reachable_good_rows w :
  reachable w -> Forall (fun v => good_row v) (vulnerabilities w).
Proof. intros H. apply (steps_good_rows empty_world); [done|constructor]. Qed.

End StoredRowFacts.

(** Every vulnerability stored in a reachable state is well formed: its
    cve_id is "CVE-", four digits, a hyphen and four or more digits, in
    upper case; its confidence lies in [0, 1]; its severity is a member of
    the severity set; its CVSS score, if any, lies in [0, 10]; its title and
    CVSS vector are absent or non-empty and stripped. *)
Theorem reachable_vulnerabilities_well_formed `{B : Py.Builtins}
    (w : Database.World) (v : Database.Vulnerability) :
  ProcessingService.reachable w ->
  v ∈ Database.vulnerabilities w ->
  (exists year num,
     Database.cve_id v = "CVE-" +:+ year +:+ "-" +:+ num /\
     String.length year = 4%nat /\ (4 <= String.length num)%nat /\
     forallb Re.is_digit (list_ascii_of_string (year +:+ num)) = true) /\
  (0 <= Database.confidence_score v)%Q /\
  (Database.confidence_score v <= 1)%Q /\
  (exists s, Database.severity v = Some s /\
             s ∈ LLMService.VALID_SEVERITIES) /\
  (forall q, Database.cvss_score v = Some q -> (0 <= q)%Q /\ (q <= 10)%Q) /\
  (forall s,
     Database.title v = Some s \/ Database.cvss_vector v = Some s ->
     s <> "" /\ Py.lstrip s = s /\ Py.rstrip s = s).
Proof.
  intros Hr Hv. pose proof (reachable_good_rows w Hr) as H.
  rewrite Forall_forall in H. by apply H.
Qed.

Lemma reachable_vulnerabilities_well_formed_witness :
  let w :=
    (ProcessingService.process_batch (H := Samples.builtins) Samples.ticking
       (Some Samples.config) (Py.Ok tt) Samples.dead_post None
       (ProcessingService.set_entry Samples.pending_entry
          ProcessingService.empty_world)).2 in
  exists v,
    Database.vulnerabilities w = [v] /\
    Database.cve_id v = "CVE-2024-1234" /\
    (Database.confidence_score v <= 1)%Q.
Proof.
  intros w.
  assert (exists v, Database.vulnerabilities w = [v] /\
                    Database.cve_id v = "CVE-2024-1234")
    as (v & Hv & Hc) by (eexists; split; by vm_compute).
  exists v. split; [exact Hv|]. split; [exact Hc|].
  destruct (reachable_vulnerabilities_well_formed (B := Samples.builtins) w v)
    as (_ & _ & H & _).
  - eapply rtc_l; [|apply rtc_once, ProcessingService.step_batch].
    by apply ProcessingService.step_ingest.
  - rewrite Hv. by left.
  - exact H.
Defined.

(* ===================================================================== *)
(** * Processing while the model is unreachable                           *)
(* ===================================================================== *)

(** When every request to the model fails, [process_entry] still files
    what the text itself shows.  An entry whose payload contains no CVE id
    is left FAILED with "No CVE ID extracted from text".  An entry whose
    payload contains one, stored under no row yet, is COMPLETED and a row
    is inserted under that id in upper case, with confidence 0.1, flagged
    for review, severity UNKNOWN, no title and the first 500 characters of
    the payload as description. *)
Theorem process_entry_when_model_is_down `{B : Py.Builtins}
    (clock : nat -> Z) (self : LLMService.t) (entry : Database.RawEntry)
    (w : Database.World) :
  (forall url pl,
     Outcome.http_failure
       (OllamaClient.post (LLMService.ollama_client self) url pl)) ->
  let run :=
    ProcessingService.process_entry clock
      (LLMService.extract_vulnerability self) entry w in
  match Re.search (Database.raw_payload entry) with
  | None =>
      run.1.1 = None /\
      Database.processing_status run.1.2 = Database.FAILED /\
      Database.last_processing_error run.1.2
      = Some "No CVE ID extracted from text" /\
      Database.vulnerabilities run.2 = Database.vulnerabilities w
  | Some m =>
      Database.processing_status run.1.2 = Database.COMPLETED /\
      (Database.db_get w (Py.upper m) = None ->
       exists v,
         run.1.1 = Some v /\
         Database.db_get run.2 (Py.upper m) = Some v /\
         Database.cve_id v = Py.upper m /\
         (Database.confidence_score v == 1 # 10)%Q /\
         Database.needs_review v = true /\
         Database.severity v = Some "UNKNOWN" /\
         Database.title v = None /\
         Database.description v
         = Py.prefix 500 (Database.raw_payload entry))
  end.
Proof.
  intros Hdown run.
  destruct (generate_json_transport_failure
              (LLMService.ollama_client self) (LLMService.model self)
              (LLMService.build_prompt (Database.raw_payload entry))
              (LLMService.temperature self)
              (Some LLMService.SYSTEM_PROMPT) Hdown) as (e & He & Hc).
  pose proof (fun now => llm_extract_on_model_error self
                (Database.raw_payload entry) now e He Hc) as Hx.
  unfold run, ProcessingService.process_entry, ProcessingService.utcnow,
    ProcessingService.set_entry.
  cbn [Database.raw_entries Database.vulnerabilities Database.clock_reads
       Database.raw_payload Database.id].
  rewrite Hx.
  pose proof (fallback_confidence (Database.raw_payload entry) (Py.exn_msg e)
                (clock (Database.clock_reads w))) as Hconf.
  cbn [LLMService.cve_id LLMService._create_fallback_result] in *.
  destruct (Re.search (Database.raw_payload entry)) as [m|] eqn:Es.
  - cbn [fmap option_fmap option_map].
    assert (Py.upper m <> "") as Hne
      by (by eapply upper_nonempty, search_nonempty).
    rewrite (or_str_key _ Hne).
    match goal with
    | |- context [Database.db_get ?w1 (Py.upper m)] =>
        rewrite (db_get_ext w1 w (Py.upper m) eq_refl)
    end.
    destruct (Database.db_get w (Py.upper m)) as [existing|] eqn:Eg.
    + split; [|done]. by destruct (Py.float_gt _ _).
    + split; [done|]. intros _. eexists. split; [done|].
      unfold ProcessingService.add_vulnerability, Database.db_get in *.
      cbn [fst snd Database.vulnerabilities].
      split.
      { rewrite find_app_None by done. cbn. by rewrite String.eqb_refl. }
      cbn [Database.cve_id Database.confidence_score Database.needs_review
           Database.severity Database.title Database.description
           LLMService.confidence_score LLMService.needs_review
           LLMService.severity LLMService.title LLMService.description].
      split; [done|]. split; [by rewrite Hconf|]. done.
  - done.
Qed.

Lemma process_entry_when_model_is_down_witness :
  let run :=
    ProcessingService.process_entry Samples.ticking
      (LLMService.extract_vulnerability (H := Samples.builtins)
         Samples.default_service)
      Samples.pending_entry (Samples.world_with []) in
  Database.processing_status run.1.2 = Database.COMPLETED.
Proof.
  intros run.
  pose proof (process_entry_when_model_is_down (B := Samples.builtins)
                Samples.ticking Samples.default_service Samples.pending_entry
                (Samples.world_with [])) as H.
  cbn zeta in H.
  assert (Re.search (Database.raw_payload Samples.pending_entry)
          = Some "CVE-2024-1234") as Es by reflexivity.
  rewrite Es in H. apply H. intros url pl. exact I.
Defined.

(* ===================================================================== *)
(** * The JSON object in the model's answer                               *)
(* ===================================================================== *)

Section BraceFacts.
Import Py OllamaClient.

#[local] Abbreviation chars s := (list_ascii_of_string s).
#[local] Abbreviation len s := (Z.of_nat (String.length s)).

Lemma find_notin c s : ~ In c (chars s) -> find c s = -1.
Proof.
  induction s as [|x s IH]; [done|]. cbn. intros H.
  destruct (Ascii.eqb_spec x c) as [->|Hne]; [by destruct H; left|].
  rewrite IH by tauto. done.
Qed.












End BraceFacts.


(* ===================================================================== *)
(** * How extraction ends                                                 *)
(* ===================================================================== *)

Section OutcomeFacts.
Import Py LLMService Validated Outcome.
Context `{B : Builtins}.

Lemma bind_Raise_inv {A C} (m : py_result A) (k : A -> py_result C) e :
  (m ≫= k) = Raise e -> m = Raise e \/ exists a, m = Ok a /\ k a = Raise e.
Proof.
  destruct m as [a|e0]; intros H; [right; by exists a|].
  left. simpl in H. by injection H as ->.
Qed.

Lemma as_dict_raises v e :
  OllamaClient.as_dict v = Raise e -> e = no_attribute v "get".
Proof. destruct v; simpl; try done; by intros [= <-]. Qed.


Lemma validate_cvss_score_raises data st e :
  validate_cvss_score data st = Raise e ->
  exn_cls e = OverflowError /\
  exists z, get data "cvss_score" = PInt z /\ float_int_limit <= Z.abs z.
Proof.
  destruct st as [m i]. unfold validate_cvss_score.
  destruct (get data "cvss_score") as [|b|z|f|s|l|d] eqn:Eg; cbn;
    try done.
  - by repeat case_match.
  - destruct (Z.ltb_spec (Z.abs z) float_int_limit); [by case_match|].
    cbn. intros [= <-]. split; [done|]. by exists z.
  - by repeat case_match.
  - by destruct (float_of_str s); repeat case_match.
Qed.

(** Validation raises only on a score that is an integer too large for a
    float. *)
Lemma validate_extraction_raises_overflow data raw e :
  _validate_extraction data raw = Raise e ->
  exn_cls e = OverflowError /\
  exists z, get data "cvss_score" = PInt z /\ float_int_limit <= Z.abs z.
Proof.
  intros H.
  destruct (validate_cvss_score data
              (validate_severity data (validate_cve_id data raw (∅, []))))
    as [st3|e3] eqn:E3.
  - destruct (validate_returns data raw) as [v Hv]; [by exists st3|].
    congruence.
  - unfold _validate_extraction in H. rewrite (bind_Raise _ _ _ E3) in H.
    injection H as <-. by eapply validate_cvss_score_raises.
Qed.

Lemma validated_confidence_returns data raw v :
  _validate_extraction data raw = Ok v ->
  exists c, _calculate_confidence v raw = Ok c.
Proof.
  intros [issues Hsh]%validated_shape.
  destruct (confidence_of_shape _ _ _ _ Hsh) as (c & Hc & _). by exists c.
Qed.

(** ** The single-provider service *)

Section Single.
Variables (self : LLMService.t) (raw : string) (now : Z).

#[local] Abbreviation answer :=
  (OllamaClient.generate_json (ollama_client self) (model self)
     (build_prompt raw) (temperature self) (Some SYSTEM_PROMPT)).

Lemma llm_extract_returns r :
  LLMService.extract_vulnerability self raw now = Ok r ->
  (exists e,
     answer = Raise e /\ exn_cls e = OllamaModelError /\
     r = _create_fallback_result raw (exn_msg e) now)
  \/ exists res data v c meta,
       answer = Ok res /\
       OllamaClient.as_dict (OllamaClient.data res) = Ok data /\
       _validate_extraction data raw = Ok v /\
       _calculate_confidence v raw = Ok c /\
       meta !! "fallback" = None /\
       r = validated_result raw v c (confidence_threshold self) meta.
Proof.
  unfold LLMService.extract_vulnerability, try_except.
  destruct (answer ≫= _) as [x|e] eqn:E.
  - intros [= <-]. right.
    apply bind_Ok_inv in E as (res & Hres & E).
    apply bind_Ok_inv in E as (data & Hdata & E).
    apply bind_Ok_inv in E as (v & Hv & E).
    apply bind_Ok_inv in E as (c & Hc & [= <-]).
    eexists res, data, v, c, _. do 4 (split; [done|]).
    split; [|reflexivity]. done.
  - destruct (exn_cls e) eqn:Hcls; try done. intros [= <-]. left.
    exists e. split; [|done].
    apply bind_Raise_inv in E as [E|(res & Hres & E)]; [done|].
    apply bind_Raise_inv in E as [E|(data & Hdata & E)].
    { apply as_dict_raises in E. by rewrite E in Hcls. }
    apply bind_Raise_inv in E as [E|(v & Hv & E)].
    { apply validate_extraction_raises_overflow in E as [E _]. congruence. }
    destruct (validated_confidence_returns _ _ _ Hv) as [c Hc].
    by rewrite (bind_Ok _ _ _ Hc) in E.
Qed.


End Single.

(** ** The multi-provider service *)

Section Multi.
Import MultiProviderLLMService.
Variables (self : MultiProviderLLMService.t) (raw : string) (now : Z).

#[local] Abbreviation call p :=
  (generate_json p (MultiProviderLLMService.model self)
     (_build_extraction_prompt raw) SYSTEM_PROMPT
     (MultiProviderLLMService.temperature self)).

Lemma attempt_with_returns attempt p r :
  attempt_with self raw now attempt p = Ok r ->
  exists res data v c meta,
    call p = Ok res /\
    OllamaClient.as_dict (OllamaClient.data res) = Ok data /\
    _validate_extraction data raw = Ok v /\
    _calculate_confidence v raw = Ok c /\
    meta !! "fallback" = None /\
    r = validated_result raw v c
          (MultiProviderLLMService.confidence_threshold self) meta.
Proof.
  unfold attempt_with. intros E.
  apply bind_Ok_inv in E as (res & Hres & E).
  apply bind_Ok_inv in E as (data & Hdata & E).
  apply bind_Ok_inv in E as (v & Hv & E).
  apply bind_Ok_inv in E as (c & Hc & [= <-]).
  eexists res, data, v, c, _. do 4 (split; [done|]).
  split; [|reflexivity]. done.
Qed.


(** A result of the service is the fallback result with the message of
    the last error, or the result of the attempt with the last provider
    called. *)
Lemma multi_extract_returns r :
  extract_vulnerability self raw now = Ok r ->
  (exists last_error,
     r = _create_fallback_result raw
           ("All providers failed: " +:+ last_error) now)
  \/ exists i p,
       providers_to_try self !! i = Some p /\
       length (attempted self raw now) = S i /\
       attempt_with self raw now i p = Ok r.
Proof.
  unfold extract_vulnerability, attempted, run.
  destruct (try_providers_outcome self raw now (providers_to_try self) 0 None)
    as [(_ & Hres & _)|(i & p & Hp & Hlen & _ & _ & Hend)].
  - rewrite Hres. intros [= <-]. left. by eexists.
  - cbn [Nat.add] in Hend.
    destruct (attempt_with self raw now i p) as [r'|e] eqn:Ea.
    + rewrite Hend. intros [= <-]. right. by exists i, p.
    + destruct (is_provider_failure (exn_cls e)).
      * destruct Hend as [-> _]. intros [= <-]. left. by eexists.
      * by rewrite Hend.
Qed.



End Multi.

End OutcomeFacts.

(* ===================================================================== *)
(** * The four ways a turn of process_entry ends                          *)
(* ===================================================================== *)

Section ReconciliationFacts.
Import Py Database ProcessingService.
Import LLMService (ExtractionResult).
Variable clock : nat -> Z.
Variable extract : string -> Z -> py_result ExtractionResult.

Implicit Types (w : World) (entry : RawEntry) (x : ExtractionResult).

#[local] Abbreviation run entry w := (process_entry clock extract entry w).

(** The extraction has a CVE id that is not stored: a row is inserted,
    stamped by the third and the fourth reading of the turn. *)
Lemma process_entry_inserts entry w x key :
  extract (raw_payload entry) (clock (clock_reads w)) = Ok x ->
  LLMService.cve_id x = Some key -> key <> "" ->
  db_get w key = None ->
  exists v,
    (run entry w).1.1 = Some v /\
    vulnerabilities (run entry w).2 = vulnerabilities w ++ [v] /\
    clock_reads (run entry w).2 = S (S (S (S (clock_reads w)))) /\
    processing_status (run entry w).1.2 = COMPLETED /\
    cve_id v = key /\
    confidence_score v = LLMService.confidence_score x /\
    created_at v = clock (S (S (clock_reads w))) /\
    updated_at v = clock (S (S (S (clock_reads w)))).
Proof.
  intros Hx Hkey Hne Hget.
  unfold process_entry, utcnow, set_entry.
  cbn [raw_entries vulnerabilities clock_reads raw_payload id].
  rewrite Hx, Hkey, (or_str_key key Hne).
  match goal with
  | |- context [db_get ?w1 key] =>
      rewrite (db_get_ext w1 w key eq_refl), Hget
  end.
  eexists. by repeat split.
Qed.


(** The extraction has the CVE id of a stored row and no greater
    confidence: nothing is returned, the table is as it was. *)
Lemma process_entry_skips entry w x key existing :
  extract (raw_payload entry) (clock (clock_reads w)) = Ok x ->
  LLMService.cve_id x = Some key -> key <> "" ->
  db_get w key = Some existing ->
  (LLMService.confidence_score x <= confidence_score existing)%Q ->
  (run entry w).1.1 = None /\
  vulnerabilities (run entry w).2 = vulnerabilities w /\
  processing_status (run entry w).1.2 = COMPLETED.
Proof.
  intros Hx Hkey Hne Hget Hle.
  assert (float_gt (LLMService.confidence_score x)
            (confidence_score existing) = false) as Hgt.
  { destruct (float_gt _ _) eqn:E; [|done].
    apply float_gt_spec in E. by apply Qle_not_lt in Hle. }
  unfold process_entry, utcnow, set_entry.
  cbn [raw_entries vulnerabilities clock_reads raw_payload id].
  rewrite Hx, Hkey, (or_str_key key Hne).
  match goal with
  | |- context [db_get ?w1 key] =>
      rewrite (db_get_ext w1 w key eq_refl), Hget
  end.
  by rewrite Hgt.
Qed.



End ReconciliationFacts.

(* ===================================================================== *)
(** * The CVE id of a result (C3)                                         *)
(* ===================================================================== *)

(** C3, as the code has it.  When the raw text contains a CVE id, the
    search finds the leftmost one, [m0]; the fallback result carries [m0]
    in upper case; a validated result carries the provider's own cve_id
    (in upper case, trimmed) when that is well formed, and [m0] in upper
    case otherwise.  So it is for every result either service returns:
    it is the fallback result, with [m0] in upper case, or it is built
    from the answer of the provider (for the multi-provider service, of
    the last provider called), and carries the cve_id of that answer when
    it is well formed and [m0] in upper case otherwise.  Every result of
    either service then has a well-formed cve_id. *)
Theorem C3_cve_id_of_result `{B : Py.Builtins} (raw p m q : string) :
  raw = p +:+ m +:+ q ->
  Re.fullmatch m = true ->
  exists m0 p0 q0,
    Re.search raw = Some m0 /\
    raw = p0 +:+ m0 +:+ q0 /\
    (String.length p0 <= String.length p)%nat /\
    Re.fullmatch m0 = true /\
    (forall msg now,
       LLMService.cve_id (LLMService._create_fallback_result raw msg now)
       = Some (Py.upper m0)) /\
    (forall data v,
       LLMService._validate_extraction data raw = Py.Ok v ->
       LLMService.get_str v "cve_id"
       = Some (if Py.truthy (Py.get data "cve_id")
                  && Re.fullmatch (Validated.normalised data "cve_id")
               then Validated.normalised data "cve_id"
               else Py.upper m0)) /\
    (forall (self : LLMService.t) now r,
       LLMService.extract_vulnerability self raw now = Py.Ok r ->
       exists c, LLMService.cve_id r = Some c /\ Re.fullmatch c = true /\
                 (Outcome.is_fallback r -> c = Py.upper m0)) /\
    (forall (self : MultiProviderLLMService.t) now r,
       MultiProviderLLMService.extract_vulnerability self raw now = Py.Ok r ->
       exists c, LLMService.cve_id r = Some c /\ Re.fullmatch c = true /\
                 (Outcome.is_fallback r -> c = Py.upper m0)) /\
    (forall (self : LLMService.t) now r,
       LLMService.extract_vulnerability self raw now = Py.Ok r ->
       (Outcome.is_fallback r /\
        (exists msg, r = LLMService._create_fallback_result raw msg now) /\
        LLMService.cve_id r = Some (Py.upper m0))
       \/ (~ Outcome.is_fallback r /\
           exists res data,
             OllamaClient.generate_json (LLMService.ollama_client self)
               (LLMService.model self) (LLMService.build_prompt raw)
               (LLMService.temperature self) (Some LLMService.SYSTEM_PROMPT)
             = Py.Ok res /\
             OllamaClient.as_dict (OllamaClient.data res) = Py.Ok data /\
             LLMService.cve_id r
             = Some (if Py.truthy (Py.get data "cve_id")
                        && Re.fullmatch (Validated.normalised data "cve_id")
                     then Validated.normalised data "cve_id"
                     else Py.upper m0))) /\
    (forall (self : MultiProviderLLMService.t) now r,
       MultiProviderLLMService.extract_vulnerability self raw now = Py.Ok r ->
       (Outcome.is_fallback r /\
        (exists msg, r = LLMService._create_fallback_result raw msg now) /\
        LLMService.cve_id r = Some (Py.upper m0))
       \/ (~ Outcome.is_fallback r /\
           exists i p res data,
             MultiProviderLLMService.providers_to_try self !! i = Some p /\
             length (MultiProviderLLMService.attempted self raw now) = S i /\
             MultiProviderLLMService.generate_json p
               (MultiProviderLLMService.model self)
               (MultiProviderLLMService._build_extraction_prompt raw)
               LLMService.SYSTEM_PROMPT
               (MultiProviderLLMService.temperature self) = Py.Ok res /\
             OllamaClient.as_dict (OllamaClient.data res) = Py.Ok data /\
             LLMService.cve_id r
             = Some (if Py.truthy (Py.get data "cve_id")
                        && Re.fullmatch (Validated.normalised data "cve_id")
                     then Validated.normalised data "cve_id"
                     else Py.upper m0))).
Proof.
  intros Hraw Hm.
  destruct (search_complete p m q Hm) as (m0 & p0 & q0 & Hs & Heq & Hl).
  rewrite <- Hraw in Hs, Heq.
  exists m0, p0, q0. split; [done|]. split; [done|]. split; [done|].
  split; [eapply search_fullmatch; exact Hs|].
  assert (forall msg now,
            Outcome.is_fallback
              (LLMService._create_fallback_result raw msg now) /\
            LLMService.cve_id (LLMService._create_fallback_result raw msg now)
            = Some (Py.upper m0)) as Hfb.
  { intros msg now. split; [done|].
    cbn [LLMService.cve_id LLMService._create_fallback_result].
    by rewrite Hs. }
  assert (forall data v c thr meta,
            LLMService._validate_extraction data raw = Py.Ok v ->
            meta !! "fallback" = None ->
            ~ Outcome.is_fallback (Outcome.validated_result raw v c thr meta)
            /\ LLMService.cve_id (Outcome.validated_result raw v c thr meta)
               = Some (if Py.truthy (Py.get data "cve_id")
                          && Re.fullmatch (Validated.normalised data "cve_id")
                       then Validated.normalised data "cve_id"
                       else Py.upper m0)) as Hval.
  { intros data v c thr meta Hv Hmeta. split.
    - unfold Outcome.is_fallback.
      cbn [LLMService.extraction_metadata Outcome.validated_result].
      by rewrite Hmeta.
    - exact (validated_cve_id data _ v m0 Hv Hs). }
  split; [|split; [|split; [|split; [|split]]]].
  - intros msg now. apply Hfb.
  - intros data v Hv. exact (validated_cve_id data _ v m0 Hv Hs).
  - intros self now r Hr.
    eapply produced_cve_id; [by eapply llm_extract_produced|done].
  - intros self now r Hr.
    eapply produced_cve_id; [by eapply multi_extract_produced|done].
  - intros self now r Hr.
    destruct (llm_extract_returns self raw now r Hr)
      as [(e & _ & _ & ->)
         |(res & data & v & c & meta & Hres & Hdata & Hv & _ & Hmeta & ->)].
    + left. destruct (Hfb (Py.exn_msg e) now) as [H1 H2].
      split; [done|]. split; [by eexists|done].
    + right. destruct (Hval data v c (LLMService.confidence_threshold self)
                         meta Hv Hmeta) as [H1 H2].
      split; [done|]. by exists res, data.
  - intros self now r Hr.
    destruct (multi_extract_returns self raw now r Hr)
      as [(msg & ->)|(i & pv & Hp & Hlen & Ha)].
    + left. destruct (Hfb ("All providers failed: " +:+ msg) now) as [H1 H2].
      split; [done|]. split; [by eexists|done].
    + right.
      destruct (attempt_with_returns self raw now i pv r Ha)
        as (res & data & v & c & meta & Hres & Hdata & Hv & _ & Hmeta & ->).
      destruct (Hval data v c
                  (MultiProviderLLMService.confidence_threshold self)
                  meta Hv Hmeta) as [H1 H2].
      split; [done|]. by exists i, pv, res, data.
Qed.

Lemma C3_cve_id_of_result_witness :
  exists m0 p0 q0,
    Re.search Samples.scenario_raw = Some m0 /\
    Samples.scenario_raw = p0 +:+ m0 +:+ q0 /\
    (String.length p0 <= String.length "")%nat /\
    Re.fullmatch m0 = true /\
    forall msg now,
      LLMService.cve_id
        (LLMService._create_fallback_result (H := Samples.builtins)
           Samples.scenario_raw msg now)
      = Some (Py.upper m0).
Proof.
  destruct (C3_cve_id_of_result (B := Samples.builtins) Samples.scenario_raw
              "" "CVE-2024-5678" ": Test vulnerability" eq_refl eq_refl)
    as (m0 & p0 & q0 & H1 & H2 & H3 & H4 & H5 & _).
  by exists m0, p0, q0.
Defined.

(** C3, as stated, fails on the validated path: the raw text contains
    CVE-2024-5678, the provider answers with the well-formed CVE-2020-0001,
    and the result carries the provider's id. *)
Lemma C3_provider_id_wins_counterexample :
  Outcome.contains Samples.scenario_raw "CVE-2024-5678" /\
  Re.fullmatch "CVE-2024-5678" = true /\
  exists r,
    MultiProviderLLMService.extract_vulnerability (H := Samples.builtins)
      (Samples.multi Samples.other_cve_provider []) Samples.scenario_raw 0
    = Py.Ok r /\
    LLMService.cve_id r = Some "CVE-2020-0001" /\
    LLMService.cve_id r <> Some "CVE-2024-5678".
Proof.
  split; [by exists "", ": Test vulnerability"|]. split; [done|].
  eexists. split; [by vm_compute|]. by split.
Qed.

(* ===================================================================== *)
(** * The failure path (C4)                                               *)
(* ===================================================================== *)

Section FailurePathFacts.
Import Py LLMService Outcome.
Context `{B : Builtins}.




End FailurePathFacts.




(* ===================================================================== *)
(** * Which providers are called (C5)                                     *)
(* ===================================================================== *)

Section ChainOrderFacts.
Import Py LLMService MultiProviderLLMService.
Context `{B : Builtins}.
Variables (self : MultiProviderLLMService.t) (raw : string) (now : Z).

#[local] Abbreviation call p :=
  (generate_json p (MultiProviderLLMService.model self)
     (_build_extraction_prompt raw) SYSTEM_PROMPT
     (MultiProviderLLMService.temperature self)).

(** A connection or generation error of the call is one of the attempt. *)
Lemma call_failure_attempt attempt p e :
  call p = Raise e -> attempt_with self raw now attempt p = Raise e.
Proof. intros H. unfold attempt_with. by rewrite (bind_Raise _ _ _ H). Qed.

(** The provider at position [i] is called exactly when [i] is below
    max_retries and the call of every provider before it has raised a
    connection or a generation error. *)
Lemma attempted_exactly i p :
  providers_to_try self !! i = Some p ->
  (i < length (attempted self raw now))%nat
  <-> (Z.of_nat i < max_retries self /\
       forall j q, (j < i)%nat -> providers_to_try self !! j = Some q ->
         exists e, call q = Raise e /\
                   is_provider_failure (exn_cls e) = true).
Proof.
  intros Hp. unfold attempted, run.
  destruct (try_providers_outcome self raw now (providers_to_try self) 0 None)
    as [(Hlog & _ & Hwhy)|(i0 & p0 & Hp0 & Hlen & Hlim & Hprev & Hend)].
  - rewrite Hlog. destruct Hwhy as [Hwhy|Hwhy]; [done|].
    cbn [length]. split; [lia|]. intros [? _]. lia.
  - rewrite Hlen. cbn [Nat.add] in *. split.
    + intros Hi. split; [lia|]. intros j q Hj Hq.
      destruct (Hprev j q ltac:(lia) Hq) as (e & He & Hf).
      exists e. split; [|done]. by eapply attempt_with_failure.
    + intros [Hmax Hall].
      destruct (decide (i < S i0)%nat) as [|Hge]; [done|]. exfalso.
      destruct (Hall i0 p0 ltac:(lia) Hp0) as (e & He & Hf).
      rewrite (call_failure_attempt i0 p0 e He), Hf in Hend.
      destruct Hend as [_ [Hnone|Hle]]; [|lia].
      apply lookup_ge_None in Hnone. apply lookup_lt_Some in Hp. lia.
Qed.

End ChainOrderFacts.

(** C5.  The multi-provider service calls the providers in order, the
    primary first and then the fallbacks as listed; it calls at most
    max_retries (3 by default) of them in all.  The primary is called
    whenever max_retries is positive, and no provider is called
    otherwise.  The provider at position i is called exactly when i is
    below max_retries and the call of every provider before it has raised
    a connection or a generation error: the service moves on to the next
    provider after such an error, when there is one and the retries allow
    it, and only after such an error.  It stops at the first provider
    whose call returns, giving back what the attempt with that provider
    gives.  When the primary raises a
    connection error and the single fallback succeeds, the result records
    fallback_attempt 1 and the name of the fallback provider. *)
Theorem C5_provider_fallback_order `{B : Py.Builtins}
    (self : MultiProviderLLMService.t) (raw : string) (now : Z) :
  let ps := MultiProviderLLMService.providers_to_try self in
  let log := MultiProviderLLMService.attempted self raw now in
  let call p :=
    MultiProviderLLMService.generate_json p
      (MultiProviderLLMService.model self)
      (MultiProviderLLMService._build_extraction_prompt raw)
      LLMService.SYSTEM_PROMPT (MultiProviderLLMService.temperature self) in
  MultiProviderLLMService.default_max_retries = 3 /\
  ps = MultiProviderLLMService.primary_provider self
       :: MultiProviderLLMService.fallback_providers self /\
  log `prefix_of` (MultiProviderLLMService.provider_name <$> ps) /\
  Z.of_nat (length log) <= Z.max 0 (MultiProviderLLMService.max_retries self) /\
  (0 < MultiProviderLLMService.max_retries self ->
   log !! 0%nat
   = Some (MultiProviderLLMService.provider_name
             (MultiProviderLLMService.primary_provider self))) /\
  (MultiProviderLLMService.max_retries self <= 0 -> log = []) /\
  (forall i p,
     ps !! i = Some p ->
     log !! i = Some (MultiProviderLLMService.provider_name p)
     <-> (Z.of_nat i < MultiProviderLLMService.max_retries self /\
          forall j q, (j < i)%nat -> ps !! j = Some q ->
            exists e, call q = Py.Raise e /\
              (Py.exn_cls e = Py.LLMConnectionError
               \/ Py.exn_cls e = Py.LLMGenerationError))) /\
  (forall i p q e,
     ps !! i = Some p -> ps !! S i = Some q ->
     log !! i = Some (MultiProviderLLMService.provider_name p) ->
     call p = Py.Raise e ->
     Py.exn_cls e = Py.LLMConnectionError
     \/ Py.exn_cls e = Py.LLMGenerationError ->
     Z.of_nat (S i) < MultiProviderLLMService.max_retries self ->
     log !! S i = Some (MultiProviderLLMService.provider_name q)) /\
  (forall i p,
     ps !! i = Some p -> (S i < length log)%nat ->
     exists e, call p = Py.Raise e /\
       (Py.exn_cls e = Py.LLMConnectionError
        \/ Py.exn_cls e = Py.LLMGenerationError)) /\
  (forall i p res,
     ps !! i = Some p -> (i < length log)%nat -> call p = Py.Ok res ->
     length log = S i /\
     MultiProviderLLMService.extract_vulnerability self raw now
     = MultiProviderLLMService.attempt_with self raw now i p) /\
  (forall fb e r,
     MultiProviderLLMService.fallback_providers self = [fb] ->
     call (MultiProviderLLMService.primary_provider self) = Py.Raise e ->
     Py.exn_cls e = Py.LLMConnectionError ->
     2 <= MultiProviderLLMService.max_retries self ->
     MultiProviderLLMService.attempt_with self raw now 1 fb = Py.Ok r ->
     MultiProviderLLMService.extract_vulnerability self raw now = Py.Ok r /\
     log = [MultiProviderLLMService.provider_name
              (MultiProviderLLMService.primary_provider self);
            MultiProviderLLMService.provider_name fb] /\
     LLMService.extraction_metadata r !! "fallback_attempt"
     = Some (Py.PInt 1) /\
     LLMService.extraction_metadata r !! "provider"
     = Some (Py.PStr (MultiProviderLLMService.provider_name fb))).
Proof.
  intros ps log call.
  assert (log `prefix_of` (MultiProviderLLMService.provider_name <$> ps))
    as Hpre by apply try_providers_log_prefix.
  assert (forall i p, ps !! i = Some p ->
            log !! i = Some (MultiProviderLLMService.provider_name p)
            <-> (i < length log)%nat) as Hlook.
  { intros i p Hp. split; [by intros ?%lookup_lt_Some|]. intros Hi.
    destruct (lookup_lt_is_Some_2 log i Hi) as [x Hx].
    rewrite Hx. f_equal.
    pose proof (prefix_lookup_Some _ _ _ _ Hx Hpre) as Hx'.
    rewrite list_lookup_fmap, Hp in Hx'. by injection Hx' as <-. }
  assert (forall i p, ps !! i = Some p ->
            log !! i = Some (MultiProviderLLMService.provider_name p)
            <-> (Z.of_nat i < MultiProviderLLMService.max_retries self /\
                 forall j q, (j < i)%nat -> ps !! j = Some q ->
                   exists e, call q = Py.Raise e /\
                     (Py.exn_cls e = Py.LLMConnectionError
                      \/ Py.exn_cls e = Py.LLMGenerationError))) as Hiff.
  { intros i p Hp. rewrite (Hlook i p Hp). unfold log.
    rewrite (attempted_exactly self raw now i p Hp).
    split; intros [Hmax Hall]; (split; [done|]); intros j q Hj Hq;
      destruct (Hall j q Hj Hq) as (e & He & Hf); exists e;
      (split; [done|]).
    - destruct (Py.exn_cls e); try done; by auto.
    - by destruct Hf as [-> | ->]. }
  split; [done|]. split; [done|].
  split; [exact Hpre|].
  split.
  { pose proof (try_providers_log_length self raw now 0 ps None) as H.
    unfold log, MultiProviderLLMService.attempted, MultiProviderLLMService.run.
    fold ps. lia. }
  split.
  { intros Hmax. apply (Hiff 0%nat); [done|]. split; [lia|]. intros; lia. }
  split.
  { intros Hmax.
    pose proof (try_providers_log_length self raw now 0 ps None) as H.
    unfold log, MultiProviderLLMService.attempted, MultiProviderLLMService.run.
    fold ps. apply length_zero_iff_nil. lia. }
  split; [exact Hiff|].
  split.
  { intros i p q e Hp Hq Hi He Hcls Hmax. apply (Hiff (S i) q Hq).
    split; [done|]. intros j q' Hj Hq'.
    destruct (decide (j = i)) as [->|Hne].
    - assert (q' = p) as -> by congruence. by exists e.
    - destruct (proj1 (Hiff i p Hp) Hi) as [_ Hall].
      apply (Hall j q'); [lia|done]. }
  split; [|split].
  - intros i p Hp Hl.
    destruct (try_providers_advance self raw now 0 ps None i p Hp Hl)
      as (e & He & Hf).
    exists e. split; [by eapply attempt_with_failure|].
    destruct (Py.exn_cls e); try done; by auto.
  - intros i p res Hp Hl Hc.
    apply (try_providers_stop self raw now 0 ps None i p Hp Hl).
    intros e He.
    destruct (MultiProviderLLMService.is_provider_failure (Py.exn_cls e))
      eqn:Hf; [|done].
    pose proof (attempt_with_failure self raw now _ _ _ He Hf) as Hr.
    unfold call in Hc. congruence.
  - intros fb e r Hfb He Hcls Hmax Hr.
    assert (MultiProviderLLMService.run self raw now
            = ([MultiProviderLLMService.provider_name
                  (MultiProviderLLMService.primary_provider self);
                MultiProviderLLMService.provider_name fb], Py.Ok r)) as Hrun.
    { unfold MultiProviderLLMService.run,
        MultiProviderLLMService.providers_to_try. rewrite Hfb.
      cbn [app]. rewrite try_providers_cons.
      destruct (Z.leb_spec (MultiProviderLLMService.max_retries self)
                  (Z.of_nat 0)); [lia|].
      unfold MultiProviderLLMService.attempt_with at 1.
      rewrite (bind_Raise _ _ _ He), Hcls.
      cbn [MultiProviderLLMService.is_provider_failure].
      rewrite try_providers_cons.
      destruct (Z.leb_spec (MultiProviderLLMService.max_retries self)
                  (Z.of_nat 1)); [lia|].
      by rewrite Hr. }
    unfold MultiProviderLLMService.extract_vulnerability, log,
      MultiProviderLLMService.attempted. rewrite Hrun.
    split; [done|]. split; [done|].
    apply (attempt_with_metadata self raw now 1 fb r Hr).
Qed.

Lemma C5_provider_fallback_order_witness :
  let self :=
    Samples.multi (Samples.failing "ollama" Py.LLMConnectionError)
      [Samples.other_cve_provider] in
  exists r,
    MultiProviderLLMService.extract_vulnerability (H := Samples.builtins)
      self Samples.scenario_raw 0 = Py.Ok r /\
    MultiProviderLLMService.attempted (H := Samples.builtins)
      self Samples.scenario_raw 0 = ["ollama"; "claude"] /\
    LLMService.extraction_metadata r !! "fallback_attempt"
    = Some (Py.PInt 1) /\
    LLMService.extraction_metadata r !! "provider"
    = Some (Py.PStr "claude").
Proof.
  intros self.
  destruct (MultiProviderLLMService.attempt_with (H := Samples.builtins)
              self Samples.scenario_raw 0 1 Samples.other_cve_provider)
    as [r|e] eqn:Hr; [|by vm_compute in Hr].
  exists r.
  apply (proj2 (proj2 (proj2 (proj2 (proj2 (proj2 (proj2 (proj2 (proj2 (proj2
           (C5_provider_fallback_order (B := Samples.builtins) self
              Samples.scenario_raw 0))))))))))
           Samples.other_cve_provider (Py.Exn Py.LLMConnectionError "unreachable")
           r eq_refl eq_refl eq_refl);
    [by vm_compute|exact Hr].
Defined.

(* ===================================================================== *)
(** * Reconciliation with a stored row (C6)                               *)
(* ===================================================================== *)

(** C6, as the code has it.  When the extracted cve_id has a stored row,
    the raw entry is marked COMPLETED, with one more attempt and the time
    of processing.  If the new confidence is strictly greater than the
    stored one, the row is written back with the extraction's confidence,
    needs_review and metadata and a new updated_at; title, description,
    severity, CVSS vector and CVSS score take the extraction's value where
    the extraction has one (a string that is not empty, a score other than
    0) and keep the stored value where the extraction has none (None, the
    empty string, the score 0); the row is returned and no other row
    changes.  If the new confidence is not greater, nothing is returned
    and the table is left as it is. *)
Theorem C6_reconciliation_with_existing
    (clock : nat -> Z)
    (extract : string -> Z -> Py.py_result LLMService.ExtractionResult)
    (entry : Database.RawEntry) (w : Database.World)
    (x : LLMService.ExtractionResult) (key : string)
    (existing : Database.Vulnerability) :
  extract (Database.raw_payload entry) (clock (Database.clock_reads w))
  = Py.Ok x ->
  LLMService.cve_id x = Some key ->
  key <> "" ->
  Database.db_get w key = Some existing ->
  let result := (ProcessingService.process_entry clock extract entry w).1.1 in
  let entry' := (ProcessingService.process_entry clock extract entry w).1.2 in
  let w' := (ProcessingService.process_entry clock extract entry w).2 in
  Database.processing_status entry' = Database.COMPLETED /\
  Database.processing_attempts entry'
  = Database.processing_attempts entry + 1 /\
  Database.processed_at entry'
  = Some (clock (if Py.float_gt (LLMService.confidence_score x)
                      (Database.confidence_score existing)
                 then S (S (Database.clock_reads w))
                 else S (Database.clock_reads w))) /\
  Database.raw_entries w'
  = <[Database.id entry := entry']> (Database.raw_entries w) /\
  ((Database.confidence_score existing < LLMService.confidence_score x)%Q ->
   exists v',
     result = Some v' /\
     Database.db_get w' key = Some v' /\
     (forall k, k <> key -> Database.db_get w' k = Database.db_get w k) /\
     Database.keys w' = Database.keys w /\
     Database.cve_id v' = key /\
     Database.created_at v' = Database.created_at existing /\
     Database.updated_at v' = clock (S (Database.clock_reads w)) /\
     Database.confidence_score v' = LLMService.confidence_score x /\
     Database.needs_review v' = LLMService.needs_review x /\
     Database.extraction_metadata v' = LLMService.extraction_metadata x /\
     (forall s, LLMService.title x = Some s -> s <> "" ->
                Database.title v' = Some s) /\
     (LLMService.title x = None \/ LLMService.title x = Some "" ->
      Database.title v' = Database.title existing) /\
     (LLMService.description x <> "" ->
      Database.description v' = LLMService.description x) /\
     (LLMService.description x = "" ->
      Database.description v' = Database.description existing) /\
     (forall s, LLMService.severity x = Some s -> s <> "" ->
                Database.severity v' = Some s) /\
     (LLMService.severity x = None \/ LLMService.severity x = Some "" ->
      Database.severity v' = Database.severity existing) /\
     (forall s, LLMService.cvss_vector x = Some s -> s <> "" ->
                Database.cvss_vector v' = Some s) /\
     (LLMService.cvss_vector x = None
      \/ LLMService.cvss_vector x = Some "" ->
      Database.cvss_vector v' = Database.cvss_vector existing) /\
     (forall q, LLMService.cvss_score x = Some q -> ~ (q == 0)%Q ->
                Database.cvss_score v' = Some q) /\
     (LLMService.cvss_score x = None
      \/ (exists q, LLMService.cvss_score x = Some q /\ (q == 0)%Q) ->
      Database.cvss_score v' = Database.cvss_score existing)) /\
  ((LLMService.confidence_score x <= Database.confidence_score existing)%Q ->
   result = None /\
   Database.vulnerabilities w' = Database.vulnerabilities w).
Proof.
  intros Hx Hkey Hne Hget.
  destruct (db_get_Some _ _ _ Hget) as [Hk _].
  unfold ProcessingService.process_entry, ProcessingService.utcnow,
    ProcessingService.set_entry.
  cbn [Database.raw_entries Database.vulnerabilities Database.clock_reads
       Database.raw_payload Database.id].
  rewrite Hx, Hkey, (or_str_key key Hne).
  match goal with
  | |- context [Database.db_get ?w1 key] =>
      rewrite (db_get_ext w1 w key eq_refl), Hget
  end.
  destruct (Py.float_gt _ _) eqn:Hgt.
  - apply float_gt_spec in Hgt.
    cbn [fst snd Database.processing_status ProcessingService.mark
         Database.raw_entries ProcessingService.update_vulnerability
         Database.vulnerabilities Database.id].
    cbn [Database.processing_attempts Database.processed_at].
    split; [done|]. split; [done|]. split; [done|].
    split; [by rewrite insert_insert_eq|].
    split; [|intros Hle; by apply Qle_not_lt in Hle].
    intros _. eexists. split; [done|].
    unfold Database.db_get, Database.keys in *.
    cbn [Database.vulnerabilities Database.cve_id Database.created_at
         Database.updated_at Database.confidence_score Database.needs_review
         Database.extraction_metadata Database.title Database.description
         Database.severity Database.cvss_vector Database.cvss_score].
    split.
    { rewrite find_replace_row, Hget. cbn [Database.cve_id].
      by rewrite Hk, String.eqb_refl. }
    split.
    { intros k Hnk. rewrite find_replace_row. cbn [Database.cve_id].
      rewrite Hk. apply String.eqb_neq in Hnk. rewrite String.eqb_sym in Hnk.
      rewrite Hnk. exact (option_fmap_id _). }
    split; [apply replace_row_keys|].
    repeat split; try done.
    + intros s -> Hs. simpl. apply String.eqb_neq in Hs. by rewrite Hs.
    + by intros [-> | ->].
    + intros Hs. apply String.eqb_neq in Hs. by rewrite Hs.
    + by intros ->.
    + intros s -> Hs. simpl. apply String.eqb_neq in Hs. by rewrite Hs.
    + by intros [-> | ->].
    + intros s -> Hs. simpl. apply String.eqb_neq in Hs. by rewrite Hs.
    + by intros [-> | ->].
    + intros q -> Hq. simpl. destruct (Qeq_bool q 0) eqn:E; [|done].
      by apply Qeq_bool_iff in E.
    + intros [-> |(q & -> & Hq)]; [done|]. simpl.
      apply Qeq_bool_iff in Hq. by rewrite Hq.
  - cbn [fst snd Database.processing_status ProcessingService.mark
         Database.raw_entries Database.vulnerabilities Database.id
         Database.processing_attempts Database.processed_at].
    split; [done|]. split; [done|]. split; [done|].
    split; [by rewrite insert_insert_eq|].
    split; [|done].
    intros Hlt%float_gt_spec. congruence.
Qed.

Lemma C6_reconciliation_with_existing_witness :
  let run :=
    ProcessingService.process_entry Samples.ticking
      (fun _ _ => Py.Ok Samples.untitled_extraction) Samples.pending_entry
      (Samples.world_with [Samples.stored_vulnerability]) in
  Database.processing_status run.1.2 = Database.COMPLETED /\
  exists v', run.1.1 = Some v' /\
    Database.db_get run.2 "CVE-2024-1234" = Some v' /\
    Database.title v' = Some "Old title" /\
    Database.severity v' = Some "CRITICAL".
Proof.
  intros run.
  destruct (C6_reconciliation_with_existing Samples.ticking
              (fun _ _ => Py.Ok Samples.untitled_extraction)
              Samples.pending_entry
              (Samples.world_with [Samples.stored_vulnerability])
              Samples.untitled_extraction "CVE-2024-1234"
              Samples.stored_vulnerability eq_refl eq_refl ltac:(done) eq_refl)
    as (Hc & _ & _ & _ & Hup & _).
  split; [exact Hc|].
  destruct Hup as (v' & Hr & Hg & _ & _ & _ & _ & _ & _ & _ & _ & _ & Ht
                   & _ & _ & Hs & _); [by vm_compute|].
  exists v'. split; [exact Hr|]. split; [exact Hg|]. split.
  - apply Ht. by left.
  - by apply Hs.
Defined.

(** C6, as stated, fails where the extraction has no value for a field:
    an extraction without a title and with the higher confidence leaves
    the stored title in place. *)
Lemma C6_stored_title_kept_counterexample :
  let run :=
    ProcessingService.process_entry Samples.ticking
      (fun _ _ => Py.Ok Samples.untitled_extraction) Samples.pending_entry
      (Samples.world_with [Samples.stored_vulnerability]) in
  (Database.confidence_score Samples.stored_vulnerability
   < LLMService.confidence_score Samples.untitled_extraction)%Q /\
  LLMService.title Samples.untitled_extraction = None /\
  exists v', Database.db_get run.2 "CVE-2024-1234" = Some v' /\
    Database.title v' = Some "Old title" /\
    Database.title v' <> LLMService.title Samples.untitled_extraction.
Proof.
  intros run. split; [by vm_compute|]. split; [done|].
  eexists. split; [by vm_compute|]. by split.
Qed.

(* ===================================================================== *)
(** * One row for each CVE id (C7)                                        *)
(* ===================================================================== *)

(** C7.  In every state the pipeline can reach, no two rows of the table
    of vulnerabilities have the same CVE id.  Reconciliation is
    idempotent: when two entries are processed one after the other and
    extraction gives the same result for both, with a CVE id that was
    not stored, the first turn inserts a row and the second is a skip,
    because the confidence of the result is not greater than the one the
    row has got from it: nothing is returned, the table is left as the
    first turn left it, and both entries are COMPLETED.  Started on an
    empty table, the two turns leave exactly one row. *)
Theorem C7_one_row_per_cve_and_idempotence `{B : Py.Builtins} :
  (forall w,
     ProcessingService.reachable w ->
     NoDup (Database.cve_id <$> Database.vulnerabilities w)) /\
  (forall (clock : nat -> Z)
          (extract : string -> Z -> Py.py_result LLMService.ExtractionResult)
          (entry1 entry2 : Database.RawEntry) (w : Database.World)
          (x : LLMService.ExtractionResult) (key : string),
     LLMService.cve_id x = Some key -> key <> "" ->
     Database.db_get w key = None ->
     extract (Database.raw_payload entry1) (clock (Database.clock_reads w))
     = Py.Ok x ->
     extract (Database.raw_payload entry2)
       (clock (Database.clock_reads
                 (ProcessingService.process_entry clock extract entry1 w).2))
     = Py.Ok x ->
     let run1 := ProcessingService.process_entry clock extract entry1 w in
     let run2 :=
       ProcessingService.process_entry clock extract entry2 run1.2 in
     exists v,
       run1.1.1 = Some v /\
       Database.vulnerabilities run1.2 = Database.vulnerabilities w ++ [v] /\
       Database.cve_id v = key /\
       Database.confidence_score v = LLMService.confidence_score x /\
       Py.float_gt (LLMService.confidence_score x)
         (Database.confidence_score v) = false /\
       run2.1.1 = None /\
       Database.vulnerabilities run2.2 = Database.vulnerabilities run1.2 /\
       Database.processing_status run1.1.2 = Database.COMPLETED /\
       Database.processing_status run2.1.2 = Database.COMPLETED /\
       (Database.vulnerabilities w = [] ->
        Database.vulnerabilities run2.2 = [v])).
Proof.
  split.
  { intros w Hr. by destruct (reachable_invariant w Hr) as (_ & Hn & _). }
  intros clock extract entry1 entry2 w x key Hkey Hne Hget Hx1 Hx2 run1 run2.
  destruct (process_entry_inserts clock extract entry1 w x key
              Hx1 Hkey Hne Hget)
    as (v & Hr1 & Hv1 & _ & Hst1 & Hk & Hc & _).
  fold run1 in Hr1, Hv1, Hst1, Hx2.
  assert (Database.db_get run1.2 key = Some v) as Hget1.
  { unfold Database.db_get in *. rewrite Hv1.
    rewrite find_app_None by done. cbn. by rewrite Hk, String.eqb_refl. }
  destruct (process_entry_skips clock extract entry2 run1.2 x key v
              Hx2 Hkey Hne Hget1) as (Hr2 & Hv2 & Hst2).
  { rewrite Hc. apply Qle_refl. }
  fold run2 in Hr2, Hv2, Hst2.
  exists v. do 4 (split; [done|]). split.
  { rewrite Hc. destruct (Py.float_gt _ _) eqn:E; [|done].
    apply float_gt_spec in E. by apply Qlt_irrefl in E. }
  do 4 (split; [done|]).
  intros Hempty. by rewrite Hv2, Hv1, Hempty.
Qed.

Lemma C7_one_row_per_cve_and_idempotence_witness :
  let extract :=
    (fun (_ : string) (_ : Z) => Py.Ok Samples.untitled_extraction) in
  let run1 :=
    ProcessingService.process_entry Samples.ticking extract
      Samples.pending_entry (Samples.world_with []) in
  let run2 :=
    ProcessingService.process_entry Samples.ticking extract
      Samples.pending_entry run1.2 in
  exists v,
    run1.1.1 = Some v /\
    run2.1.1 = None /\
    Database.vulnerabilities run2.2 = [v] /\
    Database.cve_id v = "CVE-2024-1234".
Proof.
  intros extract run1 run2.
  destruct (proj2 (C7_one_row_per_cve_and_idempotence (B := Samples.builtins))
              Samples.ticking extract Samples.pending_entry
              Samples.pending_entry (Samples.world_with [])
              Samples.untitled_extraction "CVE-2024-1234"
              eq_refl ltac:(done) eq_refl eq_refl eq_refl)
    as (v & H1 & _ & H3 & _ & _ & H6 & _ & _ & _ & H10).
  exists v. split; [exact H1|]. split; [exact H6|].
  split; [by apply H10|exact H3].
Defined.

(* ===================================================================== *)
(** * The retry ceiling (C8)                                              *)
(* ===================================================================== *)

Section RetryCeilingFacts.
Import Py Database ProcessingService.
Context `{B : Builtins}.

Lemma exhausted_not_pending e :
  processing_status e = FAILED -> 3 <= processing_attempts e ->
  is_pending e = false.
Proof.
  intros Hf Ha. destruct (is_pending e) eqn:E; [|done].
  apply is_pending_spec in E as [E|[_ E]]; [congruence|lia].
Qed.

(** A batch leaves alone the rows that are not eligible. *)
Lemma process_batch_untouched clock config test_connection post batch_size
    w k e :
  well_keyed w ->
  raw_entries w !! k = Some e -> is_pending e = false ->
  raw_entries (process_batch clock config test_connection post
                 batch_size w).2 !! k = Some e.
Proof.
  intros Hw Hk Hp.
  destruct (process_batch_rows clock config test_connection post batch_size
              w Hw) as [_ Hrows].
  destruct config as [c|]; [|done].
  destruct (selected_model c) as [m|] eqn:Em;
    [|by unfold process_batch; rewrite Em].
  destruct (decide (m = "")) as [->|Hne];
    [by unfold process_batch; rewrite Em|].
  destruct test_connection as [u|e0];
    [|by unfold process_batch; rewrite Em, (or_str_key m Hne)].
  destruct (process_batch_selection clock c m u post batch_size
              _ w Hw Em Hne eq_refl) as (_ & _ & H2 & _).
  apply H2; [done|]. intros Hin.
  apply get_pending_entries_pending in Hin. congruence.
Qed.

(** A row that has failed three times stays as it is. *)
Lemma step_exhausted w w' k e :
  step w w' -> well_keyed w ->
  raw_entries w !! k = Some e ->
  processing_status e = FAILED -> 3 <= processing_attempts e ->
  raw_entries w' !! k = Some e.
Proof.
  intros [w0 e0 Hfree Hp0 Ha0|clock config tc post bs w0|clock days w0]
    Hw Hk Hf Ha.
  - cbn. rewrite lookup_insert_ne; [done|]. intros <-. congruence.
  - apply process_batch_untouched; [done..|].
    by apply exhausted_not_pending.
  - unfold purge_old_entries. cbn. apply map_lookup_filter_Some.
    split; [done|]. cbn. unfold is_purgeable.
    by rewrite bool_decide_eq_false_2 by congruence.
Qed.

Lemma steps_exhausted w w' k e :
  rtc step w w' -> reachable w ->
  raw_entries w !! k = Some e ->
  processing_status e = FAILED -> 3 <= processing_attempts e ->
  reachable w' /\ raw_entries w' !! k = Some e.
Proof.
  induction 1 as [|w1 w2 w3 H12 _ IH]; [done|].
  intros Hr Hk Hf Ha.
  destruct (reachable_invariant w1 Hr) as (Hw & _).
  apply IH; [|by eapply step_exhausted|done..].
  unfold reachable in *. etrans; [exact Hr|]. by apply rtc_once.
Qed.

End RetryCeilingFacts.

(** C8.  The selection of a batch holds only rows of the staging table
    that are PENDING, or FAILED with fewer than three attempts; a row that
    is FAILED with three attempts or more is in no selection.  Once a row
    of a reachable state has failed three times, it stays as it is
    whatever the pipeline does afterwards, and no later selection holds
    the row with its id.  So in every state the pipeline can reach a row
    has had three attempts at most; a FAILED row has had one at
    least. *)
Theorem C8_retry_ceiling `{B : Py.Builtins} :
  (forall config limit w e,
     e ∈ ProcessingService.get_pending_entries config limit w ->
     (exists k, Database.raw_entries w !! k = Some e) /\
     (Database.processing_status e = Database.PENDING
      \/ (Database.processing_status e = Database.FAILED
          /\ Database.processing_attempts e < 3))) /\
  (forall config limit w e,
     Database.processing_status e = Database.FAILED ->
     3 <= Database.processing_attempts e ->
     e ∉ ProcessingService.get_pending_entries config limit w) /\
  (forall w w' k e,
     ProcessingService.reachable w ->
     rtc ProcessingService.step w w' ->
     Database.raw_entries w !! k = Some e ->
     Database.processing_status e = Database.FAILED ->
     3 <= Database.processing_attempts e ->
     Database.raw_entries w' !! k = Some e /\
     forall config limit e',
       e' ∈ ProcessingService.get_pending_entries config limit w' ->
       Database.id e' <> k) /\
  (forall w k e,
     ProcessingService.reachable w ->
     Database.raw_entries w !! k = Some e ->
     0 <= Database.processing_attempts e <= 3 /\
     (Database.processing_status e = Database.FAILED ->
      1 <= Database.processing_attempts e)).
Proof.
  assert (forall config limit w e,
            e ∈ ProcessingService.get_pending_entries config limit w ->
            (exists k, Database.raw_entries w !! k = Some e) /\
            ProcessingService.is_pending e = true) as Hsel.
  { intros config limit w e Hin.
    unfold ProcessingService.get_pending_entries in Hin.
    apply elem_of_take in Hin as (i & Hi & _).
    apply list_elem_of_lookup_2 in Hi.
    by apply (proj2 (eligible_sorted w)) in Hi. }
  split; [|split; [|split]].
  - intros config limit w e Hin.
    destruct (Hsel config limit w e Hin) as [Hk Hp].
    split; [done|]. by apply is_pending_spec.
  - intros config limit w e Hf Ha Hin.
    destruct (Hsel config limit w e Hin) as [_ Hp].
    by rewrite (exhausted_not_pending e Hf Ha) in Hp.
  - intros w w' k e Hr Hsteps Hk Hf Ha.
    destruct (steps_exhausted w w' k e Hsteps Hr Hk Hf Ha) as [Hr' Hk'].
    split; [done|]. intros config limit e' Hin Hid.
    destruct (reachable_invariant w' Hr') as (Hw' & _).
    destruct (Hsel config limit w' e' Hin) as [[k' Hk2] Hp].
    pose proof (Hw' _ _ Hk2) as Hid2. rewrite Hid in Hid2. subst k'.
    assert (e' = e) as -> by congruence.
    by rewrite (exhausted_not_pending e Hf Ha) in Hp.
  - intros w k e Hr Hk.
    destruct (reachable_invariant w Hr) as (_ & _ & Hs).
    destruct (Hs k e Hk) as [[Hp H0]|([Hf|Hc] & Ha & _)].
    + split; [lia|]. congruence.
    + split; [lia|]. intros _. lia.
    + split; [lia|]. congruence.
Qed.

Lemma C8_retry_ceiling_witness :
  exists e,
    Database.raw_entries Samples.exhausted_world !! 2 = Some e /\
    Database.processing_status e = Database.FAILED /\
    Database.processing_attempts e = 3 /\
    Database.raw_entries (Samples.dead_batch Samples.exhausted_world) !! 2
    = Some e.
Proof.
  assert (ProcessingService.reachable (H := Samples.builtins)
            Samples.exhausted_world) as Hr.
  { unfold ProcessingService.reachable, Samples.exhausted_world.
    eapply rtc_l; [by apply (ProcessingService.step_ingest
                               ProcessingService.empty_world
                               Samples.anonymous_entry)|].
    eapply rtc_l; [apply ProcessingService.step_batch|].
    eapply rtc_l; [apply ProcessingService.step_batch|].
    apply rtc_once, ProcessingService.step_batch. }
  assert (exists e,
            Database.raw_entries Samples.exhausted_world !! 2 = Some e /\
            Database.processing_status e = Database.FAILED /\
            Database.processing_attempts e = 3) as (e & He & Hf & Ha)
    by (eexists; split; [|split]; by vm_compute).
  exists e. do 3 (split; [done|]).
  apply (proj1 (proj2 (proj2 (C8_retry_ceiling (B := Samples.builtins))))
           Samples.exhausted_world
           (Samples.dead_batch Samples.exhausted_world) 2 e Hr).
  - apply rtc_once, ProcessingService.step_batch.
  - exact He.
  - exact Hf.
  - rewrite Ha. lia.
Defined.

(* ===================================================================== *)
(** * The issue on the severity (C9)                                      *)
(* ===================================================================== *)

Section SeverityIssueFacts.
Context `{B : Py.Builtins}.
Import Py LLMService Validated.

(** No other step of validation words an issue as the severity step
    does. *)
Lemma severity_issue_of_stages data raw st3 s :
  validate_cvss_score data
    (validate_severity data (validate_cve_id data raw (∅, []))) = Ok st3 ->
  ("Invalid severity: " +:+ s) ∈ (st3.2 ++ ["Using raw text as description"])
  <-> (truthy (get data "severity") = true /\
       (normalised data "severity" ∉ VALID_SEVERITIES) /\
       s = normalised data "severity").
Proof.
  unfold validate_cvss_score, validate_severity, validate_cve_id, normalised.
  intros H.
  destruct (truthy (get data "severity")) eqn:Ht;
    [destruct (bool_decide _) eqn:Hb;
       [apply bool_decide_eq_true_1 in Hb
       |apply bool_decide_eq_false_1 in Hb]|];
    repeat case_match; simplify_eq; cbn [snd app];
    (split;
     [ rewrite ?elem_of_cons, elem_of_nil;
       intros Hin; repeat (destruct Hin as [Hin|Hin]); try done;
       rewrite ?app_cons, ?app_nil_l in Hin; by simplify_eq
     | intros (Ht' & Hn & ->); try done;
       rewrite ?elem_of_cons; by eauto 8 ]).
Qed.

Lemma severity_issue data raw v :
  _validate_extraction data raw = Ok v ->
  exists issues,
    v !! "_validation_issues" = Some (PList (PStr <$> issues)) /\
    forall s,
      ("Invalid severity: " +:+ s) ∈ issues
      <-> truthy (get data "severity") = true /\
          (normalised data "severity" ∉ VALID_SEVERITIES) /\
          s = normalised data "severity".
Proof.
  intros (st3 & st5 & E3 & E5 & ->)%validate_stages.
  exists st5.2. split; [by rewrite lookup_insert_eq|]. intros s.
  rewrite <- (severity_issue_of_stages data raw st3 s E3).
  unfold ensure_description in E5. cbn [fst snd] in E5.
  assert (st5.2 = st3.2 \/ st5.2 = st3.2 ++ ["Using raw text as description"])
    as [-> | ->].
  { destruct (_ !! "description") as [d|]; [|by injection E5 as <-; right].
    destruct (len d) as [n|]; simpl in E5; [|done].
    destruct (n <? 10)%nat; injection E5 as <-; [by right|by left]. }
  - rewrite elem_of_app, list_elem_of_singleton. split; [by left|].
    intros [?|Heq]; [done|]. by rewrite !app_cons in Heq.
  - done.
Qed.

End SeverityIssueFacts.

(** C9, as the code has it.  Validation stores an upper-case member of
    the severity set: the provider's value when it is one, UNKNOWN with a
    recorded issue when it is not, and UNKNOWN without an issue when the
    value is missing: an issue on the severity is recorded exactly for a
    value that is present and not in the set.
    The score is stored exactly when it converts to a float in
    [0.0, 10.0]; an answer that is dropped leaves an issue.  In the
    scenario (severity SUPER_HIGH, score 15.0, no cve_id, and a raw text
    whose first CVE id is CVE-2024-5678) the service returns a result with
    severity UNKNOWN, no score, that CVE id, a confidence below 0.8 and,
    at the threshold 0.8, needs_review set. *)
Theorem C9_validation_of_severity_and_cvss `{B : Py.Builtins} :
  (forall data raw v,
     LLMService._validate_extraction data raw = Py.Ok v ->
     exists issues,
       v !! "_validation_issues" = Some (Py.PList (Py.PStr <$> issues)) /\
       (exists s, v !! "severity" = Some (Py.PStr s) /\
                  s ∈ LLMService.VALID_SEVERITIES /\ Py.upper s = s) /\
       (Py.truthy (Py.get data "severity") = true ->
        Validated.normalised data "severity" ∈ LLMService.VALID_SEVERITIES ->
        v !! "severity"
        = Some (Py.PStr (Validated.normalised data "severity"))) /\
       (Py.truthy (Py.get data "severity") = true ->
        Validated.normalised data "severity" ∉ LLMService.VALID_SEVERITIES ->
        v !! "severity" = Some (Py.PStr "UNKNOWN") /\
        ("Invalid severity: " +:+ Validated.normalised data "severity")
          ∈ issues) /\
       (Py.truthy (Py.get data "severity") = false ->
        v !! "severity" = Some (Py.PStr "UNKNOWN") /\
        forall s, ("Invalid severity: " +:+ s) ∉ issues) /\
       (forall s,
          ("Invalid severity: " +:+ s) ∈ issues
          <-> Py.truthy (Py.get data "severity") = true /\
              (Validated.normalised data "severity"
                 ∉ LLMService.VALID_SEVERITIES) /\
              s = Validated.normalised data "severity") /\
       (v !! "cvss_score" = None
        \/ exists q, v !! "cvss_score" = Some (Py.PFloat (Py.FFinite q)) /\
                     (0 <= q)%Q /\ (q <= 10)%Q) /\
       (forall f,
          v !! "cvss_score" = Some (Py.PFloat f) <->
          Py.get data "cvss_score" <> Py.PNone /\
          Py.float (Py.get data "cvss_score") = Py.Ok f /\
          LLMService.cvss_in_range f = true) /\
       (Py.get data "cvss_score" <> Py.PNone ->
        v !! "cvss_score" = None ->
        exists issue, issue ∈ issues /\
          (issue = "Invalid CVSS score: "
                   +:+ Py.str (Py.get data "cvss_score")
           \/ exists f, issue = "CVSS score out of range: "
                                +:+ Py.str (Py.PFloat f)))) /\
  (forall (self : LLMService.t) raw now res data m,
     OllamaClient.generate_json (LLMService.ollama_client self)
       (LLMService.model self) (LLMService.build_prompt raw)
       (LLMService.temperature self) (Some LLMService.SYSTEM_PROMPT)
     = Py.Ok res ->
     OllamaClient.as_dict (OllamaClient.data res) = Py.Ok data ->
     Py.get data "severity" = Py.PStr "SUPER_HIGH" ->
     Py.get data "cvss_score" = Py.PFloat (Py.FFinite 15) ->
     Py.get data "cve_id" = Py.PNone ->
     Re.search raw = Some m ->
     Py.upper m = "CVE-2024-5678" ->
     (LLMService.confidence_threshold self == 8 # 10)%Q ->
     exists r,
       LLMService.extract_vulnerability self raw now = Py.Ok r /\
       LLMService.severity r = Some "UNKNOWN" /\
       LLMService.cvss_score r = None /\
       LLMService.cve_id r = Some "CVE-2024-5678" /\
       (LLMService.confidence_score r < 8 # 10)%Q /\
       LLMService.needs_review r = true).
Proof.
  split.
  - intros data raw v Hv.
    destruct (validated_issues data raw v Hv) as (issues & Hi & Hsev & Hcv).
    destruct (severity_issue data raw v Hv) as (issues2 & Hi2 & Hiff).
    assert (issues2 = issues) as ->.
    { rewrite Hi in Hi2. injection Hi2 as Hi2. symmetry.
      eapply (list_fmap_eq_inj Py.PStr); [|exact Hi2]. by intros ?? [=]. }
    destruct (validated_shape data raw v Hv) as [issues' Hs].
    pose proof (Validated.sh_severity _ _ _ _ Hs) as Hsv.
    pose proof (Validated.sh_cvss_score _ _ _ _ Hs) as Hc.
    exists issues. split; [done|].
    split; [|split; [|split; [|split; [|split]]]].
    + exists (Validated.severity_of data). split; [done|].
      split; [apply severity_of_valid|].
      apply valid_severity_upper, severity_of_valid.
    + intros Ht Hin. rewrite Hsv. unfold Validated.severity_of.
      by rewrite Ht, bool_decide_eq_true_2.
    + intros Ht Hin. split; [|by apply Hsev].
      rewrite Hsv. unfold Validated.severity_of.
      by rewrite Ht, bool_decide_eq_false_2.
    + intros Ht. split.
      * rewrite Hsv. unfold Validated.severity_of. by rewrite Ht.
      * intros s Hin. apply Hiff in Hin as [Ht' _]. congruence.
    + exact Hiff.
    + split; [|split].
      * rewrite Hc. destruct (Validated.cvss_of data) as [f|] eqn:E;
          [|by left].
        right. destruct (cvss_of_finite _ _ E) as (q & -> & ? & ? & _).
        by exists q.
      * intros f. rewrite Hc, <- cvss_of_spec.
        destruct (Validated.cvss_of data); simpl; split; congruence.
      * intros Hn Hnone. apply Hcv; [done|]. rewrite Hc in Hnone.
        by destruct (Validated.cvss_of data).
  - intros self raw now res data m Hg Hd Hsev Hcvss Hcve Hm Hup Hthr.
    assert (Py.returns (LLMService._validate_extraction data raw))
      as [v Hv].
    { apply validate_returns.
      destruct (LLMService.validate_severity _ _) as [vd iss].
      rewrite validate_cvss_score_unfold, Hcvss. by eexists. }
    destruct (validated_shape data raw v Hv) as [issues0 Hs0].
    destruct (confidence_of_shape data raw v issues0 Hs0) as (c & Hc & Hceq).
    destruct (llm_extract_on_success self raw now res data v c Hg Hd Hv Hc)
      as [meta Hr].
    destruct (validated_shape data raw v Hv) as [issues Hs].
    pose proof (Validated.sh_severity _ _ _ _ Hs) as Hsv.
    pose proof (Validated.sh_cvss_score _ _ _ _ Hs) as Hcs.
    pose proof (Validated.sh_cve_id _ _ _ _ Hs) as Hci.
    assert (Validated.severity_of data = "UNKNOWN") as Esev.
    { unfold Validated.severity_of, Validated.normalised.
      by rewrite Hsev. }
    assert (Validated.cvss_of data = None) as Ecv.
    { unfold Validated.cvss_of. by rewrite Hcvss. }
    assert (Validated.cve_of data raw = Some "CVE-2024-5678") as Ecve.
    { unfold Validated.cve_of. rewrite Hcve, Hm. simpl. by rewrite Hup. }
    rewrite Esev in Hsv. rewrite Ecv in Hcs. rewrite Ecve in Hci.
    assert (c < 8 # 10)%Q as Hlt.
    { rewrite Hceq. by apply confidence_without_severity_and_score. }
    eexists. split; [exact Hr|].
    cbn [LLMService.severity LLMService.cvss_score LLMService.cve_id
         LLMService.confidence_score LLMService.needs_review
         Outcome.validated_result].
    unfold LLMService.get_str, LLMService.get_float.
    rewrite Hsv, Hcs, Hci. repeat split; try done.
    apply float_lt_spec. by rewrite Hthr.
Qed.

Lemma C9_validation_of_severity_and_cvss_witness :
  LLMService._validate_extraction (H := Samples.builtins)
    Samples.scenario_data Samples.scenario_raw
  = Py.Ok Samples.scenario_validated /\
  Py.truthy (Py.get Samples.scenario_data "severity") = true /\
  ((Validated.normalised (B := Samples.builtins) Samples.scenario_data
      "severity") ∉ LLMService.VALID_SEVERITIES) /\
  Samples.scenario_validated !! "severity" = Some (Py.PStr "UNKNOWN") /\
  Samples.scenario_validated !! "cvss_score" = None /\
  exists issues,
    Samples.scenario_validated !! "_validation_issues"
    = Some (Py.PList (Py.PStr <$> issues)) /\
    "Invalid severity: SUPER_HIGH" ∈ issues.
Proof.
  assert (LLMService._validate_extraction (H := Samples.builtins)
            Samples.scenario_data Samples.scenario_raw
          = Py.Ok Samples.scenario_validated) as Hv by (by vm_compute).
  assert (Py.truthy (Py.get Samples.scenario_data "severity") = true)
    as Ht by (by vm_compute).
  assert ((Validated.normalised (B := Samples.builtins)
             Samples.scenario_data "severity") ∉ LLMService.VALID_SEVERITIES)
    as Hn.
  { replace (Validated.normalised (B := Samples.builtins)
               Samples.scenario_data "severity")
      with "SUPER_HIGH" by (by vm_compute).
    unfold LLMService.VALID_SEVERITIES. set_solver. }
  split; [done|]. split; [done|]. split; [done|].
  split; [by vm_compute|]. split; [by vm_compute|].
  destruct (proj1 (C9_validation_of_severity_and_cvss (B := Samples.builtins))
              Samples.scenario_data Samples.scenario_raw
              Samples.scenario_validated Hv)
    as (issues & Hi & _ & _ & Hinv & _).
  exists issues. split; [done|]. by apply Hinv.
Defined.

(** C9, as stated, fails for a missing severity: it becomes UNKNOWN, but
    no validation issue is recorded. *)
Lemma C9_missing_severity_counterexample :
  exists v,
    LLMService._validate_extraction (H := Samples.builtins)
      Samples.no_severity_data "CVE-2024-1234: authentication bypass"
    = Py.Ok v /\
    Samples.no_severity_data !! "severity" = None /\
    v !! "severity" = Some (Py.PStr "UNKNOWN") /\
    v !! "_validation_issues" = Some (Py.PList []).
Proof.
  eexists. split; [by vm_compute|]. split; [by vm_compute|].
  split; by vm_compute.
Qed.

(* ===================================================================== *)
(** * What a batch counts (C10)                                           *)
(* ===================================================================== *)




